(** * DynamicBandpassFilter: a shallow embedding of src/DynamicBandpassFilter.{h,cpp}

    The C++ class is one mutable object; here it is a record [Filter] and every
    member function is a function from the object before the call to the
    object after it (and the returned value).

    Modelling conventions.
    - [float] and [double] values are exact rationals ([Q]): rounding,
      infinities and NaN are outside the model.  Conversions between [int],
      [float] and [double] are therefore injections, and [static_cast<int>]
      of a float is truncation towards zero.
    - [int] is [Z]; [size_t] is [Z] (lengths) with the 64-bit wrap written out
      where the source adds to an unsigned counter.
    - [std::pow] and the magnitude of a complex number with a non-zero
      imaginary part are not rational functions: they are taken from a record
      [LibM] of the C math library.
    - The FFTW plans are external: the two transforms are taken from a record
      [Transform]; the plan and buffer pointers are modelled by their
      null-ness, the buffers being scratch that every block overwrites in
      full before it is read.  Only [process_block_on], the block on buffers
      that another thread has replaced by buffers of another size, takes the
      input buffer as a parameter.
    - One caller is modelled.  The mutexes are then transparent and the
      busy-wait loops on [processing_active_] fall through.  What other
      threads may do to the object while [process] is inside its block loop is
      an explicit parameter ([ProcessEnv]). *)

From Stdlib Require Import ZArith QArith Qabs Qround List Bool Lia Lqa.
Import ListNotations.
Open Scope Q_scope.

(** ** Numbers *)

(** [a < b] on floats, as a boolean. *)
Definition Qltb (a b : Q) : bool := negb (Qle_bool b a).

(** [std::max(a, b)]: [(a < b) ? b : a]. *)
Definition fmax (a b : Q) : Q := if Qltb a b then b else a.

(** [std::clamp(v, lo, hi)] on [int]: [(v < lo) ? lo : (hi < v) ? hi : v]. *)
Definition clamp (v lo hi : Z) : Z :=
  if (v <? lo)%Z then lo else if (hi <? v)%Z then hi else v.

(** [static_cast<int>(x)] for a float [x]: truncation towards zero. *)
Definition float_to_int (x : Q) : Z := Z.quot (Qnum x) (Z.pos (Qden x)).

(** [fetch_add] on an [std::atomic<size_t>]: addition modulo 2^64. *)
Definition size_t_add (a b : Z) : Z := ((a + b) mod 2 ^ 64)%Z.

(** The functions of the C math library the filter calls. *)
Record LibM := {
  powf : Q -> Q -> Q;      (* std::pow(float, float) *)
  hypotf : Q -> Q -> Q     (* the modulus of a complex number *)
}.

(** ** Complex samples: [std::complex<float>] and [fftwf_complex] *)

Record cplx := mkC { re : Q; im : Q }.

Definition czero : cplx := mkC 0 0.
Definition cone : cplx := mkC 1 0.

(** [std::complex<float> * std::complex<float>] *)
Definition cmul (a b : cplx) : cplx :=
  mkC (re a * re b - im a * im b) (re a * im b + im a * re b).

(** [std::complex<float> *= float] *)
Definition cscale (z : cplx) (k : Q) : cplx := mkC (re z * k) (im z * k).

(** [std::abs(std::complex<float>)].  The modulus of a real number is its
    absolute value; only a gain with an imaginary part needs the library. *)
Definition cabs (M : LibM) (z : cplx) : Q :=
  if Qeq_bool (im z) 0 then Qabs (re z) else hypotf M (re z) (im z).


(** ** Vectors *)

(** [v.resize(n, x)]: keep the first [n] elements, fill up with [x]. *)
Definition vec_resize {A} (n : nat) (x : A) (v : list A) : list A :=
  firstn n v ++ repeat x (n - length v).

(** [v[i] = f(v[i])] for an index in range; out of range the source would
    write outside the vector, which no caller below does. *)
Fixpoint vec_update {A} (i : nat) (f : A -> A) (v : list A) : list A :=
  match v, i with
  | [], _ => []
  | x :: v', O => f x :: v'
  | x :: v', S i' => x :: vec_update i' f v'
  end.

(** [for (int i = 0; i < n; ++i) v[i] = body(i, v[i]);] *)
Definition for_each_index {A} (n : nat) (body : nat -> A -> A) (v : list A)
  : list A :=
  fold_left (fun acc i => vec_update i (body i) acc) (seq 0 n) v.

(** ** The types of the header *)

Inductive Protocol := WFM | NBFM | AM | USB | LSB.

Inductive FilterShape := RECTANGULAR | HAMMING | BLACKMAN | KAISER.

Definition Protocol_eqb (a b : Protocol) : bool :=
  match a, b with
  | WFM, WFM | NBFM, NBFM | AM, AM | USB, USB | LSB, LSB => true
  | _, _ => false
  end.

(** [protocol == USB || protocol == LSB] *)
Definition is_ssb (p : Protocol) : bool :=
  Protocol_eqb p USB || Protocol_eqb p LSB.

Record FilterConfig := {
  protocol : Protocol;
  shape : FilterShape;
  stopband_attenuation : Q;
  center_frequency : Q;
  bandwidth : Q;
  sample_rate : Q;
  ssb_carrier_offset : Q;
  ssb_sharp_cutoff : bool
}.

Record FilterStats := {
  frequency_response : Q;
  attenuation : Q;
  is_active : bool;
  is_enabled : bool;
  samples_processed : Z;
  passband_width_hz : Q;
  stopband_attenuation_db : Q;
  processing_time_ms : Q;
  current_center_freq : Q;
  ssb_carrier_offset_hz : Q;
  ssb_mode_active : bool
}.

Record ProtocolDefaults := {
  passband_width : Q;
  transition_width : Q;
  stopband_atten : Q;
  carrier_offset : Q;
  sharp_cutoff : bool
}.

(** The table [PROTOCOL_DEFAULTS[]], indexed by the protocol. *)
Definition PROTOCOL_DEFAULTS (p : Protocol) : ProtocolDefaults :=
  match p with
  | WFM => Build_ProtocolDefaults 200000 0.1 60 0 false
  | NBFM => Build_ProtocolDefaults 12500 0.15 50 0 false
  | AM => Build_ProtocolDefaults 8000 0.2 40 0 false
  | USB => Build_ProtocolDefaults 3000 0.05 70 1500 true
  | LSB => Build_ProtocolDefaults 3000 0.05 70 (-1500) true
  end.

(** The private members of the class, in the order of the header. *)
Record Filter := {
  initialized_ : bool;
  enabled_ : bool;
  parameters_changed_ : bool;
  processing_active_ : bool;
  config_ : FilterConfig;
  fft_size_ : Z;
  overlap_size_ : Z;
  frequency_resolution_ : Q;
  forward_plan_ : bool;          (* the pointer is not null *)
  inverse_plan_ : bool;
  fft_input_ : bool;
  fft_output_ : bool;
  filter_kernel_ : list cplx;
  passband_low_hz_ : Q;
  passband_high_hz_ : Q;
  current_center_freq_ : Q;
  ssb_carrier_offset_ : Q;
  ssb_sharp_cutoff_ : bool;
  energy_history_ : list Q;
  energy_history_idx_ : Z;
  adaptive_alpha_ : Q;
  current_stats_ : FilterStats;
  total_samples_processed_ : Z
}.

(** ** Member assignment

    [set_x v s] is the object [s] after [x = v] (or [x.store(v)]). *)

Definition cfg_set_protocol (v : Protocol) (c : FilterConfig) : FilterConfig :=
  Build_FilterConfig
    v (shape c) (stopband_attenuation c) (center_frequency c) (bandwidth c)
    (sample_rate c) (ssb_carrier_offset c) (ssb_sharp_cutoff c).

Definition cfg_set_stopband_attenuation (v : Q) (c : FilterConfig) : FilterConfig :=
  Build_FilterConfig
    (protocol c) (shape c) v (center_frequency c) (bandwidth c)
    (sample_rate c) (ssb_carrier_offset c) (ssb_sharp_cutoff c).

Definition cfg_set_center_frequency (v : Q) (c : FilterConfig) : FilterConfig :=
  Build_FilterConfig
    (protocol c) (shape c) (stopband_attenuation c) v (bandwidth c)
    (sample_rate c) (ssb_carrier_offset c) (ssb_sharp_cutoff c).

Definition cfg_set_bandwidth (v : Q) (c : FilterConfig) : FilterConfig :=
  Build_FilterConfig
    (protocol c) (shape c) (stopband_attenuation c) (center_frequency c) v
    (sample_rate c) (ssb_carrier_offset c) (ssb_sharp_cutoff c).

Definition cfg_set_sample_rate (v : Q) (c : FilterConfig) : FilterConfig :=
  Build_FilterConfig
    (protocol c) (shape c) (stopband_attenuation c) (center_frequency c)
    (bandwidth c) v (ssb_carrier_offset c) (ssb_sharp_cutoff c).

Definition cfg_set_ssb_carrier_offset (v : Q) (c : FilterConfig) : FilterConfig :=
  Build_FilterConfig
    (protocol c) (shape c) (stopband_attenuation c) (center_frequency c)
    (bandwidth c) (sample_rate c) v (ssb_sharp_cutoff c).

Definition cfg_set_ssb_sharp_cutoff (v : bool) (c : FilterConfig) : FilterConfig :=
  Build_FilterConfig
    (protocol c) (shape c) (stopband_attenuation c) (center_frequency c)
    (bandwidth c) (sample_rate c) (ssb_carrier_offset c) v.

Definition stats_set_is_enabled (v : bool) (t : FilterStats) : FilterStats :=
  Build_FilterStats
    (frequency_response t) (attenuation t) (is_active t) v
    (samples_processed t) (passband_width_hz t) (stopband_attenuation_db t)
    (processing_time_ms t) (current_center_freq t) (ssb_carrier_offset_hz t)
    (ssb_mode_active t).

Definition stats_set_samples_processed (v : Z) (t : FilterStats) : FilterStats :=
  Build_FilterStats
    (frequency_response t) (attenuation t) (is_active t) (is_enabled t) v
    (passband_width_hz t) (stopband_attenuation_db t) (processing_time_ms t)
    (current_center_freq t) (ssb_carrier_offset_hz t) (ssb_mode_active t).

Definition stats_set_passband_width_hz (v : Q) (t : FilterStats) : FilterStats :=
  Build_FilterStats
    (frequency_response t) (attenuation t) (is_active t) (is_enabled t)
    (samples_processed t) v (stopband_attenuation_db t)
    (processing_time_ms t) (current_center_freq t) (ssb_carrier_offset_hz t)
    (ssb_mode_active t).

Definition stats_set_stopband_attenuation_db (v : Q) (t : FilterStats) : FilterStats :=
  Build_FilterStats
    (frequency_response t) (attenuation t) (is_active t) (is_enabled t)
    (samples_processed t) (passband_width_hz t) v (processing_time_ms t)
    (current_center_freq t) (ssb_carrier_offset_hz t) (ssb_mode_active t).

Definition stats_set_processing_time_ms (v : Q) (t : FilterStats) : FilterStats :=
  Build_FilterStats
    (frequency_response t) (attenuation t) (is_active t) (is_enabled t)
    (samples_processed t) (passband_width_hz t) (stopband_attenuation_db t) v
    (current_center_freq t) (ssb_carrier_offset_hz t) (ssb_mode_active t).

Definition stats_set_current_center_freq (v : Q) (t : FilterStats) : FilterStats :=
  Build_FilterStats
    (frequency_response t) (attenuation t) (is_active t) (is_enabled t)
    (samples_processed t) (passband_width_hz t) (stopband_attenuation_db t)
    (processing_time_ms t) v (ssb_carrier_offset_hz t) (ssb_mode_active t).

Definition stats_set_ssb_carrier_offset_hz (v : Q) (t : FilterStats) : FilterStats :=
  Build_FilterStats
    (frequency_response t) (attenuation t) (is_active t) (is_enabled t)
    (samples_processed t) (passband_width_hz t) (stopband_attenuation_db t)
    (processing_time_ms t) (current_center_freq t) v (ssb_mode_active t).

Definition stats_set_ssb_mode_active (v : bool) (t : FilterStats) : FilterStats :=
  Build_FilterStats
    (frequency_response t) (attenuation t) (is_active t) (is_enabled t)
    (samples_processed t) (passband_width_hz t) (stopband_attenuation_db t)
    (processing_time_ms t) (current_center_freq t) (ssb_carrier_offset_hz t)
    v.

Definition set_initialized (v : bool) (s : Filter) : Filter :=
  Build_Filter
    v (enabled_ s) (parameters_changed_ s) (processing_active_ s) (config_ s)
    (fft_size_ s) (overlap_size_ s) (frequency_resolution_ s)
    (forward_plan_ s) (inverse_plan_ s) (fft_input_ s) (fft_output_ s)
    (filter_kernel_ s) (passband_low_hz_ s) (passband_high_hz_ s)
    (current_center_freq_ s) (ssb_carrier_offset_ s) (ssb_sharp_cutoff_ s)
    (energy_history_ s) (energy_history_idx_ s) (adaptive_alpha_ s)
    (current_stats_ s) (total_samples_processed_ s).

Definition set_enabled (v : bool) (s : Filter) : Filter :=
  Build_Filter
    (initialized_ s) v (parameters_changed_ s) (processing_active_ s)
    (config_ s) (fft_size_ s) (overlap_size_ s) (frequency_resolution_ s)
    (forward_plan_ s) (inverse_plan_ s) (fft_input_ s) (fft_output_ s)
    (filter_kernel_ s) (passband_low_hz_ s) (passband_high_hz_ s)
    (current_center_freq_ s) (ssb_carrier_offset_ s) (ssb_sharp_cutoff_ s)
    (energy_history_ s) (energy_history_idx_ s) (adaptive_alpha_ s)
    (current_stats_ s) (total_samples_processed_ s).

Definition set_parameters_changed (v : bool) (s : Filter) : Filter :=
  Build_Filter
    (initialized_ s) (enabled_ s) v (processing_active_ s) (config_ s)
    (fft_size_ s) (overlap_size_ s) (frequency_resolution_ s)
    (forward_plan_ s) (inverse_plan_ s) (fft_input_ s) (fft_output_ s)
    (filter_kernel_ s) (passband_low_hz_ s) (passband_high_hz_ s)
    (current_center_freq_ s) (ssb_carrier_offset_ s) (ssb_sharp_cutoff_ s)
    (energy_history_ s) (energy_history_idx_ s) (adaptive_alpha_ s)
    (current_stats_ s) (total_samples_processed_ s).

Definition set_processing_active (v : bool) (s : Filter) : Filter :=
  Build_Filter
    (initialized_ s) (enabled_ s) (parameters_changed_ s) v (config_ s)
    (fft_size_ s) (overlap_size_ s) (frequency_resolution_ s)
    (forward_plan_ s) (inverse_plan_ s) (fft_input_ s) (fft_output_ s)
    (filter_kernel_ s) (passband_low_hz_ s) (passband_high_hz_ s)
    (current_center_freq_ s) (ssb_carrier_offset_ s) (ssb_sharp_cutoff_ s)
    (energy_history_ s) (energy_history_idx_ s) (adaptive_alpha_ s)
    (current_stats_ s) (total_samples_processed_ s).

Definition set_config (v : FilterConfig) (s : Filter) : Filter :=
  Build_Filter
    (initialized_ s) (enabled_ s) (parameters_changed_ s)
    (processing_active_ s) v (fft_size_ s) (overlap_size_ s)
    (frequency_resolution_ s) (forward_plan_ s) (inverse_plan_ s)
    (fft_input_ s) (fft_output_ s) (filter_kernel_ s) (passband_low_hz_ s)
    (passband_high_hz_ s) (current_center_freq_ s) (ssb_carrier_offset_ s)
    (ssb_sharp_cutoff_ s) (energy_history_ s) (energy_history_idx_ s)
    (adaptive_alpha_ s) (current_stats_ s) (total_samples_processed_ s).

Definition set_fft_size (v : Z) (s : Filter) : Filter :=
  Build_Filter
    (initialized_ s) (enabled_ s) (parameters_changed_ s)
    (processing_active_ s) (config_ s) v (overlap_size_ s)
    (frequency_resolution_ s) (forward_plan_ s) (inverse_plan_ s)
    (fft_input_ s) (fft_output_ s) (filter_kernel_ s) (passband_low_hz_ s)
    (passband_high_hz_ s) (current_center_freq_ s) (ssb_carrier_offset_ s)
    (ssb_sharp_cutoff_ s) (energy_history_ s) (energy_history_idx_ s)
    (adaptive_alpha_ s) (current_stats_ s) (total_samples_processed_ s).

Definition set_frequency_resolution (v : Q) (s : Filter) : Filter :=
  Build_Filter
    (initialized_ s) (enabled_ s) (parameters_changed_ s)
    (processing_active_ s) (config_ s) (fft_size_ s) (overlap_size_ s) v
    (forward_plan_ s) (inverse_plan_ s) (fft_input_ s) (fft_output_ s)
    (filter_kernel_ s) (passband_low_hz_ s) (passband_high_hz_ s)
    (current_center_freq_ s) (ssb_carrier_offset_ s) (ssb_sharp_cutoff_ s)
    (energy_history_ s) (energy_history_idx_ s) (adaptive_alpha_ s)
    (current_stats_ s) (total_samples_processed_ s).

Definition set_forward_plan (v : bool) (s : Filter) : Filter :=
  Build_Filter
    (initialized_ s) (enabled_ s) (parameters_changed_ s)
    (processing_active_ s) (config_ s) (fft_size_ s) (overlap_size_ s)
    (frequency_resolution_ s) v (inverse_plan_ s) (fft_input_ s)
    (fft_output_ s) (filter_kernel_ s) (passband_low_hz_ s)
    (passband_high_hz_ s) (current_center_freq_ s) (ssb_carrier_offset_ s)
    (ssb_sharp_cutoff_ s) (energy_history_ s) (energy_history_idx_ s)
    (adaptive_alpha_ s) (current_stats_ s) (total_samples_processed_ s).

Definition set_inverse_plan (v : bool) (s : Filter) : Filter :=
  Build_Filter
    (initialized_ s) (enabled_ s) (parameters_changed_ s)
    (processing_active_ s) (config_ s) (fft_size_ s) (overlap_size_ s)
    (frequency_resolution_ s) (forward_plan_ s) v (fft_input_ s)
    (fft_output_ s) (filter_kernel_ s) (passband_low_hz_ s)
    (passband_high_hz_ s) (current_center_freq_ s) (ssb_carrier_offset_ s)
    (ssb_sharp_cutoff_ s) (energy_history_ s) (energy_history_idx_ s)
    (adaptive_alpha_ s) (current_stats_ s) (total_samples_processed_ s).

Definition set_fft_input (v : bool) (s : Filter) : Filter :=
  Build_Filter
    (initialized_ s) (enabled_ s) (parameters_changed_ s)
    (processing_active_ s) (config_ s) (fft_size_ s) (overlap_size_ s)
    (frequency_resolution_ s) (forward_plan_ s) (inverse_plan_ s) v
    (fft_output_ s) (filter_kernel_ s) (passband_low_hz_ s)
    (passband_high_hz_ s) (current_center_freq_ s) (ssb_carrier_offset_ s)
    (ssb_sharp_cutoff_ s) (energy_history_ s) (energy_history_idx_ s)
    (adaptive_alpha_ s) (current_stats_ s) (total_samples_processed_ s).

Definition set_fft_output (v : bool) (s : Filter) : Filter :=
  Build_Filter
    (initialized_ s) (enabled_ s) (parameters_changed_ s)
    (processing_active_ s) (config_ s) (fft_size_ s) (overlap_size_ s)
    (frequency_resolution_ s) (forward_plan_ s) (inverse_plan_ s)
    (fft_input_ s) v (filter_kernel_ s) (passband_low_hz_ s)
    (passband_high_hz_ s) (current_center_freq_ s) (ssb_carrier_offset_ s)
    (ssb_sharp_cutoff_ s) (energy_history_ s) (energy_history_idx_ s)
    (adaptive_alpha_ s) (current_stats_ s) (total_samples_processed_ s).

Definition set_filter_kernel (v : list cplx) (s : Filter) : Filter :=
  Build_Filter
    (initialized_ s) (enabled_ s) (parameters_changed_ s)
    (processing_active_ s) (config_ s) (fft_size_ s) (overlap_size_ s)
    (frequency_resolution_ s) (forward_plan_ s) (inverse_plan_ s)
    (fft_input_ s) (fft_output_ s) v (passband_low_hz_ s)
    (passband_high_hz_ s) (current_center_freq_ s) (ssb_carrier_offset_ s)
    (ssb_sharp_cutoff_ s) (energy_history_ s) (energy_history_idx_ s)
    (adaptive_alpha_ s) (current_stats_ s) (total_samples_processed_ s).

Definition set_passband_low_hz (v : Q) (s : Filter) : Filter :=
  Build_Filter
    (initialized_ s) (enabled_ s) (parameters_changed_ s)
    (processing_active_ s) (config_ s) (fft_size_ s) (overlap_size_ s)
    (frequency_resolution_ s) (forward_plan_ s) (inverse_plan_ s)
    (fft_input_ s) (fft_output_ s) (filter_kernel_ s) v (passband_high_hz_ s)
    (current_center_freq_ s) (ssb_carrier_offset_ s) (ssb_sharp_cutoff_ s)
    (energy_history_ s) (energy_history_idx_ s) (adaptive_alpha_ s)
    (current_stats_ s) (total_samples_processed_ s).

Definition set_passband_high_hz (v : Q) (s : Filter) : Filter :=
  Build_Filter
    (initialized_ s) (enabled_ s) (parameters_changed_ s)
    (processing_active_ s) (config_ s) (fft_size_ s) (overlap_size_ s)
    (frequency_resolution_ s) (forward_plan_ s) (inverse_plan_ s)
    (fft_input_ s) (fft_output_ s) (filter_kernel_ s) (passband_low_hz_ s) v
    (current_center_freq_ s) (ssb_carrier_offset_ s) (ssb_sharp_cutoff_ s)
    (energy_history_ s) (energy_history_idx_ s) (adaptive_alpha_ s)
    (current_stats_ s) (total_samples_processed_ s).

Definition set_current_center_freq (v : Q) (s : Filter) : Filter :=
  Build_Filter
    (initialized_ s) (enabled_ s) (parameters_changed_ s)
    (processing_active_ s) (config_ s) (fft_size_ s) (overlap_size_ s)
    (frequency_resolution_ s) (forward_plan_ s) (inverse_plan_ s)
    (fft_input_ s) (fft_output_ s) (filter_kernel_ s) (passband_low_hz_ s)
    (passband_high_hz_ s) v (ssb_carrier_offset_ s) (ssb_sharp_cutoff_ s)
    (energy_history_ s) (energy_history_idx_ s) (adaptive_alpha_ s)
    (current_stats_ s) (total_samples_processed_ s).

Definition set_ssb_carrier_offset (v : Q) (s : Filter) : Filter :=
  Build_Filter
    (initialized_ s) (enabled_ s) (parameters_changed_ s)
    (processing_active_ s) (config_ s) (fft_size_ s) (overlap_size_ s)
    (frequency_resolution_ s) (forward_plan_ s) (inverse_plan_ s)
    (fft_input_ s) (fft_output_ s) (filter_kernel_ s) (passband_low_hz_ s)
    (passband_high_hz_ s) (current_center_freq_ s) v (ssb_sharp_cutoff_ s)
    (energy_history_ s) (energy_history_idx_ s) (adaptive_alpha_ s)
    (current_stats_ s) (total_samples_processed_ s).

Definition set_ssb_sharp_cutoff (v : bool) (s : Filter) : Filter :=
  Build_Filter
    (initialized_ s) (enabled_ s) (parameters_changed_ s)
    (processing_active_ s) (config_ s) (fft_size_ s) (overlap_size_ s)
    (frequency_resolution_ s) (forward_plan_ s) (inverse_plan_ s)
    (fft_input_ s) (fft_output_ s) (filter_kernel_ s) (passband_low_hz_ s)
    (passband_high_hz_ s) (current_center_freq_ s) (ssb_carrier_offset_ s) v
    (energy_history_ s) (energy_history_idx_ s) (adaptive_alpha_ s)
    (current_stats_ s) (total_samples_processed_ s).

Definition set_energy_history (v : list Q) (s : Filter) : Filter :=
  Build_Filter
    (initialized_ s) (enabled_ s) (parameters_changed_ s)
    (processing_active_ s) (config_ s) (fft_size_ s) (overlap_size_ s)
    (frequency_resolution_ s) (forward_plan_ s) (inverse_plan_ s)
    (fft_input_ s) (fft_output_ s) (filter_kernel_ s) (passband_low_hz_ s)
    (passband_high_hz_ s) (current_center_freq_ s) (ssb_carrier_offset_ s)
    (ssb_sharp_cutoff_ s) v (energy_history_idx_ s) (adaptive_alpha_ s)
    (current_stats_ s) (total_samples_processed_ s).

Definition set_energy_history_idx (v : Z) (s : Filter) : Filter :=
  Build_Filter
    (initialized_ s) (enabled_ s) (parameters_changed_ s)
    (processing_active_ s) (config_ s) (fft_size_ s) (overlap_size_ s)
    (frequency_resolution_ s) (forward_plan_ s) (inverse_plan_ s)
    (fft_input_ s) (fft_output_ s) (filter_kernel_ s) (passband_low_hz_ s)
    (passband_high_hz_ s) (current_center_freq_ s) (ssb_carrier_offset_ s)
    (ssb_sharp_cutoff_ s) (energy_history_ s) v (adaptive_alpha_ s)
    (current_stats_ s) (total_samples_processed_ s).

Definition set_current_stats (v : FilterStats) (s : Filter) : Filter :=
  Build_Filter
    (initialized_ s) (enabled_ s) (parameters_changed_ s)
    (processing_active_ s) (config_ s) (fft_size_ s) (overlap_size_ s)
    (frequency_resolution_ s) (forward_plan_ s) (inverse_plan_ s)
    (fft_input_ s) (fft_output_ s) (filter_kernel_ s) (passband_low_hz_ s)
    (passband_high_hz_ s) (current_center_freq_ s) (ssb_carrier_offset_ s)
    (ssb_sharp_cutoff_ s) (energy_history_ s) (energy_history_idx_ s)
    (adaptive_alpha_ s) v (total_samples_processed_ s).

Definition set_total_samples_processed (v : Z) (s : Filter) : Filter :=
  Build_Filter
    (initialized_ s) (enabled_ s) (parameters_changed_ s)
    (processing_active_ s) (config_ s) (fft_size_ s) (overlap_size_ s)
    (frequency_resolution_ s) (forward_plan_ s) (inverse_plan_ s)
    (fft_input_ s) (fft_output_ s) (filter_kernel_ s) (passband_low_hz_ s)
    (passband_high_hz_ s) (current_center_freq_ s) (ssb_carrier_offset_ s)
    (ssb_sharp_cutoff_ s) (energy_history_ s) (energy_history_idx_ s)
    (adaptive_alpha_ s) (current_stats_ s) v.

(** ** Construction and teardown *)

(** [current_stats_ = {}] *)
Definition stats_zero : FilterStats :=
  Build_FilterStats 0 0 false false 0 0 0 0 0 0 false.

(** [DynamicBandpassFilter::DynamicBandpassFilter()] *)
Definition constructed : Filter := {|
  initialized_ := false;
  enabled_ := false;
  parameters_changed_ := true;
  processing_active_ := false;
  config_ := {| protocol := WFM; shape := BLACKMAN;
                stopband_attenuation := 75; center_frequency := 0;
                bandwidth := 200000; sample_rate := 2048000;
                ssb_carrier_offset := 0; ssb_sharp_cutoff := false |};
  fft_size_ := 0;
  overlap_size_ := 0;
  frequency_resolution_ := 0;
  forward_plan_ := false;
  inverse_plan_ := false;
  fft_input_ := false;
  fft_output_ := false;
  filter_kernel_ := [];
  passband_low_hz_ := 0;
  passband_high_hz_ := 0;
  current_center_freq_ := 0;
  ssb_carrier_offset_ := 0;
  ssb_sharp_cutoff_ := false;
  energy_history_ := repeat 0 32;
  energy_history_idx_ := 0;
  adaptive_alpha_ := 0.05;
  current_stats_ := stats_zero;
  total_samples_processed_ := 0
|}.

(** [DynamicBandpassFilter::cleanup()] *)
Definition cleanup (s : Filter) : Filter :=
  let s := set_forward_plan false s in
  let s := set_inverse_plan false s in
  let s := set_fft_input false s in
  let s := set_fft_output false s in
  let s := set_filter_kernel [] s in
  let s := set_energy_history [] s in
  set_initialized false s.

(** [DynamicBandpassFilter::isValidForProcessing()] *)
Definition isValidForProcessing (s : Filter) : bool :=
  initialized_ s && enabled_ s && (0 <? fft_size_ s)%Z
  && Qltb 0 (frequency_resolution_ s).

(** ** The kernel designer *)

(** The frequency of FFT bin [i]: the [if (i <= fft_size / 2)] of the design
    loops. *)
Definition bin_frequency (fft_size : Z) (freq_res : Q) (i : Z) : Q :=
  if (i <=? Z.quot fft_size 2)%Z then inject_Z i * freq_res
  else inject_Z (i - fft_size) * freq_res.

(** The value of [response] at the end of the protocol branches of the loop
    body of [safelyUpdateKernel], before the stopband floor. *)
Definition shaped_response (proto : Protocol) (sharp : bool)
    (center low_cutoff high_cutoff freq_res freq : Q) : Q :=
  if is_ssb proto then
    if sharp then
      let transition := freq_res * 1 in
      let response :=
        if Qle_bool low_cutoff freq && Qle_bool freq high_cutoff then 1
        else if Qle_bool (low_cutoff - transition) freq
                && Qltb freq low_cutoff then
          let t := (freq - (low_cutoff - transition)) / transition in
          t * t * (3 - 2 * t)
        else if Qltb high_cutoff freq
                && Qle_bool freq (high_cutoff + transition) then
          let t := ((high_cutoff + transition) - freq) / transition in
          t * t * (3 - 2 * t)
        else 0 in
      if Protocol_eqb proto USB && Qltb freq center then response * 0.01
      else if Protocol_eqb proto LSB && Qltb center freq then response * 0.01
      else response
    else
      if Qle_bool low_cutoff freq && Qle_bool freq high_cutoff then 1 else 0
  else
    if Qle_bool low_cutoff freq && Qle_bool freq high_cutoff then 1
    else
      let transition := freq_res * 2 in
      if Qle_bool (low_cutoff - transition) freq && Qltb freq low_cutoff then
        (freq - (low_cutoff - transition)) / transition
      else if Qltb high_cutoff freq
              && Qle_bool freq (high_cutoff + transition) then
        ((high_cutoff + transition) - freq) / transition
      else 0.

(** [std::pow(10.0f, -static_cast<float>(stopband_attenuation) / 20.0f)] *)
Definition min_response (M : LibM) (c : FilterConfig) : Q :=
  powf M 10 (- stopband_attenuation c / 20).

(** The cutoffs [safelyUpdateKernel] computes before its loop. *)
Definition low_cutoff_of (s : Filter) : Q :=
  let low_cutoff := passband_low_hz_ s + current_center_freq_ s in
  if is_ssb (protocol (config_ s)) then low_cutoff + ssb_carrier_offset_ s
  else low_cutoff.

Definition high_cutoff_of (s : Filter) : Q :=
  let high_cutoff := passband_high_hz_ s + current_center_freq_ s in
  if is_ssb (protocol (config_ s)) then high_cutoff + ssb_carrier_offset_ s
  else high_cutoff.

(** What one iteration of the loop of [safelyUpdateKernel] stores in
    [filter_kernel_[i]]. *)
Definition kernel_bin (M : LibM) (s : Filter) (i : Z) : cplx :=
  let freq := bin_frequency (fft_size_ s) (frequency_resolution_ s) i in
  let response :=
    shaped_response (protocol (config_ s)) (ssb_sharp_cutoff_ s)
      (current_center_freq_ s) (low_cutoff_of s) (high_cutoff_of s)
      (frequency_resolution_ s) freq in
  let response := fmax response (min_response M (config_ s)) in
  mkC response 0.

(** [DynamicBandpassFilter::safelyUpdateKernel()] *)
Definition safelyUpdateKernel (M : LibM) (s : Filter) : Filter :=
  if negb (isValidForProcessing s) then s
  else
    let fft_size := fft_size_ s in
    let kernel :=
      if (Z.of_nat (length (filter_kernel_ s)) =? fft_size)%Z
      then filter_kernel_ s
      else vec_resize (Z.to_nat fft_size) cone (filter_kernel_ s) in
    set_filter_kernel
      (for_each_index (Z.to_nat fft_size)
         (fun i _ => kernel_bin M s (Z.of_nat i)) kernel) s.

(** The factor the loop body of [applySSBShaping] multiplies bin [i] by. *)
Definition suppression_factor (proto : Protocol) (center_freq freq : Q) : Q :=
  if Protocol_eqb proto USB && Qltb freq center_freq then
    let distance := Qabs (freq - center_freq) in
    if Qltb distance 3000 then 0.001 else 0.1
  else if Protocol_eqb proto LSB && Qltb center_freq freq then
    let distance := Qabs (freq - center_freq) in
    if Qltb distance 3000 then 0.001 else 0.1
  else 1.

(** [DynamicBandpassFilter::applySSBShaping(fft_size, freq_res)] *)
Definition applySSBShaping (fft_size : Z) (freq_res : Q) (s : Filter) : Filter :=
  if negb (Z.of_nat (length (filter_kernel_ s)) =? fft_size)%Z then s
  else
    let current_protocol := protocol (config_ s) in
    if negb (is_ssb current_protocol) then s
    else
      let center_freq := current_center_freq_ s in
      set_filter_kernel
        (for_each_index (Z.to_nat fft_size)
           (fun i z =>
              cscale z (suppression_factor current_protocol center_freq
                          (bin_frequency fft_size freq_res (Z.of_nat i))))
           (filter_kernel_ s)) s.

(** [DynamicBandpassFilter::designSSBFilter()] *)
Definition designSSBFilter (M : LibM) (s : Filter) : Filter :=
  if negb (isValidForProcessing s) then s
  else
    let s := safelyUpdateKernel M s in
    applySSBShaping (fft_size_ s) (frequency_resolution_ s) s.

(** [DynamicBandpassFilter::designFilter()] *)
Definition designFilter (M : LibM) (s : Filter) : Filter :=
  if negb (isValidForProcessing s) then s
  else
    let current_protocol := protocol (config_ s) in
    let s := if is_ssb current_protocol then designSSBFilter M s
             else safelyUpdateKernel M s in
    let t := current_stats_ s in
    let t := stats_set_passband_width_hz
               (passband_high_hz_ s - passband_low_hz_ s) t in
    let t := stats_set_current_center_freq (current_center_freq_ s) t in
    let t := stats_set_ssb_carrier_offset_hz (ssb_carrier_offset_ s) t in
    let t := stats_set_stopband_attenuation_db
               (stopband_attenuation (config_ s)) t in
    let t := stats_set_ssb_mode_active (is_ssb (protocol (config_ s))) t in
    set_current_stats t s.

(** [DynamicBandpassFilter::updateFilterParameters()] *)
Definition updateFilterParameters (M : LibM) (s : Filter) : Filter :=
  if negb (isValidForProcessing s) then s
  else if negb (parameters_changed_ s) then s
  else
    let defaults := PROTOCOL_DEFAULTS (protocol (config_ s)) in
    let half_bandwidth := passband_width defaults / 2 in
    let current_low := passband_low_hz_ s in
    let current_high := passband_high_hz_ s in
    let s :=
      if is_ssb (protocol (config_ s)) then
        let s := set_ssb_carrier_offset (ssb_carrier_offset (config_ s)) s in
        set_ssb_sharp_cutoff (ssb_sharp_cutoff (config_ s)) s
      else if Qltb (Qabs (current_low + current_high)) 1 then
        let s := set_passband_low_hz (- half_bandwidth) s in
        set_passband_high_hz half_bandwidth s
      else s in
    let s := designFilter M s in
    set_parameters_changed false s.

(** What [designFilter] leaves in bin [i]: the floored response, scaled by
    the sideband suppression factor when the protocol is USB or LSB. *)
Definition designed_bin (M : LibM) (s : Filter) (i : Z) : cplx :=
  if is_ssb (protocol (config_ s)) then
    cscale (kernel_bin M s i)
      (suppression_factor (protocol (config_ s)) (current_center_freq_ s)
         (bin_frequency (fft_size_ s) (frequency_resolution_ s) i))
  else kernel_bin M s i.

(** The members that neither the kernel designer nor the parameter update
    writes. *)
Definition same_resources (s s' : Filter) : Prop :=
  initialized_ s' = initialized_ s
  /\ enabled_ s' = enabled_ s
  /\ fft_size_ s' = fft_size_ s
  /\ frequency_resolution_ s' = frequency_resolution_ s
  /\ config_ s' = config_ s
  /\ current_center_freq_ s' = current_center_freq_ s
  /\ (forward_plan_ s' = forward_plan_ s /\ inverse_plan_ s' = inverse_plan_ s
      /\ fft_input_ s' = fft_input_ s /\ fft_output_ s' = fft_output_ s)
  /\ total_samples_processed_ s' = total_samples_processed_ s
  /\ samples_processed (current_stats_ s') = samples_processed (current_stats_ s).

(** ** Initialization *)

(** [DynamicBandpassFilter::initialize(sample_rate, fft_size)].  Whether
    [fftwf_malloc] and [fftwf_plan_dft_1d] succeed is decided outside the
    class: [buffers_ok] and [plans_ok].  The result is the object and the
    returned flag. *)
Definition initialize (M : LibM) (buffers_ok plans_ok : bool)
    (sample_rate fft_size : Z) (s : Filter) : Filter * bool :=
  if (sample_rate <=? 0)%Z || (fft_size <? 256)%Z
     || negb (Z.land fft_size (fft_size - 1) =? 0)%Z
  then (s, false)
  else
    let s := cleanup s in
    let s := set_config (cfg_set_sample_rate (inject_Z sample_rate) (config_ s)) s in
    let s := set_fft_size fft_size s in
    let s := set_frequency_resolution
               (inject_Z sample_rate / inject_Z fft_size) s in
    if negb buffers_ok then (cleanup s, false)
    else
      let s := set_fft_input true s in
      let s := set_fft_output true s in
      if negb plans_ok then (cleanup s, false)
      else
        let s := set_forward_plan true s in
        let s := set_inverse_plan true s in
        let s := set_filter_kernel
                   (vec_resize (Z.to_nat fft_size) cone (filter_kernel_ s)) s in
        let defaults := PROTOCOL_DEFAULTS (protocol (config_ s)) in
        let half_bandwidth := passband_width defaults / 2 in
        let s := set_passband_low_hz (- half_bandwidth) s in
        let s := set_passband_high_hz half_bandwidth s in
        let s := set_current_center_freq (center_frequency (config_ s)) s in
        let s := set_ssb_carrier_offset (carrier_offset defaults) s in
        let s := set_ssb_sharp_cutoff (sharp_cutoff defaults) s in
        let s := designFilter M s in
        let t := stats_zero in
        let t := stats_set_is_enabled (enabled_ s) t in
        let t := stats_set_ssb_mode_active (is_ssb (protocol (config_ s))) t in
        let t := stats_set_ssb_carrier_offset_hz (carrier_offset defaults) t in
        let s := set_current_stats t s in
        let s := set_initialized true s in
        let s := set_parameters_changed false s in
        (s, true).

(** ** Configuration mutators *)

(** [DynamicBandpassFilter::configure(config)] *)
Definition configure (config : FilterConfig) (s : Filter) : Filter :=
  if negb (initialized_ s) then s
  else
    let s := set_config config s in
    let s := set_ssb_carrier_offset (ssb_carrier_offset config) s in
    let s := set_ssb_sharp_cutoff (ssb_sharp_cutoff config) s in
    set_parameters_changed true s.

(** [DynamicBandpassFilter::setEnabled(enabled)] *)
Definition setEnabled (enabled : bool) (s : Filter) : Filter :=
  let s := set_enabled enabled s in
  set_current_stats (stats_set_is_enabled enabled (current_stats_ s)) s.

(** [DynamicBandpassFilter::setProtocol(protocol)] *)
Definition setProtocol (p : Protocol) (s : Filter) : Filter :=
  if negb (initialized_ s) then s
  else if Protocol_eqb (protocol (config_ s)) p then s
  else
    let s := set_config (cfg_set_protocol p (config_ s)) s in
    let defaults := PROTOCOL_DEFAULTS p in
    let half_bandwidth := passband_width defaults / 2 in
    let s := set_passband_low_hz (- half_bandwidth) s in
    let s := set_passband_high_hz half_bandwidth s in
    let s := set_config (cfg_set_bandwidth (passband_width defaults) (config_ s)) s in
    let s := set_config
               (cfg_set_stopband_attenuation (stopband_atten defaults) (config_ s)) s in
    let s := set_config
               (cfg_set_ssb_carrier_offset (carrier_offset defaults) (config_ s)) s in
    let s := set_config
               (cfg_set_ssb_sharp_cutoff (sharp_cutoff defaults) (config_ s)) s in
    let s := set_ssb_carrier_offset (carrier_offset defaults) s in
    let s := set_ssb_sharp_cutoff (sharp_cutoff defaults) s in
    let s := set_parameters_changed true s in
    let t := current_stats_ s in
    let t := stats_set_ssb_mode_active (is_ssb p) t in
    let t := stats_set_ssb_carrier_offset_hz (carrier_offset defaults) t in
    set_current_stats t s.

(** [DynamicBandpassFilter::setPassband(low_freq, high_freq)] *)
Definition setPassband (low_freq high_freq : Q) (s : Filter) : Filter :=
  if Qle_bool high_freq low_freq || negb (initialized_ s) then s
  else
    let s := set_passband_low_hz low_freq s in
    let s := set_passband_high_hz high_freq s in
    set_parameters_changed true s.

(** [DynamicBandpassFilter::setCenterFrequency(center_freq)] *)
Definition setCenterFrequency (center_freq : Q) (s : Filter) : Filter :=
  if negb (initialized_ s) then s
  else
    let s := set_current_center_freq center_freq s in
    let s := set_config (cfg_set_center_frequency center_freq (config_ s)) s in
    set_parameters_changed true s.

(** [DynamicBandpassFilter::setSSBCarrierOffset(offset_hz)] *)
Definition setSSBCarrierOffset (offset_hz : Q) (s : Filter) : Filter :=
  if negb (initialized_ s) then s
  else
    let s := set_ssb_carrier_offset offset_hz s in
    let s := set_config (cfg_set_ssb_carrier_offset offset_hz (config_ s)) s in
    let s := set_parameters_changed true s in
    set_current_stats
      (stats_set_ssb_carrier_offset_hz offset_hz (current_stats_ s)) s.

(** [DynamicBandpassFilter::setSSBSharpCutoff(enabled)] *)
Definition setSSBSharpCutoff (enabled : bool) (s : Filter) : Filter :=
  if negb (initialized_ s) then s
  else
    let s := set_ssb_sharp_cutoff enabled s in
    let s := set_config (cfg_set_ssb_sharp_cutoff enabled (config_ s)) s in
    set_parameters_changed true s.

(** ** Queries *)

(** [DynamicBandpassFilter::isInitialized()] *)
Definition isInitialized (s : Filter) : bool := initialized_ s.

(** [DynamicBandpassFilter::getSSBCarrierOffset()] *)
Definition getSSBCarrierOffset (s : Filter) : Q := ssb_carrier_offset_ s.

(** [DynamicBandpassFilter::isSSBMode()] *)
Definition isSSBMode (s : Filter) : bool := is_ssb (protocol (config_ s)).

(** [DynamicBandpassFilter::getResponse(frequency)] *)
Definition getResponse (M : LibM) (s : Filter) (frequency : Q) : Q :=
  if negb (isValidForProcessing s) then 1
  else
    match filter_kernel_ s with
    | [] => 1
    | _ =>
      let sample_rate := sample_rate (config_ s) in
      let nyquist := sample_rate / 2 in
      if Qltb nyquist (Qabs frequency) then 0
      else
        let freq_res := frequency_resolution_ s in
        let fft_size := fft_size_ s in
        let bin := float_to_int ((frequency + nyquist) / freq_res) in
        let bin := clamp bin 0 (fft_size - 1) in
        if (bin <? Z.of_nat (length (filter_kernel_ s)))%Z
        then cabs M (nth (Z.to_nat bin) (filter_kernel_ s) czero)
        else 1
    end.

(** The bin [getResponse] reads for a frequency inside the Nyquist range:
    frequency [-Nyquist] is bin 0 and frequency 0 is bin [N/2]. *)
Definition response_bin (s : Filter) (frequency : Q) : Z :=
  clamp
    (float_to_int ((frequency + sample_rate (config_ s) / 2)
                   / frequency_resolution_ s))
    0 (fft_size_ s - 1).

(** [DynamicBandpassFilter::getConfiguration()] *)
Definition getConfiguration (s : Filter) : FilterConfig := config_ s.

(** [DynamicBandpassFilter::getStats()] *)
Definition getStats (s : Filter) : FilterStats :=
  let stats := current_stats_ s in
  let stats := stats_set_passband_width_hz
                 (passband_high_hz_ s - passband_low_hz_ s) stats in
  let stats := stats_set_current_center_freq (current_center_freq_ s) stats in
  let stats := stats_set_ssb_carrier_offset_hz (ssb_carrier_offset_ s) stats in
  let stats := stats_set_stopband_attenuation_db
                 (stopband_attenuation (config_ s)) stats in
  stats_set_ssb_mode_active (is_ssb (protocol (config_ s))) stats.

(** [DynamicBandpassFilter::reset()] *)
Definition reset (s : Filter) : Filter :=
  if negb (initialized_ s) then s
  else
    let s := set_energy_history
               (map (fun _ => 0) (energy_history_ s)) s in
    let s := set_energy_history_idx 0%Z s in
    let s := set_current_center_freq (center_frequency (config_ s)) s in
    let s := set_ssb_carrier_offset (ssb_carrier_offset (config_ s)) s in
    let s := set_total_samples_processed 0%Z s in
    let t := current_stats_ s in
    let t := stats_set_samples_processed 0%Z t in
    let t := stats_set_processing_time_ms 0 t in
    set_current_stats t s.

(** ** The processing pipeline *)

(** The two FFTW plans: what [fftwf_execute] computes from the input buffer
    of a plan. *)
Record Transform := {
  fft_forward : list cplx -> list cplx;
  fft_backward : list cplx -> list cplx
}.

(** [fftwf_execute(plan)] on buffers of [n] entries: the output buffer is
    overwritten with the transform of the input buffer. *)
Definition execute (n : nat) (plan : list cplx -> list cplx)
    (buffer : list cplx) : list cplx :=
  vec_resize n czero (plan buffer).

(** What a call of [process] does not control: the writes of other threads
    to the object that become visible at the start of iteration [k] of the
    block loop, whether an exception is raised in iteration [k], and the
    time the clock measures for the loop, in microseconds. *)
Record ProcessEnv := {
  interfere : nat -> Filter -> Filter;
  throws : nat -> bool;
  elapsed_us : Z
}.

(** A call that runs alone and raises nothing. *)
Definition quiet (elapsed : Z) : ProcessEnv := {|
  interfere := fun _ s => s;
  throws := fun _ => false;
  elapsed_us := elapsed
|}.

(** The body of the block loop between the resource check and
    [pos += block_size]: the samples appended to [output]. *)
Definition process_block (T : Transform) (s : Filter) (current_fft_size : Z)
    (input : list cplx) (pos block_size : nat) : list cplx :=
  let n := Z.to_nat current_fft_size in
  (* memset, then copy the block in *)
  let fft_input :=
    for_each_index block_size (fun i _ => nth (pos + i) input czero)
      (repeat czero n) in
  let fft_output := execute n (fft_forward T) fft_input in
  let fft_output :=
    if (Z.of_nat (length (filter_kernel_ s)) =? current_fft_size)%Z then
      for_each_index n
        (fun i sample => cmul sample (nth i (filter_kernel_ s) czero))
        fft_output
    else fft_output in
  let fft_input := execute n (fft_backward T) fft_output in
  let norm := 1 / inject_Z current_fft_size in
  map (fun i => mkC (re (nth i fft_input czero) * norm)
                    (im (nth i fft_input czero) * norm))
      (seq 0 block_size).

(** How the block loop of [process] ends. *)
Inductive LoopResult :=
| Finished (s : Filter) (output : list cplx)   (* the loop was left *)
| Raised (s : Filter)                          (* an exception reached catch *)
| Running.                                     (* more iterations are due *)

(** [while (pos < input.size() && isValidForProcessing()) { ... }], iteration
    [k] first, for at most [fuel] evaluations of the loop condition. *)
Fixpoint process_loop (T : Transform) (env : ProcessEnv)
    (current_fft_size : Z) (input : list cplx)
    (fuel k pos : nat) (s : Filter) (output : list cplx) : LoopResult :=
  match fuel with
  | O => Running
  | S fuel' =>
    let s := interfere env k s in
    if (pos <? length input)%nat && isValidForProcessing s then
      let block_size :=
        Nat.min (Z.to_nat current_fft_size) (length input - pos) in
      if negb (fft_input_ s) || negb (fft_output_ s)
         || negb (forward_plan_ s) || negb (inverse_plan_ s)
      then Finished s output                                  (* break *)
      else if throws env k then Raised s
      else
        process_loop T env current_fft_size input fuel' (S k)
          (pos + block_size) s
          (output ++ process_block T s current_fft_size input pos block_size)
    else Finished s output
  end.

(** The statistics block that follows the loop of [process]. *)
Definition update_statistics (env : ProcessEnv) (input : list cplx)
    (s : Filter) : Filter :=
  let t := current_stats_ s in
  let t := stats_set_processing_time_ms (inject_Z (elapsed_us env) / 1000) t in
  let t := stats_set_samples_processed (Z.of_nat (length input)) t in
  let s := set_current_stats t s in
  set_total_samples_processed
    (size_t_add (total_samples_processed_ s) (Z.of_nat (length input))) s.

(** The object on entry to the loop of [process]: the processing flag is
    raised and the kernel redesigned if the parameters changed. *)
Definition prepared (M : LibM) (s : Filter) : Filter :=
  let s := set_processing_active true s in
  if parameters_changed_ s then updateFilterParameters M s else s.

(** [DynamicBandpassFilter::process(input)]: the object after the call and
    the returned vector, or [None] if the call does not return.  The guard
    object clears [processing_active_] on every way out. *)
Definition process (M : LibM) (T : Transform) (env : ProcessEnv)
    (s : Filter) (input : list cplx) : option (Filter * list cplx) :=
  if negb (isValidForProcessing s) || (length input =? 0)%nat
  then Some (s, input)
  else
    let current_fft_size := fft_size_ s in
    if (current_fft_size * 10 <? Z.of_nat (length input))%Z
    then Some (set_processing_active false (set_processing_active true s), input)
    else
      match process_loop T env current_fft_size input
              (S (length input)) 0 0 (prepared M s) [] with
      | Running => None
      | Raised s => Some (set_processing_active false s, input)
      | Finished s output =>
        Some (set_processing_active false (update_statistics env input s),
              output)
      end.

(** [DynamicBandpassFilter::processInPlace(samples)]: the object and the
    contents of [samples] after the call. *)
Definition processInPlace (M : LibM) (T : Transform) (env : ProcessEnv)
    (s : Filter) (samples : list cplx) : option (Filter * list cplx) :=
  if negb (isValidForProcessing s) || (length samples =? 0)%nat
  then Some (s, samples)
  else process M T env s samples.

(** ** A block on the buffers in place

    [process] reads [fft_size_] once, on entry, and uses that value for the
    [memset], the kernel test, the multiply loop and the normalization of
    every block.  The buffers and plans a block works on are the ones in
    place when it takes [fft_mutex_]; [initialize] replaces them, with
    [fft_size_] and the kernel, inside one critical section on that mutex.
    A re-initialisation by another thread between two blocks of a call
    therefore leaves buffers, plans and kernel of the new size to a call
    that still holds the old one: the only way the kernel test of the block
    loop can fail while the resources are there.  [process_block] above is
    the body on buffers of the size read on entry. *)

(** [memset(fft_input_, 0, sizeof(fftwf_complex) * current_fft_size)] and the
    copy loop, on the input buffer in place.  [None]: the buffer has fewer
    than [current_fft_size] entries and the [memset] writes past its end. *)
Definition load_block (current_fft_size : Z) (fft_input : list cplx)
    (input : list cplx) (pos block_size : nat) : option (list cplx) :=
  if (Z.of_nat (length fft_input) <? current_fft_size)%Z then None
  else
    let fft_input :=
      for_each_index (Z.to_nat current_fft_size) (fun _ _ => czero) fft_input in
    Some (for_each_index block_size (fun i _ => nth (pos + i) input czero)
            fft_input).

(** The body of the block loop on buffers of any size: [fft_input] is the
    input buffer as the block finds it, its length the size the buffers and
    plans in place were made for, [kernel] the kernel at the test, and
    [current_fft_size] the value the call read on entry. *)
Definition process_block_on (T : Transform) (kernel : list cplx)
    (current_fft_size : Z) (fft_input : list cplx)
    (input : list cplx) (pos block_size : nat) : option (list cplx) :=
  let plan_size := length fft_input in
  match load_block current_fft_size fft_input input pos block_size with
  | None => None
  | Some fft_input =>
    let fft_output := execute plan_size (fft_forward T) fft_input in
    let fft_output :=
      if (Z.of_nat (length kernel) =? current_fft_size)%Z then
        for_each_index (Z.to_nat current_fft_size)
          (fun i sample => cmul sample (nth i kernel czero))
          fft_output
      else fft_output in
    let fft_input := execute plan_size (fft_backward T) fft_output in
    let norm := 1 / inject_Z current_fft_size in
    Some (map (fun i => mkC (re (nth i fft_input czero) * norm)
                            (im (nth i fft_input czero) * norm))
              (seq 0 block_size))
  end.

(** ** Collaborators and objects used in the examples *)

(** A math library on the rationals: [powf b e] is exact when the exponent
    is an integer (the exponent is rounded down otherwise), [hypotf] when
    its first argument is zero. *)
Definition libm_rational : LibM := {|
  powf := fun b e => Qpower b (Qfloor e);
  hypotf := fun x y => Qabs x + Qabs y
|}.

(** A stand-in for a pair of plans of size [n]: it has the round-trip
    property of the unnormalised transform pair, backward after forward is
    [n] times the identity. *)
Definition loopback (n : Z) : Transform := {|
  fft_forward := fun buffer => buffer;
  fft_backward := map (fun z => cscale z (inject_Z n))
|}.

(** The object after [initialize(sample_rate, fft_size)] succeeded on a
    newly constructed filter and [setEnabled(true)] was called. *)
Definition ready (M : LibM) (sample_rate fft_size : Z) : Filter :=
  setEnabled true (fst (initialize M true true sample_rate fft_size constructed)).

(** A complete configuration for upper sideband with a 60 dB stopband. *)
Definition usb_60dB : FilterConfig := {|
  protocol := USB; shape := BLACKMAN; stopband_attenuation := 60;
  center_frequency := 0; bandwidth := 3000; sample_rate := 256000;
  ssb_carrier_offset := 1500; ssb_sharp_cutoff := true
|}.

(** Another thread tears the forward plan down while the first block is
    in the transform: the plan is gone when iteration 1 checks it. *)
Definition plan_lost_after_first_block : ProcessEnv := {|
  interfere := fun k s => if (k =? 1)%nat then set_forward_plan false s else s;
  throws := fun _ => false;
  elapsed_us := 0
|}.

(** An exception is raised while the second block is processed. *)
Definition exception_in_second_block : ProcessEnv := {|
  interfere := fun _ s => s;
  throws := fun k => (k =? 1)%nat;
  elapsed_us := 0
|}.

(** The enabled filter of [old_size] points in service, as another thread
    leaves it when it calls [initialize(sample_rate, new_size)]. *)
Definition reinitialized (M : LibM) (sample_rate old_size new_size : Z)
  : Filter :=
  fst (initialize M true true sample_rate new_size
         (ready M sample_rate old_size)).

(** ** The kernel in the words of the specification *)

(** "bin [i <= N/2] maps to frequency [i * df]; bin [i > N/2] maps to
    [(i - N) * df]" *)
Definition spec_bin_frequency (N : Z) (df : Q) (i : Z) : Q :=
  if (2 * i <=? N)%Z then inject_Z i * df else inject_Z (i - N) * df.

(** "unity inside [[low, high]]; else linear ramp across a transition band
    of width [2 * df] on each edge; else zero" *)
Definition spec_bandpass_gain (low high df f : Q) : Q :=
  let w := 2 * df in
  if Qle_bool low f && Qle_bool f high then 1
  else if Qle_bool (low - w) f && Qltb f low then (f - (low - w)) / w
  else if Qltb high f && Qle_bool f (high + w) then ((high + w) - f) / w
  else 0.

(** "floor the response at [min_response]": the response where it is at
    least the floor, the floor elsewhere. *)
Definition spec_floor (r floor : Q) : Q := if Qle_bool floor r then r else floor.

(** ** The remaining members *)

(** [DynamicBandpassFilter::~DynamicBandpassFilter()]: the wait for a call
    in flight falls through for one caller, and [cleanup] runs. *)
Definition destroy (s : Filter) : Filter := cleanup s.

(** ** One caller's use of the object *)

(** The transform resources [process] checks before every block. *)
Definition resources_ready (s : Filter) : bool :=
  fft_input_ s && fft_output_ s && forward_plan_ s && inverse_plan_ s.

(** The public member functions that change the object, with their
    arguments; for [initialize] also whether the allocations succeed, for
    [process] the time the clock measures.  [CallDestroy] stands for the
    destructor; a program makes no call after it, and the sequences with
    calls after it are included only because nothing below needs them
    excluded. *)
Inductive Call :=
| CallInitialize (buffers_ok plans_ok : bool) (sample_rate fft_size : Z)
| CallConfigure (config : FilterConfig)
| CallSetEnabled (enabled : bool)
| CallSetProtocol (p : Protocol)
| CallSetPassband (low_freq high_freq : Q)
| CallSetCenterFrequency (center_freq : Q)
| CallSetSSBCarrierOffset (offset_hz : Q)
| CallSetSSBSharpCutoff (enabled : bool)
| CallProcess (elapsed : Z) (input : list cplx)
| CallProcessInPlace (elapsed : Z) (samples : list cplx)
| CallReset
| CallDestroy.

(** The object after a call that runs alone. *)
Definition run_call (M : LibM) (T : Transform) (c : Call) (s : Filter)
  : Filter :=
  match c with
  | CallInitialize buffers_ok plans_ok sample_rate fft_size =>
      fst (initialize M buffers_ok plans_ok sample_rate fft_size s)
  | CallConfigure config => configure config s
  | CallSetEnabled enabled => setEnabled enabled s
  | CallSetProtocol p => setProtocol p s
  | CallSetPassband low_freq high_freq => setPassband low_freq high_freq s
  | CallSetCenterFrequency center_freq => setCenterFrequency center_freq s
  | CallSetSSBCarrierOffset offset_hz => setSSBCarrierOffset offset_hz s
  | CallSetSSBSharpCutoff enabled => setSSBSharpCutoff enabled s
  | CallProcess elapsed input =>
      match process M T (quiet elapsed) s input with
      | Some (s', _) => s'
      | None => s
      end
  | CallProcessInPlace elapsed samples =>
      match processInPlace M T (quiet elapsed) s samples with
      | Some (s', _) => s'
      | None => s
      end
  | CallReset => reset s
  | CallDestroy => destroy s
  end.

(** The object after a sequence of calls on a newly constructed filter. *)
Definition run_calls (M : LibM) (T : Transform) (calls : list Call) : Filter :=
  fold_left (fun s c => run_call M T c s) calls constructed.

(** What holds of the object between the calls of one caller: no call is
    in flight, the kernel is real-valued, and an initialized filter has a
    power-of-two block size of at least 256, a positive frequency
    resolution, a kernel of one gain per bin and its transform resources. *)
Definition well_formed (s : Filter) : Prop :=
  processing_active_ s = false
  /\ Forall (fun z => im z == 0) (filter_kernel_ s)
  /\ (initialized_ s = true ->
      (256 <= fft_size_ s)%Z
      /\ Z.land (fft_size_ s) (fft_size_ s - 1) = 0%Z
      /\ 0 < frequency_resolution_ s
      /\ length (filter_kernel_ s) = Z.to_nat (fft_size_ s)
      /\ resources_ready s = true).

(** ** Zero samples, and the output of undisturbed blocks *)



(** The samples the block loop appends from position [pos] on when nothing
    interferes: block after block, each from its own samples only. *)
Fixpoint filtered_from (T : Transform) (s : Filter) (N : Z)
    (input : list cplx) (fuel pos : nat) : list cplx :=
  match fuel with
  | O => []
  | S fuel' =>
    if (pos <? length input)%nat then
      let block_size := Nat.min (Z.to_nat N) (length input - pos) in
      process_block T s N input pos block_size
      ++ filtered_from T s N input fuel' (pos + block_size)
    else []
  end.

(** * Properties *)

(** ** Vectors and index loops *)

Section Vectors.
Context {A : Type}.
Local Open Scope nat_scope.

Lemma vec_update_length (f : A -> A) (v : list A) (i : nat) :
  length (vec_update i f v) = length v.
Proof.
  revert i; induction v as [|x v IH]; intros [|i]; simpl; auto.
Qed.

Lemma nth_vec_update (f : A -> A) (d : A) (v : list A) (i j : nat) :
  i < length v ->
  nth j (vec_update i f v) d = if Nat.eqb j i then f (nth j v d) else nth j v d.
Proof.
  revert i j; induction v as [|x v IH]; intros [|i] [|j] H; simpl in *;
    try lia; auto.
  apply IH; lia.
Qed.

Lemma for_each_index_S (n : nat) (body : nat -> A -> A) (v : list A) :
  for_each_index (S n) body v = vec_update n (body n) (for_each_index n body v).
Proof.
  unfold for_each_index. rewrite seq_S, fold_left_app. reflexivity.
Qed.

Lemma for_each_index_length (n : nat) (body : nat -> A -> A) (v : list A) :
  length (for_each_index n body v) = length v.
Proof.
  induction n as [|n IH]; [reflexivity|].
  rewrite for_each_index_S, vec_update_length. exact IH.
Qed.

(** After the loop, every index below the bound (and inside the vector)
    holds the body applied to the old element; the others are untouched. *)
Lemma nth_for_each_index (n : nat) (body : nat -> A -> A) (d : A)
    (v : list A) (j : nat) :
  n <= length v ->
  nth j (for_each_index n body v) d
  = if Nat.ltb j n then body j (nth j v d) else nth j v d.
Proof.
  induction n as [|n IH]; intros Hn; [reflexivity|].
  rewrite for_each_index_S, nth_vec_update
    by (rewrite for_each_index_length; lia).
  rewrite IH by lia.
  destruct (Nat.eqb_spec j n) as [->|Hne].
  - rewrite Nat.ltb_irrefl.
    destruct (Nat.ltb_spec n (S n)); [reflexivity | lia].
  - destruct (Nat.ltb_spec j n), (Nat.ltb_spec j (S n)); try lia; reflexivity.
Qed.

(** A loop that assigns [g i] to every element of a vector of [n]
    elements leaves the vector [g 0, ..., g (n-1)]. *)
Lemma for_each_index_assign (n : nat) (g : nat -> A) (v : list A) :
  length v = n ->
  for_each_index n (fun i _ => g i) v = map g (seq 0 n).
Proof.
  intros Hlen.
  destruct v as [|d v'] eqn:Ev.
  - simpl in Hlen; subst n; reflexivity.
  - rewrite <- Ev in *. clear Ev v'.
    apply nth_ext with (d := d) (d' := g 0%nat).
    + rewrite for_each_index_length, length_map, length_seq; exact Hlen.
    + intros j Hj. rewrite for_each_index_length in Hj.
      rewrite nth_for_each_index by lia.
      destruct (Nat.ltb_spec j n); [|lia].
      rewrite (nth_indep _ _ (g (nth j (seq 0 n) 0%nat)))
        by (rewrite length_map, length_seq; lia).
      rewrite map_nth, seq_nth by lia. reflexivity.
Qed.

Lemma nth_map_seq (g : nat -> A) (d : A) (n i : nat) :
  i < n -> nth i (map g (seq 0 n)) d = g i.
Proof.
  intros Hi.
  rewrite (nth_indep _ _ (g (nth i (seq 0 n) 0)))
    by (rewrite length_map, length_seq; exact Hi).
  rewrite map_nth, seq_nth by exact Hi. reflexivity.
Qed.

Lemma vec_resize_length (n : nat) (x : A) (v : list A) :
  length (vec_resize n x v) = n.
Proof.
  unfold vec_resize. rewrite length_app, length_firstn, repeat_length. lia.
Qed.

Lemma vec_resize_nil (n : nat) (x : A) : vec_resize n x [] = repeat x n.
Proof.
  unfold vec_resize. rewrite firstn_nil, Nat.sub_0_r. reflexivity.
Qed.
End Vectors.

(** ** Comparisons on rationals *)

Lemma Qle_bool_spec (a b : Q) : reflect (a <= b) (Qle_bool a b).
Proof. apply iff_reflect. symmetry. apply Qle_bool_iff. Qed.

Lemma Qltb_spec (a b : Q) : reflect (a < b) (Qltb a b).
Proof.
  unfold Qltb. destruct (Qle_bool_spec b a); constructor; lra.
Qed.

Lemma fmax_lower_bound (a b : Q) : b <= fmax a b.
Proof. unfold fmax. destruct (Qltb_spec a b); lra. Qed.

Lemma fmax_left_bound (a b : Q) : a <= fmax a b.
Proof. unfold fmax. destruct (Qltb_spec a b); lra. Qed.

Lemma fmax_Qeq (a a' b : Q) : a == a' -> fmax a b == fmax a' b.
Proof.
  intros H. unfold fmax.
  destruct (Qltb_spec a b), (Qltb_spec a' b); lra.
Qed.

Lemma fmax_spec_floor (a b : Q) : fmax a b = spec_floor a b.
Proof. unfold fmax, Qltb, spec_floor. now destruct (Qle_bool b a). Qed.

(** ** The validity test *)

Lemma isValidForProcessing_true (s : Filter) :
  isValidForProcessing s = true <->
  initialized_ s = true /\ enabled_ s = true /\ (0 < fft_size_ s)%Z
  /\ 0 < frequency_resolution_ s.
Proof.
  unfold isValidForProcessing.
  rewrite !andb_true_iff, Z.ltb_lt.
  destruct (Qltb_spec 0 (frequency_resolution_ s)); intuition congruence.
Qed.

Lemma isValidForProcessing_false (s : Filter) :
  isValidForProcessing s = false <->
  initialized_ s = false \/ enabled_ s = false \/ (fft_size_ s <= 0)%Z
  \/ frequency_resolution_ s <= 0.
Proof.
  unfold isValidForProcessing.
  rewrite !andb_false_iff, Z.ltb_ge.
  destruct (Qltb_spec 0 (frequency_resolution_ s)) as [H|H].
  - intuition (try congruence). lra.
  - intuition (try congruence). right; right; right. lra.
Qed.

(** ** The kernel after a design pass *)

(** The loop of [safelyUpdateKernel] rebuilds the kernel in full. *)
Lemma safelyUpdateKernel_kernel (M : LibM) (s : Filter) :
  isValidForProcessing s = true ->
  safelyUpdateKernel M s
  = set_filter_kernel
      (map (fun i => kernel_bin M s (Z.of_nat i))
           (seq 0 (Z.to_nat (fft_size_ s)))) s.
Proof.
  intros Hv. unfold safelyUpdateKernel. rewrite Hv. cbn [negb].
  apply isValidForProcessing_true in Hv as (_ & _ & Hn & _).
  f_equal. apply for_each_index_assign.
  destruct (Z.eqb_spec (Z.of_nat (length (filter_kernel_ s))) (fft_size_ s)).
  - lia.
  - apply vec_resize_length.
Qed.

Lemma nth_design_map (M : LibM) (s : Filter) (n i : nat) :
  (i < n)%nat ->
  nth i (map (fun j => kernel_bin M s (Z.of_nat j)) (seq 0 n)) czero
  = kernel_bin M s (Z.of_nat i).
Proof. apply (nth_map_seq (fun j => kernel_bin M s (Z.of_nat j))). Qed.

(** On a valid object in an SSB mode the shaping pass runs over the kernel
    the design loop has just written. *)
Lemma designSSBFilter_kernel (M : LibM) (s : Filter) :
  isValidForProcessing s = true ->
  is_ssb (protocol (config_ s)) = true ->
  designSSBFilter M s
  = set_filter_kernel
      (for_each_index (Z.to_nat (fft_size_ s))
         (fun i z =>
            cscale z
              (suppression_factor (protocol (config_ s)) (current_center_freq_ s)
                 (bin_frequency (fft_size_ s) (frequency_resolution_ s)
                    (Z.of_nat i))))
         (map (fun i => kernel_bin M s (Z.of_nat i))
              (seq 0 (Z.to_nat (fft_size_ s))))) s.
Proof.
  intros Hv Hssb. unfold designSSBFilter. rewrite Hv. cbn [negb].
  rewrite (safelyUpdateKernel_kernel M s Hv).
  pose proof (proj1 (isValidForProcessing_true s) Hv) as (_ & _ & Hn & _).
  unfold applySSBShaping. cbn.
  rewrite Hssb, length_map, length_seq, Z2Nat.id, Z.eqb_refl by lia.
  reflexivity.
Qed.

Lemma designFilter_length (M : LibM) (s : Filter) :
  isValidForProcessing s = true ->
  length (filter_kernel_ (designFilter M s)) = Z.to_nat (fft_size_ s).
Proof.
  intros Hv. unfold designFilter. rewrite Hv. cbn [negb].
  destruct (is_ssb (protocol (config_ s))) eqn:Hssb.
  - rewrite (designSSBFilter_kernel M s Hv Hssb). cbn.
    now rewrite for_each_index_length, length_map, length_seq.
  - rewrite (safelyUpdateKernel_kernel M s Hv). cbn.
    now rewrite length_map, length_seq.
Qed.

Lemma designFilter_nth (M : LibM) (s : Filter) (i : nat) :
  isValidForProcessing s = true ->
  (i < Z.to_nat (fft_size_ s))%nat ->
  nth i (filter_kernel_ (designFilter M s)) czero = designed_bin M s (Z.of_nat i).
Proof.
  intros Hv Hi. unfold designFilter, designed_bin. rewrite Hv. cbn [negb].
  destruct (is_ssb (protocol (config_ s))) eqn:Hssb.
  - rewrite (designSSBFilter_kernel M s Hv Hssb). cbn.
    rewrite nth_for_each_index by (rewrite length_map, length_seq; lia).
    destruct (Nat.ltb_spec i (Z.to_nat (fft_size_ s))); [|lia].
    now rewrite nth_design_map.
  - rewrite (safelyUpdateKernel_kernel M s Hv). cbn.
    now apply nth_design_map.
Qed.

(** ** The designed kernel against the specification's formula *)

Lemma bin_frequency_spec (N : Z) (df : Q) (i : Z) :
  (0 <= N)%Z -> bin_frequency N df i = spec_bin_frequency N df i.
Proof.
  intros HN. unfold bin_frequency, spec_bin_frequency.
  rewrite Z.quot_div_nonneg by lia.
  pose proof (Z.div_mod N 2 ltac:(lia)) as Hdm.
  pose proof (Z.mod_pos_bound N 2 ltac:(lia)) as Hmb.
  destruct (Z.leb_spec i (N / 2)), (Z.leb_spec (2 * i) N); try reflexivity; lia.
Qed.

Lemma shaped_response_non_ssb (p : Protocol) (sharp : bool)
    (center low high df f : Q) :
  is_ssb p = false ->
  shaped_response p sharp center low high df f == spec_bandpass_gain low high df f.
Proof.
  intros Hp. unfold shaped_response, spec_bandpass_gain. rewrite Hp. cbv zeta.
  destruct (Qle_bool_spec low f), (Qle_bool_spec f high); cbn [andb];
    try reflexivity;
    destruct (Qle_bool_spec (low - df * 2) f), (Qle_bool_spec (low - 2 * df) f),
             (Qltb_spec f low); cbn [andb]; try lra;
    try (rewrite (Qmult_comm df 2); reflexivity);
    destruct (Qltb_spec high f), (Qle_bool_spec f (high + df * 2)),
             (Qle_bool_spec f (high + 2 * df)); cbn [andb]; try lra;
    try (rewrite (Qmult_comm df 2); reflexivity).
Qed.

(** The specification's response is 1 on the passband, 0 beyond the
    transition bands and, on each transition band, the straight line between
    these two values. *)
Lemma spec_bandpass_gain_shape (low high df f : Q) :
  low <= high -> 0 < df ->
  (low <= f <= high -> spec_bandpass_gain low high df f == 1)
  /\ (f < low - 2 * df \/ high + 2 * df < f ->
      spec_bandpass_gain low high df f == 0)
  /\ (low - 2 * df <= f < low ->
      spec_bandpass_gain low high df f == (f - (low - 2 * df)) / (2 * df)
      /\ 0 <= spec_bandpass_gain low high df f < 1)
  /\ (high < f <= high + 2 * df ->
      spec_bandpass_gain low high df f == ((high + 2 * df) - f) / (2 * df)
      /\ 0 <= spec_bandpass_gain low high df f < 1).
Proof.
  intros Hlh Hdf. unfold spec_bandpass_gain. cbv zeta.
  assert (Hw : 0 < 2 * df) by lra.
  assert (Hlo : forall x, 0 <= x -> x < 2 * df ->
                  0 <= x / (2 * df) < 1).
  { intros x H0 H1. split.
    - apply Qle_shift_div_l; lra.
    - apply Qlt_shift_div_r; lra. }
  destruct (Qle_bool_spec low f), (Qle_bool_spec f high),
    (Qle_bool_spec (low - 2 * df) f), (Qltb_spec f low),
    (Qltb_spec high f), (Qle_bool_spec f (high + 2 * df)); cbn [andb];
    repeat split; intros; try lra; try reflexivity;
    try (apply Hlo; lra).
Qed.

(** C6: for a non-SSB protocol the design pass stores in bin [i], whose
    frequency is [i * df] for [i <= N/2] and [(i - N) * df] otherwise, a gain
    with zero imaginary part whose real part is the specification's response
    (1 inside [passband_low + center, passband_high + center], a linear ramp
    over [2 * df] at each edge, 0 outside) floored at
    [10 ^ (- stopband_attenuation / 20)]. *)
Theorem C6_non_ssb_kernel_gain (M : LibM) (s : Filter) (i : Z) :
  isValidForProcessing s = true ->
  is_ssb (protocol (config_ s)) = false ->
  (0 <= i < fft_size_ s)%Z ->
  let gain := nth (Z.to_nat i) (filter_kernel_ (designFilter M s)) czero in
  let df := frequency_resolution_ s in
  let f := spec_bin_frequency (fft_size_ s) df i in
  let r := spec_bandpass_gain (passband_low_hz_ s + current_center_freq_ s)
             (passband_high_hz_ s + current_center_freq_ s) df f in
  re gain == spec_floor r (powf M 10 (- stopband_attenuation (config_ s) / 20))
  /\ im gain = 0.
Proof.
  intros Hv Hssb Hi. cbv zeta.
  rewrite designFilter_nth by (assumption || lia).
  unfold designed_bin. rewrite Hssb, Z2Nat.id by lia.
  unfold kernel_bin, low_cutoff_of, high_cutoff_of, min_response.
  rewrite Hssb. cbv zeta. cbn [re im].
  split; [|reflexivity].
  rewrite bin_frequency_spec, <- fmax_spec_floor by lia.
  apply (fmax_Qeq _ _ _ (shaped_response_non_ssb _ _ _ _ _ _ _ Hssb)).
Qed.

Lemma C6_non_ssb_kernel_gain_witness :
  let s := ready libm_rational 2048000 1024 in
  isValidForProcessing s = true
  /\ is_ssb (protocol (config_ s)) = false
  /\ (0 <= 51 < fft_size_ s)%Z
  /\ re (nth 51 (filter_kernel_ (designFilter libm_rational s)) czero) == 0.5
  /\ im (nth 51 (filter_kernel_ (designFilter libm_rational s)) czero) = 0.
Proof.
  cbv zeta.
  assert (Hv : isValidForProcessing (ready libm_rational 2048000 1024) = true)
    by (vm_compute; reflexivity).
  assert (Hp : is_ssb (protocol (config_ (ready libm_rational 2048000 1024))) = false)
    by (vm_compute; reflexivity).
  assert (Hi : (0 <= 51 < fft_size_ (ready libm_rational 2048000 1024))%Z)
    by (vm_compute; split; [discriminate | reflexivity]).
  destruct (C6_non_ssb_kernel_gain libm_rational _ 51 Hv Hp Hi) as [Hre Him].
  split; [exact Hv | split; [exact Hp | split; [exact Hi | split]]].
  - rewrite Hre. vm_compute. reflexivity.
  - exact Him.
Defined.

(** ** The stopband floor *)

Lemma suppression_factor_non_ssb (p : Protocol) (center f : Q) :
  is_ssb p = false -> suppression_factor p center f = 1.
Proof. destruct p; intros H; try discriminate H; reflexivity. Qed.

Lemma suppression_factor_positive (p : Protocol) (center f : Q) :
  0 < suppression_factor p center f.
Proof.
  unfold suppression_factor.
  destruct (Protocol_eqb p USB && Qltb f center);
    [|destruct (Protocol_eqb p LSB && Qltb center f)];
    try destruct (Qltb (Qabs (f - center)) 3000); reflexivity.
Qed.

(** The modulus of a gain on the real axis. *)
Lemma cabs_real (M : LibM) (x y : Q) : y == 0 -> cabs M (mkC x y) = Qabs x.
Proof.
  intros H. unfold cabs. cbn [re im].
  now rewrite (proj2 (Qeq_bool_iff y 0) H).
Qed.

(** C5, as the code has it: after a design pass every bin of the kernel has
    gain magnitude at least [10 ^ (- stopband_attenuation / 20)] times the
    sideband suppression factor of the bin.  The factor is 1 for every bin
    of a non-SSB protocol, whose kernel therefore never goes below the
    floor; in USB and LSB it is 0.001 or 0.1 on the opposite sideband. *)
Theorem C5_floor_up_to_sideband_suppression (M : LibM) (s : Filter) (i : Z) :
  isValidForProcessing s = true ->
  (0 <= i < fft_size_ s)%Z ->
  let gain := nth (Z.to_nat i) (filter_kernel_ (designFilter M s)) czero in
  let floor := powf M 10 (- stopband_attenuation (config_ s) / 20) in
  let factor :=
    suppression_factor (protocol (config_ s)) (current_center_freq_ s)
      (bin_frequency (fft_size_ s) (frequency_resolution_ s) i) in
  floor * factor <= cabs M gain
  /\ (is_ssb (protocol (config_ s)) = false -> floor <= cabs M gain).
Proof.
  intros Hv Hi. cbv zeta.
  rewrite designFilter_nth by (assumption || lia).
  rewrite Z2Nat.id by lia. unfold designed_bin, kernel_bin, min_response.
  cbv zeta.
  set (r := shaped_response _ _ _ _ _ _ _).
  set (m := powf M 10 _).
  set (k := suppression_factor _ _ _).
  pose proof (fmax_lower_bound r m) as Hm.
  pose proof (Qle_Qabs (fmax r m)) as Habs.
  destruct (is_ssb (protocol (config_ s))) eqn:Hssb.
  - split; [|discriminate].
    unfold cscale. cbn [re im]. rewrite cabs_real by ring.
    pose proof (suppression_factor_positive (protocol (config_ s))
                  (current_center_freq_ s)
                  (bin_frequency (fft_size_ s) (frequency_resolution_ s) i)) as Hk.
    fold k in Hk.
    apply Qle_trans with (fmax r m * k); [|apply Qle_Qabs].
    apply Qmult_le_compat_r; lra.
  - rewrite cabs_real by reflexivity.
    assert (Hk1 : k = 1) by (apply suppression_factor_non_ssb; exact Hssb).
    rewrite Hk1. split; [|intros _]; lra.
Qed.

Lemma C5_floor_up_to_sideband_suppression_witness :
  let s := updateFilterParameters libm_rational
             (configure usb_60dB (setProtocol USB (ready libm_rational 256000 256))) in
  isValidForProcessing s = true
  /\ (0 <= 255 < fft_size_ s)%Z
  /\ 0.001 * 0.001
     <= cabs libm_rational
          (nth 255 (filter_kernel_ (designFilter libm_rational s)) czero).
Proof.
  cbv zeta.
  set (s := updateFilterParameters _ _).
  assert (Hv : isValidForProcessing s = true) by (vm_compute; reflexivity).
  assert (Hi : (0 <= 255 < fft_size_ s)%Z)
    by (vm_compute; split; [discriminate | reflexivity]).
  split; [exact Hv | split; [exact Hi |]].
  pose proof (proj1 (C5_floor_up_to_sideband_suppression libm_rational s 255 Hv Hi))
    as H.
  cbv zeta in H.
  eapply Qle_trans; [|exact H].
  vm_compute. discriminate.
Defined.

(** C5 as stated fails in the SSB modes: in USB with a 60 dB stopband, the
    bin at -1000 Hz (the opposite sideband) is left at a gain of 1e-6, below
    the floor of 1e-3. *)
Lemma C5_usb_bin_below_floor :
  let s := updateFilterParameters libm_rational
             (configure usb_60dB (setProtocol USB (ready libm_rational 256000 256))) in
  isValidForProcessing s = true
  /\ min_response libm_rational (config_ s) == 0.001
  /\ cabs libm_rational (nth 255 (filter_kernel_ s) czero) == 0.000001
  /\ cabs libm_rational (nth 255 (filter_kernel_ s) czero)
     < min_response libm_rational (config_ s).
Proof. vm_compute. repeat split; reflexivity. Qed.

(** ** Protocol switching *)

Lemma Protocol_eqb_spec (a b : Protocol) : reflect (a = b) (Protocol_eqb a b).
Proof. destruct a, b; constructor; congruence. Qed.

(** C7: on an initialized filter [setProtocol p] changes nothing when [p] is
    the current protocol; otherwise it overwrites bandwidth, stopband
    attenuation and the SSB offset and sharpness with the defaults of [p]
    and sets the passband edges to [-w/2] and [+w/2]; and after
    [setProtocol(USB)], [setProtocol(LSB)] and [setProtocol] of the original
    protocol, the passband width and the stopband attenuation reported are
    the defaults of the original protocol. *)
Theorem C7_setProtocol_defaults (s : Filter) (p : Protocol) :
  initialized_ s = true ->
  (protocol (config_ s) = p -> setProtocol p s = s)
  /\ (protocol (config_ s) <> p ->
      let s' := setProtocol p s in
      let d := PROTOCOL_DEFAULTS p in
      protocol (config_ s') = p
      /\ bandwidth (config_ s') = passband_width d
      /\ stopband_attenuation (config_ s') = stopband_atten d
      /\ ssb_carrier_offset (config_ s') = carrier_offset d
      /\ ssb_sharp_cutoff (config_ s') = sharp_cutoff d
      /\ ssb_carrier_offset_ s' = carrier_offset d
      /\ ssb_sharp_cutoff_ s' = sharp_cutoff d
      /\ passband_low_hz_ s' = - (passband_width d / 2)
      /\ passband_high_hz_ s' = passband_width d / 2)
  /\ (let p0 := protocol (config_ s) in
      let s3 := setProtocol p0 (setProtocol LSB (setProtocol USB s)) in
      protocol (getConfiguration s3) = p0
      /\ passband_width_hz (getStats s3) == passband_width (PROTOCOL_DEFAULTS p0)
      /\ stopband_attenuation_db (getStats s3)
         = stopband_atten (PROTOCOL_DEFAULTS p0)
      /\ bandwidth (getConfiguration s3) = passband_width (PROTOCOL_DEFAULTS p0)).
Proof.
  intros Hinit. split; [|split].
  - intros Hp. unfold setProtocol. rewrite Hinit. cbn [negb].
    now destruct (Protocol_eqb_spec (protocol (config_ s)) p).
  - intros Hp. cbv zeta. unfold setProtocol. rewrite Hinit. cbn [negb].
    destruct (Protocol_eqb_spec (protocol (config_ s)) p); [contradiction|].
    cbn. repeat split; reflexivity.
  - destruct s as [ini en pc pa [pr sh att cf bw sr off cut] n ov df
                   fp ip fi fo ker lo hi cen soff scut eh ehi al st tot].
    cbn in Hinit. subst ini.
    destruct pr; vm_compute; repeat split; reflexivity.
Qed.

Lemma C7_setProtocol_defaults_witness :
  let s := ready libm_rational 2048000 1024 in
  initialized_ s = true
  /\ passband_width_hz
       (getStats (setProtocol WFM (setProtocol LSB (setProtocol USB s))))
     == 200000
  /\ stopband_attenuation_db
       (getStats (setProtocol WFM (setProtocol LSB (setProtocol USB s))))
     = 60.
Proof.
  cbv zeta.
  assert (Hinit : initialized_ (ready libm_rational 2048000 1024) = true)
    by (vm_compute; reflexivity).
  destruct (C7_setProtocol_defaults _ WFM Hinit) as (_ & _ & H).
  cbv zeta in H. destruct H as (_ & Hw & Ha & _).
  split; [exact Hinit | split; [exact Hw | exact Ha]].
Defined.

(** ** Mutators before initialization *)

(** C4, as the code has it: before a successful [initialize], [setProtocol],
    [configure], [setPassband], [setCenterFrequency], [setSSBCarrierOffset]
    and [setSSBSharpCutoff] leave the object as it is; [setEnabled] has no
    such guard: it stores the flag and mirrors it in the statistics, and
    leaves every other member as it is. *)
Theorem C4_mutators_before_initialize (s : Filter) :
  initialized_ s = false ->
  (forall p, setProtocol p s = s)
  /\ (forall c, configure c s = s)
  /\ (forall low high, setPassband low high s = s)
  /\ (forall f, setCenterFrequency f s = s)
  /\ (forall offset, setSSBCarrierOffset offset s = s)
  /\ (forall sharp, setSSBSharpCutoff sharp s = s)
  /\ (forall b,
        let s' := setEnabled b s in
        enabled_ s' = b
        /\ is_enabled (getStats s') = b
        /\ set_enabled (enabled_ s)
             (set_current_stats
                (stats_set_is_enabled (is_enabled (current_stats_ s))
                   (current_stats_ s')) s') = s).
Proof.
  intros Hinit.
  unfold setProtocol, configure, setPassband, setCenterFrequency,
    setSSBCarrierOffset, setSSBSharpCutoff.
  rewrite Hinit. cbn [negb]. repeat split; try reflexivity.
  - intros low high. now rewrite orb_true_r.
  - destruct s as [ini en pc pa cfg n ov df fp ip fi fo ker lo hi cen soff
                   scut eh ehi al [a1 a2 a3 a4 a5 a6 a7 a8 a9 a10 a11] tot].
    reflexivity.
Qed.

Lemma C4_mutators_before_initialize_witness :
  initialized_ constructed = false
  /\ setProtocol USB constructed = constructed
  /\ setPassband (-1000) 1000 constructed = constructed
  /\ enabled_ (setEnabled true constructed) = true.
Proof.
  assert (Hinit : initialized_ constructed = false) by reflexivity.
  destruct (C4_mutators_before_initialize constructed Hinit)
    as (Hp & _ & Hb & _ & _ & _ & He).
  split; [exact Hinit | split; [apply Hp | split; [apply Hb |]]].
  exact (proj1 (He true)).
Defined.

(** C4 as stated fails for [setEnabled]: on a newly constructed, never
    initialized filter, [setEnabled(true)] changes the enabled flag that
    [getStats] reports. *)
Lemma C4_setEnabled_before_initialize :
  isInitialized constructed = false
  /\ is_enabled (getStats constructed) = false
  /\ is_enabled (getStats (setEnabled true constructed)) = true.
Proof. repeat split; reflexivity. Qed.

(** ** Bypass *)

(** C8: [process] returns its input, whole, when the filter is not
    initialized, not enabled, has no valid block size or frequency
    resolution, when the input is empty, or when it is longer than ten
    blocks.  The object is left as it was (the call in the last case having
    raised and cleared the processing flag). *)
Theorem C8_process_bypass (M : LibM) (T : Transform) (env : ProcessEnv)
    (s : Filter) (input : list cplx) :
  initialized_ s = false \/ enabled_ s = false \/ (fft_size_ s <= 0)%Z
  \/ frequency_resolution_ s <= 0 \/ input = []
  \/ (10 * fft_size_ s < Z.of_nat (length input))%Z ->
  (process M T env s input = Some (s, input)
   \/ process M T env s input = Some (set_processing_active false s, input))
  /\ processInPlace M T env s input = process M T env s input.
Proof.
  intros H. unfold processInPlace, process.
  destruct (isValidForProcessing s) eqn:Hv; cbn [negb orb]; [|auto].
  destruct (Nat.eqb_spec (length input) 0); [auto|].
  split; [|reflexivity]. right.
  assert (Hbig : (fft_size_ s * 10 <? Z.of_nat (length input))%Z = true).
  { apply Z.ltb_lt.
    apply isValidForProcessing_true in Hv as (Hi & He & Hn & Hr).
    destruct H as [H|[H|[H|[H|[H|H]]]]];
      try congruence; try lia; try lra.
    subst input. contradiction. }
  rewrite Hbig. reflexivity.
Qed.

Lemma C8_process_bypass_witness :
  let s := ready libm_rational 256000 256 in
  let input := repeat cone 2561 in
  (10 * fft_size_ s < Z.of_nat (length input))%Z
  /\ isValidForProcessing s = true
  /\ option_map snd (process libm_rational (loopback 256) (quiet 0) s input)
     = Some input.
Proof.
  cbv zeta.
  assert (H : (10 * fft_size_ (ready libm_rational 256000 256)
               < Z.of_nat (length (repeat cone 2561)))%Z)
    by (vm_compute; reflexivity).
  split; [exact H | split; [vm_compute; reflexivity|]].
  destruct (C8_process_bypass libm_rational (loopback 256) (quiet 0) _ _
              (or_intror (or_intror (or_intror (or_intror (or_intror H))))))
    as [[E|E] _]; rewrite E; reflexivity.
Defined.

(** ** What a design pass and a parameter update leave alone *)

Ltac split_conditionals :=
  repeat match goal with
         | |- context [if ?b then _ else _] => destruct b
         end.

Lemma designFilter_same_resources (M : LibM) (s : Filter) :
  same_resources s (designFilter M s).
Proof.
  unfold same_resources, designFilter, designSSBFilter, safelyUpdateKernel,
    applySSBShaping.
  destruct (isValidForProcessing s); cbn [negb]; [|tauto].
  destruct (is_ssb (protocol (config_ s))); cbn;
    split_conditionals; cbn; tauto.
Qed.

Lemma updateFilterParameters_same_resources (M : LibM) (s : Filter) :
  same_resources s (updateFilterParameters M s).
Proof.
  unfold updateFilterParameters.
  destruct (isValidForProcessing s); cbn [negb]; [|unfold same_resources; tauto].
  destruct (parameters_changed_ s); cbn [negb]; [|unfold same_resources; tauto].
  cbv zeta.
  match goal with
  | |- same_resources s (set_parameters_changed false (designFilter M ?x)) =>
      pose proof (designFilter_same_resources M x) as H;
      assert (Hx : same_resources s x)
        by (unfold same_resources; split_conditionals; cbn; tauto);
      set (y := designFilter M x) in *; clearbody y;
      set (x' := x) in *; clearbody x'
  end.
  unfold same_resources in *.
  destruct y; cbn in *. intuition congruence.
Qed.

Lemma same_resources_valid (s s' : Filter) :
  same_resources s s' -> isValidForProcessing s' = isValidForProcessing s.
Proof.
  intros (Hi & He & Hn & Hr & _). unfold isValidForProcessing.
  now rewrite Hi, He, Hn, Hr.
Qed.

(** ** The block loop *)

Lemma process_block_length (T : Transform) (s : Filter) (N : Z)
    (input : list cplx) (pos block_size : nat) :
  length (process_block T s N input pos block_size) = block_size.
Proof. unfold process_block. now rewrite length_map, length_seq. Qed.

(** Every iteration consumes at least one sample, so the loop is left
    before the fuel [process] gives it runs out. *)
Lemma process_loop_terminates (T : Transform) (env : ProcessEnv) (N : Z)
    (input : list cplx) (fuel : nat) :
  (0 < N)%Z ->
  forall (k pos : nat) (s : Filter) (output : list cplx),
    (length input - pos < fuel)%nat ->
    process_loop T env N input fuel k pos s output <> Running.
Proof.
  intros HN. induction fuel as [|fuel IH]; intros k pos s output Hfuel;
    [lia|].
  cbn [process_loop].
  destruct (Nat.ltb_spec pos (length input)); cbn [andb]; [|discriminate].
  destruct (isValidForProcessing (interfere env k s)); [|discriminate].
  destruct (negb _ || _ || _ || _); [discriminate|].
  destruct (throws env k); [discriminate|].
  apply IH. lia.
Qed.

(** Without an exception the loop is not left through [catch]. *)
Lemma process_loop_not_raised (T : Transform) (env : ProcessEnv) (N : Z)
    (input : list cplx) (fuel : nat) :
  (forall k, throws env k = false) ->
  forall (k pos : nat) (s s' : Filter) (output : list cplx),
    process_loop T env N input fuel k pos s output <> Raised s'.
Proof.
  intros Hquiet. induction fuel as [|fuel IH]; intros k pos s s' output;
    [discriminate|].
  cbn [process_loop].
  destruct (_ && _); [|discriminate].
  destruct (negb _ || _ || _ || _); [discriminate|].
  rewrite Hquiet. apply IH.
Qed.

(** A call that runs alone leaves the loop with the object it entered it
    with and, when the transform resources are there, with one output
    sample for every input sample. *)
Lemma process_loop_quiet (T : Transform) (d : Z) (N : Z)
    (input : list cplx) (s : Filter) (fuel : nat) :
  (0 < N)%Z ->
  forall (k pos : nat) (output : list cplx),
    (length input - pos < fuel)%nat ->
    exists output',
      process_loop T (quiet d) N input fuel k pos s output = Finished s output'
      /\ (isValidForProcessing s = true ->
          fft_input_ s && fft_output_ s && forward_plan_ s && inverse_plan_ s
          = true ->
          length output' = (length output + (length input - pos))%nat).
Proof.
  intros HN. induction fuel as [|fuel IH]; intros k pos output Hfuel; [lia|].
  cbn [process_loop quiet interfere throws].
  destruct (Nat.ltb_spec pos (length input)); cbn [andb].
  - destruct (isValidForProcessing s) eqn:Hv.
    + destruct (negb _ || _ || _ || _) eqn:Hres.
      * exists output. split; [reflexivity|]. intros _ Hall.
        rewrite !andb_true_iff in Hall. destruct Hall as [[[H1 H2] H3] H4].
        rewrite H1, H2, H3, H4 in Hres. discriminate Hres.
      * destruct (IH (S k)
                    (pos + Nat.min (Z.to_nat N) (length input - pos))%nat
                    (output ++ process_block T s N input pos
                                 (Nat.min (Z.to_nat N) (length input - pos))))
          as (output' & Hloop & Hlen); [lia|].
        exists output'. split; [exact Hloop|]. intros Hv' Hall.
        rewrite (Hlen Hv' Hall), length_app, process_block_length. lia.
    + exists output. split; [reflexivity|]. discriminate.
  - exists output. split; [reflexivity|]. intros _ _. lia.
Qed.

(** [process] returns, whatever the other threads do. *)
Lemma process_returns (M : LibM) (T : Transform) (env : ProcessEnv)
    (s : Filter) (input : list cplx) :
  exists s' output, process M T env s input = Some (s', output).
Proof.
  unfold process.
  destruct (isValidForProcessing s) eqn:Hv; cbn [negb orb]; [|eauto].
  destruct (length input =? 0)%nat; [eauto|].
  destruct (_ <? _)%Z; [eauto|].
  apply isValidForProcessing_true in Hv as (_ & _ & HN & _).
  match goal with
  | |- context [process_loop T env ?N input ?fuel 0 0 ?s0 []] =>
      pose proof (process_loop_terminates T env N input fuel HN 0 0 s0 []
                    ltac:(lia)) as Hterm;
      destruct (process_loop T env N input fuel 0 0 s0 [])
  end; [eauto | eauto | contradiction].
Qed.

Lemma prepared_same_resources (M : LibM) (s : Filter) :
  same_resources s (prepared M s).
Proof.
  unfold prepared. cbv zeta.
  destruct (parameters_changed_ (set_processing_active true s)).
  - pose proof (updateFilterParameters_same_resources M
                  (set_processing_active true s)) as H.
    unfold same_resources in *. cbn in H. exact H.
  - unfold same_resources. cbn. tauto.
Qed.

(** A call that runs alone and passes the guards ends in the statistics
    block, with one output sample for each input sample when the transform
    resources are in place. *)
Lemma process_quiet (M : LibM) (T : Transform) (d : Z) (s : Filter)
    (input : list cplx) :
  isValidForProcessing s = true ->
  input <> [] ->
  (Z.of_nat (length input) <= 10 * fft_size_ s)%Z ->
  exists output,
    process M T (quiet d) s input
    = Some (set_processing_active false
              (update_statistics (quiet d) input (prepared M s)), output)
    /\ (fft_input_ s && fft_output_ s && forward_plan_ s && inverse_plan_ s
        = true -> length output = length input).
Proof.
  intros Hv Hne Hlen. unfold process. rewrite Hv. cbn [negb orb].
  destruct (Nat.eqb_spec (length input) 0) as [E|_];
    [destruct input; [contradiction | discriminate E]|].
  destruct (Z.ltb_spec (fft_size_ s * 10) (Z.of_nat (length input))); [lia|].
  pose proof (proj1 (isValidForProcessing_true s) Hv) as (_ & _ & HN & _).
  destruct (process_loop_quiet T d (fft_size_ s) input (prepared M s)
              (S (length input)) HN 0 0 [] ltac:(lia))
    as (output & Hloop & Hout).
  rewrite Hloop. exists output. split; [reflexivity|].
  intros Hres.
  pose proof (prepared_same_resources M s) as Hsame.
  rewrite Hout.
  - cbn [length]. lia.
  - now rewrite (same_resources_valid _ _ Hsame).
  - destruct Hsame as (_ & _ & _ & _ & _ & _ & (-> & -> & -> & ->) & _).
    exact Hres.
Qed.

(** ** Statistics *)

(** C3, as the code has it: after a [process] call that passes the bypass
    guards and raises no exception, [getStats().samples_processed] is the
    number of samples of that call, not a running total; [reset()] and a
    successful [initialize] set it to zero. *)
Theorem C3_samples_processed_is_last_call (M : LibM) (T : Transform)
    (env : ProcessEnv) (s : Filter) (input : list cplx) :
  isValidForProcessing s = true ->
  input <> [] ->
  (Z.of_nat (length input) <= 10 * fft_size_ s)%Z ->
  (forall k, throws env k = false) ->
  (exists s' output,
      process M T env s input = Some (s', output)
      /\ samples_processed (getStats s') = Z.of_nat (length input))
  /\ samples_processed (getStats (reset s)) = 0%Z
  /\ (forall sample_rate fft_size,
        snd (initialize M true true sample_rate fft_size s) = true ->
        samples_processed
          (getStats (fst (initialize M true true sample_rate fft_size s)))
        = 0%Z).
Proof.
  intros Hv Hne Hlen Hquiet. split; [|split].
  - destruct (process_returns M T env s input) as (s' & output & Hp).
    exists s', output. split; [exact Hp|].
    unfold process in Hp. rewrite Hv in Hp. cbn [negb orb] in Hp.
    destruct (Nat.eqb_spec (length input) 0) as [E|_];
      [destruct input; [contradiction | discriminate E]|].
    destruct (Z.ltb_spec (fft_size_ s * 10) (Z.of_nat (length input))); [lia|].
    destruct (process_loop _ _ _ _ _ _ _ _ _) as [s3 out| s3 |] eqn:Hloop.
    + injection Hp as <- _. reflexivity.
    + now apply process_loop_not_raised in Hloop.
    + discriminate Hp.
  - apply isValidForProcessing_true in Hv as (Hi & _).
    unfold reset. rewrite Hi. reflexivity.
  - intros sample_rate fft_size. unfold initialize.
    destruct (_ || _ || _); [discriminate|]. cbn [negb]. intros _. reflexivity.
Qed.

Lemma C3_samples_processed_is_last_call_witness :
  let s := ready libm_rational 256000 256 in
  isValidForProcessing s = true
  /\ exists s' output,
       process libm_rational (loopback 256) (quiet 0) s [cone; cone; cone]
       = Some (s', output)
       /\ samples_processed (getStats s') = 3%Z.
Proof.
  cbv zeta.
  assert (Hv : isValidForProcessing (ready libm_rational 256000 256) = true)
    by (vm_compute; reflexivity).
  split; [exact Hv|].
  refine (proj1 (C3_samples_processed_is_last_call libm_rational (loopback 256)
                   (quiet 0) _ [cone; cone; cone] Hv _ _ _)).
  - discriminate.
  - vm_compute. discriminate.
  - reflexivity.
Defined.

(** C3 as stated fails: after a call with one sample and a call with two,
    [getStats().samples_processed] is 2, the size of the last call; the sum
    3 is in the private counter, which no query returns. *)
Lemma C3_second_call_overwrites_the_count :
  match process libm_rational (loopback 256) (quiet 0)
          (ready libm_rational 256000 256) [cone] with
  | Some (s1, _) =>
      match process libm_rational (loopback 256) (quiet 0) s1 [cone; cone] with
      | Some (s2, _) =>
          samples_processed (getStats s1) = 1%Z
          /\ samples_processed (getStats s2) = 2%Z
          /\ total_samples_processed_ s2 = 3%Z
      | None => False
      end
  | None => False
  end.
Proof. vm_compute. repeat split; reflexivity. Qed.

(** ** Faults inside the loop *)

(** An exception in the loop is absorbed: the input comes back and the
    filter stays initialized. *)
Lemma process_exception_returns_input (M : LibM) (T : Transform)
    (env : ProcessEnv) (s : Filter) (input : list cplx) :
  isValidForProcessing s = true ->
  input <> [] ->
  (Z.of_nat (length input) <= 10 * fft_size_ s)%Z ->
  (forall s0, interfere env 0%nat s0 = s0) ->
  fft_input_ s && fft_output_ s && forward_plan_ s && inverse_plan_ s = true ->
  throws env 0%nat = true ->
  process M T env s input
  = Some (set_processing_active false (prepared M s), input)
  /\ isInitialized (set_processing_active false (prepared M s)) = true.
Proof.
  intros Hv Hne Hlen Hid Hres Hthrow.
  pose proof (prepared_same_resources M s) as Hsame.
  pose proof (same_resources_valid _ _ Hsame) as Hv'. rewrite Hv in Hv'.
  split.
  - unfold process. rewrite Hv. cbn [negb orb].
    destruct (Nat.eqb_spec (length input) 0) as [E|Hn];
      [destruct input; [contradiction | discriminate E]|].
    destruct (Z.ltb_spec (fft_size_ s * 10) (Z.of_nat (length input))); [lia|].
    cbn [process_loop]. rewrite Hid, Hv', Hthrow.
    destruct (Nat.ltb_spec 0 (length input)); [|lia]. cbn [andb].
    destruct Hsame as (_ & _ & _ & _ & _ & _ & (-> & -> & -> & ->) & _).
    rewrite !andb_true_iff in Hres. destruct Hres as [[[-> ->] ->] ->].
    reflexivity.
  - apply isValidForProcessing_true in Hv' as (Hi & _). exact Hi.
Qed.

(** C2, where the code departs from it: when a transform buffer or plan is
    missing, the loop is left with [break], not through [catch].  The call
    then returns the output gathered so far (nothing, when the resources are
    missing from the start) instead of the input, and counts the whole input
    as processed.  The filter does stay initialized. *)
Theorem C2_missing_resources_return_no_samples (M : LibM) (T : Transform)
    (d : Z) (s : Filter) (input : list cplx) :
  isValidForProcessing s = true ->
  input <> [] ->
  (Z.of_nat (length input) <= 10 * fft_size_ s)%Z ->
  fft_input_ s && fft_output_ s && forward_plan_ s && inverse_plan_ s = false ->
  exists s',
    process M T (quiet d) s input = Some (s', [])
    /\ isInitialized s' = true
    /\ samples_processed (getStats s') = Z.of_nat (length input).
Proof.
  intros Hv Hne Hlen Hres.
  pose proof (prepared_same_resources M s) as Hsame.
  pose proof (same_resources_valid _ _ Hsame) as Hv'. rewrite Hv in Hv'.
  exists (set_processing_active false
            (update_statistics (quiet d) input (prepared M s))).
  split; [|split].
  - unfold process. rewrite Hv. cbn [negb orb].
    destruct (Nat.eqb_spec (length input) 0) as [E|Hn];
      [destruct input; [contradiction | discriminate E]|].
    destruct (Z.ltb_spec (fft_size_ s * 10) (Z.of_nat (length input))); [lia|].
    cbn [process_loop quiet interfere throws]. rewrite Hv'.
    destruct (Nat.ltb_spec 0 (length input)); [|lia]. cbn [andb].
    destruct Hsame as (_ & _ & _ & _ & _ & _ & (-> & -> & -> & ->) & _).
    destruct (fft_input_ s), (fft_output_ s), (forward_plan_ s),
      (inverse_plan_ s); try discriminate Hres; reflexivity.
  - apply isValidForProcessing_true in Hv' as (Hi & _). exact Hi.
  - reflexivity.
Qed.

Lemma C2_missing_resources_return_no_samples_witness :
  let s := set_forward_plan false (ready libm_rational 256000 256) in
  isValidForProcessing s = true
  /\ forward_plan_ s = false
  /\ exists s',
       process libm_rational (loopback 256) (quiet 0) s [cone; cone] = Some (s', [])
       /\ isInitialized s' = true
       /\ samples_processed (getStats s') = 2%Z.
Proof.
  cbv zeta.
  set (s := set_forward_plan false (ready libm_rational 256000 256)).
  assert (Hv : isValidForProcessing s = true) by (vm_compute; reflexivity).
  split; [exact Hv | split; [reflexivity|]].
  refine (C2_missing_resources_return_no_samples libm_rational (loopback 256) 0
            s [cone; cone] Hv _ _ _).
  - discriminate.
  - vm_compute. discriminate.
  - vm_compute. reflexivity.
Defined.

(** The same fault in the middle of a call: of 300 samples, the 256 of the
    first block come back filtered and the remaining 44 are dropped, while
    the statistics count 300. *)
Example process_truncates_when_plan_is_lost_mid_loop :
  option_map
    (fun r => (length (snd r), isInitialized (fst r),
               samples_processed (getStats (fst r))))
    (process libm_rational (loopback 256) plan_lost_after_first_block
       (ready libm_rational 256000 256) (repeat cone 300))
  = Some (256%nat, true, 300%Z).
Proof. vm_compute. reflexivity. Qed.

(** An exception in the middle of a call, in contrast, gives the whole
    input back. *)
Example process_returns_input_on_exception_mid_loop :
  option_map
    (fun r => (snd r, isInitialized (fst r)))
    (process libm_rational (loopback 256) exception_in_second_block
       (ready libm_rational 256000 256) (repeat cone 300))
  = Some (repeat cone 300, true).
Proof. vm_compute. reflexivity. Qed.

(** ** The processing flag does not influence a design pass *)

Lemma safelyUpdateKernel_processing_active (M : LibM) (b : bool) (s : Filter) :
  safelyUpdateKernel M (set_processing_active b s)
  = set_processing_active b (safelyUpdateKernel M s).
Proof.
  unfold safelyUpdateKernel.
  change (isValidForProcessing (set_processing_active b s))
    with (isValidForProcessing s).
  destruct (isValidForProcessing s); reflexivity.
Qed.

Lemma designFilter_processing_active (M : LibM) (b : bool) (s : Filter) :
  designFilter M (set_processing_active b s)
  = set_processing_active b (designFilter M s).
Proof.
  unfold designFilter, designSSBFilter.
  rewrite !safelyUpdateKernel_processing_active.
  change (isValidForProcessing (set_processing_active b s))
    with (isValidForProcessing s).
  destruct (isValidForProcessing s); cbn [negb]; [|reflexivity].
  change (config_ (set_processing_active b s)) with (config_ s).
  destruct (is_ssb (protocol (config_ s))).
  - unfold applySSBShaping. cbn -[safelyUpdateKernel].
    split_conditionals; reflexivity.
  - reflexivity.
Qed.

Lemma updateFilterParameters_processing_active (M : LibM) (b : bool)
    (s : Filter) :
  updateFilterParameters M (set_processing_active b s)
  = set_processing_active b (updateFilterParameters M s).
Proof.
  unfold updateFilterParameters.
  change (isValidForProcessing (set_processing_active b s))
    with (isValidForProcessing s).
  change (parameters_changed_ (set_processing_active b s))
    with (parameters_changed_ s).
  destruct (isValidForProcessing s); cbn [negb]; [|reflexivity].
  destruct (parameters_changed_ s); cbn [negb]; [|reflexivity].
  cbv zeta.
  change (config_ (set_processing_active b s)) with (config_ s).
  change (passband_low_hz_ (set_processing_active b s)) with (passband_low_hz_ s).
  change (passband_high_hz_ (set_processing_active b s)) with (passband_high_hz_ s).
  destruct (is_ssb (protocol (config_ s)));
    [|destruct (Qltb _ 1)];
    match goal with
    | |- set_parameters_changed false (designFilter M ?x)
         = set_processing_active b
             (set_parameters_changed false (designFilter M ?y)) =>
        change x with (set_processing_active b y)
    end;
    rewrite designFilter_processing_active; reflexivity.
Qed.

(** ** Passband edges across a parameter update *)

Lemma designFilter_passband (M : LibM) (s : Filter) :
  passband_low_hz_ (designFilter M s) = passband_low_hz_ s
  /\ passband_high_hz_ (designFilter M s) = passband_high_hz_ s.
Proof.
  unfold designFilter, designSSBFilter, safelyUpdateKernel, applySSBShaping.
  destruct (isValidForProcessing s); cbn [negb]; [|tauto].
  destruct (is_ssb (protocol (config_ s))); cbn;
    split_conditionals; cbn; tauto.
Qed.

(** The update of a valid, dirty, non-SSB object: the edges are replaced by
    the protocol's defaults if they are symmetric to within 1 Hz, and the
    kernel is then designed. *)
Lemma updateFilterParameters_non_ssb (M : LibM) (s : Filter) :
  isValidForProcessing s = true ->
  parameters_changed_ s = true ->
  is_ssb (protocol (config_ s)) = false ->
  updateFilterParameters M s
  = set_parameters_changed false
      (designFilter M
         (if Qltb (Qabs (passband_low_hz_ s + passband_high_hz_ s)) 1 then
            set_passband_high_hz
              (passband_width (PROTOCOL_DEFAULTS (protocol (config_ s))) / 2)
              (set_passband_low_hz
                 (- (passband_width (PROTOCOL_DEFAULTS (protocol (config_ s))) / 2))
                 s)
          else s)).
Proof.
  intros Hv Hc Hp. unfold updateFilterParameters.
  rewrite Hv, Hc, Hp. reflexivity.
Qed.

(** C9: when a redesign is triggered by the dirty flag and the protocol is
    not USB or LSB, [updateFilterParameters] replaces passband edges that are
    symmetric to within 1 Hz by the protocol's default [-w/2, +w/2] before it
    designs the kernel, and keeps edges that are not; the next [process]
    call leaves the filter with exactly these edges and this kernel. *)
Theorem C9_symmetric_passband_is_overwritten (M : LibM) (s : Filter) :
  isValidForProcessing s = true ->
  parameters_changed_ s = true ->
  is_ssb (protocol (config_ s)) = false ->
  let w := passband_width (PROTOCOL_DEFAULTS (protocol (config_ s))) in
  let low := passband_low_hz_ s in
  let high := passband_high_hz_ s in
  let u := updateFilterParameters M s in
  (Qabs (low + high) < 1 ->
   passband_low_hz_ u = - (w / 2) /\ passband_high_hz_ u = w / 2
   /\ filter_kernel_ u
      = filter_kernel_
          (designFilter M
             (set_passband_high_hz (w / 2) (set_passband_low_hz (- (w / 2)) s))))
  /\ (1 <= Qabs (low + high) ->
      passband_low_hz_ u = low /\ passband_high_hz_ u = high
      /\ filter_kernel_ u = filter_kernel_ (designFilter M s))
  /\ (forall (T : Transform) (d : Z) (input : list cplx),
        input <> [] ->
        (Z.of_nat (length input) <= 10 * fft_size_ s)%Z ->
        exists s' output,
          process M T (quiet d) s input = Some (s', output)
          /\ parameters_changed_ s' = false
          /\ passband_low_hz_ s' = passband_low_hz_ u
          /\ passband_high_hz_ s' = passband_high_hz_ u
          /\ filter_kernel_ s' = filter_kernel_ u).
Proof.
  intros Hv Hc Hp. cbv zeta.
  rewrite (updateFilterParameters_non_ssb M s Hv Hc Hp).
  split; [|split].
  - intros Hsym.
    destruct (Qltb_spec (Qabs (passband_low_hz_ s + passband_high_hz_ s)) 1);
      [|contradiction].
    match goal with
    | |- context [designFilter M ?x] =>
        destruct (designFilter_passband M x) as [Hl Hh]
    end.
    cbn. cbn in Hl, Hh. rewrite Hl, Hh. repeat split; reflexivity.
  - intros Hasym.
    destruct (Qltb_spec (Qabs (passband_low_hz_ s + passband_high_hz_ s)) 1);
      [lra|].
    destruct (designFilter_passband M s) as [Hl Hh].
    cbn. rewrite Hl, Hh. repeat split; reflexivity.
  - intros T d input Hne Hlen.
    destruct (process_quiet M T d s input Hv Hne Hlen) as (output & Hproc & _).
    eexists _, output. split; [exact Hproc|].
    unfold prepared. cbv zeta.
    change (parameters_changed_ (set_processing_active true s))
      with (parameters_changed_ s).
    rewrite Hc, updateFilterParameters_processing_active.
    rewrite (updateFilterParameters_non_ssb M s Hv Hc Hp).
    repeat split; reflexivity.
Qed.

Lemma C9_symmetric_passband_is_overwritten_witness :
  let s := setPassband (-5000) 5000 (ready libm_rational 256000 256) in
  isValidForProcessing s = true
  /\ parameters_changed_ s = true
  /\ passband_low_hz_ s = -5000
  /\ passband_high_hz_ s = 5000
  /\ passband_low_hz_ (updateFilterParameters libm_rational s) = - (200000 / 2)
  /\ passband_high_hz_ (updateFilterParameters libm_rational s) = 200000 / 2.
Proof.
  cbv zeta.
  set (s := setPassband (-5000) 5000 (ready libm_rational 256000 256)).
  assert (Hv : isValidForProcessing s = true) by (vm_compute; reflexivity).
  assert (Hc : parameters_changed_ s = true) by (vm_compute; reflexivity).
  assert (Hp : is_ssb (protocol (config_ s)) = false) by (vm_compute; reflexivity).
  destruct (C9_symmetric_passband_is_overwritten libm_rational s Hv Hc Hp)
    as (Hsym & _ & _).
  destruct Hsym as (Hl & Hh & _); [vm_compute; reflexivity|].
  repeat split; try assumption; vm_compute; reflexivity.
Defined.

(** ** A kernel of the wrong size *)







(** The other way round, a call that read 512 and finds the buffers of a
    filter re-initialised with 256 points clears 512 entries of a buffer of
    256: the [memset] writes past its end. *)
Example process_block_overruns_smaller_buffers :
  let current_fft_size := fft_size_ (ready libm_rational 256000 512) in
  let s := reinitialized libm_rational 256000 512 256 in
  isValidForProcessing s = true
  /\ resources_ready s = true
  /\ Z.of_nat (length (filter_kernel_ s)) <> current_fft_size
  /\ process_block_on (loopback (fft_size_ s)) (filter_kernel_ s)
       current_fft_size (repeat czero (Z.to_nat (fft_size_ s)))
       [mkC 1 2; mkC 3 4] 0 2 = None.
Proof.
  cbv zeta. split; [vm_compute; reflexivity|].
  split; [vm_compute; reflexivity|].
  split; [vm_compute; discriminate|].
  vm_compute. reflexivity.
Qed.

(** ** The response query *)

Lemma clamp_range (v lo hi : Z) :
  (lo <= hi)%Z -> (lo <= clamp v lo hi <= hi)%Z.
Proof.
  intros H. unfold clamp.
  destruct (Z.ltb_spec v lo); [lia|]. destruct (Z.ltb_spec hi v); lia.
Qed.

(** In general: 1 if the filter is not ready, 0 beyond Nyquist, and
    otherwise the magnitude of the kernel at [response_bin]. *)
Lemma getResponse_cases (M : LibM) (s : Filter) (frequency : Q) :
  (isValidForProcessing s = false -> getResponse M s frequency = 1)
  /\ (isValidForProcessing s = true ->
      length (filter_kernel_ s) = Z.to_nat (fft_size_ s) ->
      (sample_rate (config_ s) / 2 < Qabs frequency ->
       getResponse M s frequency = 0)
      /\ (Qabs frequency <= sample_rate (config_ s) / 2 ->
          getResponse M s frequency
          = cabs M (nth (Z.to_nat (response_bin s frequency))
                      (filter_kernel_ s) czero))).
Proof.
  unfold getResponse. split.
  - intros ->. reflexivity.
  - intros Hv Hlen. rewrite Hv. cbn [negb].
    pose proof (proj1 (isValidForProcessing_true s) Hv) as (_ & _ & HN & _).
    destruct (filter_kernel_ s) as [|z k] eqn:Ek;
      [cbn in Hlen; lia | rewrite <- Ek in *; clear Ek z k].
    cbv zeta. fold (response_bin s frequency).
    pose proof (clamp_range
                  (float_to_int ((frequency + sample_rate (config_ s) / 2)
                                 / frequency_resolution_ s))
                  0 (fft_size_ s - 1) ltac:(lia)) as Hbin.
    fold (response_bin s frequency) in Hbin.
    destruct (Qltb_spec (sample_rate (config_ s) / 2) (Qabs frequency)).
    + split; [reflexivity | intros; lra].
    + split; [intros; lra | intros _].
      destruct (Z.ltb_spec (response_bin s frequency)
                  (Z.of_nat (length (filter_kernel_ s)))); [reflexivity | lia].
Qed.

(** After a design pass the query returns the designed gain of the bin it
    reads. *)
Lemma getResponse_designed (M : LibM) (s : Filter) (frequency : Q) :
  isValidForProcessing s = true ->
  Qabs frequency <= sample_rate (config_ s) / 2 ->
  getResponse M (set_parameters_changed false (designFilter M s)) frequency
  = cabs M (designed_bin M s (response_bin s frequency)).
Proof.
  intros Hv Hf.
  change (getResponse M (set_parameters_changed false (designFilter M s)) frequency)
    with (getResponse M (designFilter M s) frequency).
  pose proof (designFilter_same_resources M s) as Hsame.
  pose proof (same_resources_valid _ _ Hsame) as Hv'. rewrite Hv in Hv'.
  destruct Hsame as (_ & _ & Hn & Hr & Hcfg & _).
  pose proof (proj1 (isValidForProcessing_true s) Hv) as (_ & _ & HN & _).
  destruct (getResponse_cases M (designFilter M s) frequency) as [_ H].
  destruct H as [_ H];
    [exact Hv' | rewrite Hn; apply designFilter_length; exact Hv |].
  rewrite H by (rewrite Hcfg; exact Hf).
  unfold response_bin at 1. rewrite Hn, Hr, Hcfg.
  fold (response_bin s frequency).
  pose proof (clamp_range
                (float_to_int ((frequency + sample_rate (config_ s) / 2)
                               / frequency_resolution_ s))
                0 (fft_size_ s - 1) ltac:(lia)) as Hbin.
  fold (response_bin s frequency) in Hbin.
  rewrite designFilter_nth by (assumption || lia).
  now rewrite Z2Nat.id by lia.
Qed.

Lemma fmax_floor_of_zero (m : Q) : 0 < m -> Qabs (fmax 0 m) == m.
Proof.
  intros Hm. unfold fmax. destruct (Qltb_spec 0 m); [|lra].
  apply Qabs_pos. lra.
Qed.

Lemma fmax_floor_of_one (m : Q) : m < 1 -> Qabs (fmax 1 m) == 1.
Proof.
  intros Hm. unfold fmax. destruct (Qltb_spec 1 m); [lra | reflexivity].
Qed.


Lemma designed_same_geometry (M : LibM) (s : Filter) :
  fft_size_ (set_parameters_changed false (designFilter M s)) = fft_size_ s
  /\ frequency_resolution_ (set_parameters_changed false (designFilter M s))
     = frequency_resolution_ s
  /\ response_bin (set_parameters_changed false (designFilter M s))
     = response_bin s.
Proof.
  destruct (designFilter_same_resources M s) as (_ & _ & Hn & Hr & Hcfg & _).
  change (fft_size_ (set_parameters_changed false (designFilter M s)))
    with (fft_size_ (designFilter M s)).
  change (frequency_resolution_ (set_parameters_changed false (designFilter M s)))
    with (frequency_resolution_ (designFilter M s)).
  change (response_bin (set_parameters_changed false (designFilter M s)))
    with (response_bin (designFilter M s)).
  unfold response_bin. rewrite Hn, Hr, Hcfg. auto.
Qed.

(** C1, where the code departs from it.  With the default WFM
    configuration (2.048 MHz, 1024 bins, passband of 100 kHz on each side of
    0 Hz, 75 dB), right after [initialize] no design pass has run and the
    kernel is all-pass: the response 1 MHz away is 1, not the floor.  After
    a design pass the kernel is stored in FFT order but [getResponse] reads
    it as if frequency [-Nyquist] were bin 0: frequency 0 reads bin 512 (the
    bin of 1.024 MHz) and returns the floor, and 1 MHz reads bin 1012 (the
    bin of -24 kHz, in the passband) and returns 1. *)
Theorem C1_getResponse_at_default_WFM (M : LibM) :
  let floor := powf M 10 (Qopp 75 / 20) in
  0 < floor -> floor < 1 ->
  let s1 := ready M 2048000 1024 in
  let s2 := updateFilterParameters M (setCenterFrequency 0 s1) in
  (getResponse M s1 0 = 1 /\ getResponse M s1 1000000 = 1)
  /\ (getResponse M s2 0 == floor /\ getResponse M s2 1000000 == 1)
  /\ (response_bin s2 0 = 512%Z
      /\ bin_frequency (fft_size_ s2) (frequency_resolution_ s2) 512 == 1024000)
  /\ (response_bin s2 1000000 = 1012%Z
      /\ bin_frequency (fft_size_ s2) (frequency_resolution_ s2) 1012 == -24000).
Proof.
  cbv zeta. intros Hpos Hlt1.
  split; [split; vm_compute; reflexivity|].
  set (s := setCenterFrequency 0 (ready M 2048000 1024)).
  assert (Hv : isValidForProcessing s = true) by (vm_compute; reflexivity).
  assert (Hc : parameters_changed_ s = true) by (vm_compute; reflexivity).
  assert (Hp : is_ssb (protocol (config_ s)) = false) by (vm_compute; reflexivity).
  rewrite (updateFilterParameters_non_ssb M s Hv Hc Hp).
  replace (Qltb (Qabs (passband_low_hz_ s + passband_high_hz_ s)) 1) with true
    by (vm_compute; reflexivity).
  set (e := set_passband_high_hz _ _).
  assert (Hve : isValidForProcessing e = true) by (vm_compute; reflexivity).
  assert (Hpe : is_ssb (protocol (config_ e)) = false) by (vm_compute; reflexivity).
  assert (Hb0 : response_bin e 0 = 512%Z) by (vm_compute; reflexivity).
  assert (Hb1 : response_bin e 1000000 = 1012%Z) by (vm_compute; reflexivity).
  assert (Hr0 : shaped_response (protocol (config_ e)) (ssb_sharp_cutoff_ e)
                  (current_center_freq_ e) (low_cutoff_of e) (high_cutoff_of e)
                  (frequency_resolution_ e)
                  (bin_frequency (fft_size_ e) (frequency_resolution_ e) 512) = 0)
    by (vm_compute; reflexivity).
  assert (Hr1 : shaped_response (protocol (config_ e)) (ssb_sharp_cutoff_ e)
                  (current_center_freq_ e) (low_cutoff_of e) (high_cutoff_of e)
                  (frequency_resolution_ e)
                  (bin_frequency (fft_size_ e) (frequency_resolution_ e) 1012) = 1)
    by (vm_compute; reflexivity).
  assert (Hm : min_response M (config_ e) = powf M 10 (Qopp 75 / 20))
    by reflexivity.
  change (if true then e else s) with e.
  destruct (designed_same_geometry M e) as (Hn & Hr & Hbin).
  split; [split|split; split].
  - rewrite getResponse_designed by (assumption || (vm_compute; discriminate)).
    rewrite Hb0. unfold designed_bin, kernel_bin. rewrite Hpe. cbv zeta.
    rewrite Hr0, Hm, cabs_real by reflexivity.
    now apply fmax_floor_of_zero.
  - rewrite getResponse_designed by (assumption || (vm_compute; discriminate)).
    rewrite Hb1. unfold designed_bin, kernel_bin. rewrite Hpe. cbv zeta.
    rewrite Hr1, Hm, cabs_real by reflexivity.
    now apply fmax_floor_of_one.
  - rewrite Hbin. exact Hb0.
  - rewrite Hn, Hr. vm_compute. reflexivity.
  - rewrite Hbin. exact Hb1.
  - rewrite Hn, Hr. vm_compute. reflexivity.
Qed.

Lemma C1_getResponse_at_default_WFM_witness :
  0 < powf libm_rational 10 (Qopp 75 / 20) < 1
  /\ getResponse libm_rational (ready libm_rational 2048000 1024) 1000000 = 1
  /\ getResponse libm_rational
       (updateFilterParameters libm_rational
          (setCenterFrequency 0 (ready libm_rational 2048000 1024))) 0
     == powf libm_rational 10 (Qopp 75 / 20).
Proof.
  assert (Hpos : 0 < powf libm_rational 10 (Qopp 75 / 20))
    by (vm_compute; reflexivity).
  assert (Hlt : powf libm_rational 10 (Qopp 75 / 20) < 1)
    by (vm_compute; reflexivity).
  destruct (C1_getResponse_at_default_WFM libm_rational Hpos Hlt)
    as ((_ & Hfar) & (Hzero & _) & _).
  split; [split; assumption | split; assumption].
Defined.

(** The running total of samples is accumulated, modulo 2^64, in the private
    counter. *)
Lemma process_accumulates_private_total (M : LibM) (T : Transform) (d : Z)
    (s : Filter) (input : list cplx) :
  isValidForProcessing s = true ->
  input <> [] ->
  (Z.of_nat (length input) <= 10 * fft_size_ s)%Z ->
  exists s' output,
    process M T (quiet d) s input = Some (s', output)
    /\ total_samples_processed_ s'
       = size_t_add (total_samples_processed_ s) (Z.of_nat (length input)).
Proof.
  intros Hv Hne Hlen.
  destruct (process_quiet M T d s input Hv Hne Hlen) as (output & Hp & _).
  eexists _, output. split; [exact Hp|].
  destruct (prepared_same_resources M s) as (_ & _ & _ & _ & _ & _ & _ & Ht & _).
  change (size_t_add (total_samples_processed_ (prepared M s))
            (Z.of_nat (length input))
          = size_t_add (total_samples_processed_ s) (Z.of_nat (length input))).
  now rewrite Ht.
Qed.

(** * Further properties of the code *)

(** ** The block size test of [initialize] *)

Lemma land_double_odd (a b : Z) :
  Z.land (2 * a) (2 * b + 1) = (2 * Z.land a b)%Z.
Proof.
  apply Z.bits_inj'. intros i Hi. rewrite Z.land_spec.
  destruct (Z.eq_dec i 0) as [->|Hne].
  - now rewrite !Z.testbit_even_0.
  - replace i with (Z.succ (i - 1)) by lia.
    rewrite !Z.testbit_even_succ, Z.testbit_odd_succ, Z.land_spec by lia.
    reflexivity.
Qed.

Lemma land_odd_double (a b : Z) :
  Z.land (2 * a + 1) (2 * b) = (2 * Z.land a b)%Z.
Proof. rewrite Z.land_comm, land_double_odd, Z.land_comm. reflexivity. Qed.

(** [(n & (n - 1)) == 0] singles out the powers of two among the positive
    integers. *)
Lemma land_pred_power_of_two (n : Z) :
  (0 < n)%Z ->
  Z.land n (n - 1) = 0%Z <-> exists k, (0 <= k)%Z /\ n = (2 ^ k)%Z.
Proof.
  intros Hn. destruct n as [|p|p]; try lia. clear Hn.
  induction p as [q IH|q IH|].
  - replace (Z.pos q~1 - 1)%Z with (2 * Z.pos q)%Z by lia.
    replace (Z.pos q~1) with (2 * Z.pos q + 1)%Z by lia.
    rewrite land_odd_double, Z.land_diag. split; [lia|].
    intros (k & Hk & E). destruct (Z.eq_dec k 0) as [->|Hne].
    + cbn in E. lia.
    + replace k with (Z.succ (k - 1)) in E by lia.
      rewrite Z.pow_succ_r in E by lia. lia.
  - replace (Z.pos q~0 - 1)%Z with (2 * (Z.pos q - 1) + 1)%Z by lia.
    replace (Z.pos q~0) with (2 * Z.pos q)%Z by lia.
    rewrite land_double_odd. split.
    + intros H. destruct (proj1 IH ltac:(lia)) as (k & Hk & E).
      exists (Z.succ k). split; [lia|]. rewrite Z.pow_succ_r by lia. lia.
    + intros (k & Hk & E). destruct (Z.eq_dec k 0) as [->|Hne].
      * cbn in E. lia.
      * replace k with (Z.succ (k - 1)) in E by lia.
        rewrite Z.pow_succ_r in E by lia.
        assert (H : Z.land (Z.pos q) (Z.pos q - 1) = 0%Z).
        { apply IH. exists (k - 1)%Z. split; lia. }
        lia.
  - split; [|reflexivity]. intros _. exists 0%Z. split; [lia | reflexivity].
Qed.

(** X1: [initialize] returns true exactly when the sample rate is positive,
    the block size is a power of two [2 ^ k] with [k >= 8], and the buffers
    and plans could be allocated. *)
Theorem initialize_accepts_powers_of_two (M : LibM) (buffers_ok plans_ok : bool)
    (sample_rate fft_size : Z) (s : Filter) :
  snd (initialize M buffers_ok plans_ok sample_rate fft_size s) = true <->
  (0 < sample_rate)%Z
  /\ (exists k, (8 <= k)%Z /\ fft_size = (2 ^ k)%Z)
  /\ buffers_ok = true /\ plans_ok = true.
Proof.
  unfold initialize.
  destruct (Z.leb_spec sample_rate 0) as [Hs|Hs]; cbn [orb snd];
    [split; [discriminate | lia]|].
  destruct (Z.ltb_spec fft_size 256) as [Hn|Hn]; cbn [orb snd].
  - split; [discriminate|]. intros (_ & (k & Hk & ->) & _).
    pose proof (Z.pow_le_mono_r 2 8 k ltac:(lia) Hk) as H.
    change (2 ^ 8)%Z with 256%Z in H. lia.
  - pose proof (land_pred_power_of_two fft_size ltac:(lia)) as Hpow.
    destruct (Z.eqb_spec (Z.land fft_size (fft_size - 1)) 0) as [Hl|Hl];
      cbn [negb snd].
    + destruct (proj1 Hpow Hl) as (k & Hk & E).
      assert (Hk8 : (8 <= k)%Z).
      { destruct (Z.le_gt_cases 8 k) as [|Hlt]; [assumption|].
        pose proof (Z.pow_lt_mono_r 2 k 8 ltac:(lia) ltac:(lia) Hlt) as H.
        change (2 ^ 8)%Z with 256%Z in H. lia. }
      destruct buffers_ok; cbn [negb snd];
        [destruct plans_ok; cbn [negb snd]|].
      * split; [intros _|reflexivity]. repeat split; eauto.
      * split; [discriminate | intros (_ & _ & _ & H); discriminate H].
      * split; [discriminate | intros (_ & _ & H & _); discriminate H].
    + split; [discriminate|]. intros (_ & (k & Hk & E) & _).
      exfalso. apply Hl, Hpow. exists k. split; [lia | exact E].
Qed.

(** ** What [initialize] leaves behind *)

Lemma designFilter_invalid (M : LibM) (s : Filter) :
  isValidForProcessing s = false -> designFilter M s = s.
Proof. intros H. unfold designFilter. now rewrite H. Qed.

Lemma nth_repeat_lt {A} (x d : A) (n i : nat) :
  (i < n)%nat -> nth i (repeat x n) d = x.
Proof.
  revert i. induction n as [|n IH]; intros [|i] H; cbn; try lia; auto.
  apply IH. lia.
Qed.

(** The members after a call of [initialize] whose arguments pass the test
    and whose allocations succeed. *)
Lemma initialize_success_state (M : LibM) (sample_rate fft_size : Z)
    (s : Filter) :
  (sample_rate <=? 0)%Z || (fft_size <? 256)%Z
  || negb (Z.land fft_size (fft_size - 1) =? 0)%Z = false ->
  let s' := fst (initialize M true true sample_rate fft_size s) in
  let d := PROTOCOL_DEFAULTS (protocol (config_ s)) in
  snd (initialize M true true sample_rate fft_size s) = true
  /\ initialized_ s' = true
  /\ enabled_ s' = enabled_ s
  /\ parameters_changed_ s' = false
  /\ processing_active_ s' = processing_active_ s
  /\ config_ s' = cfg_set_sample_rate (inject_Z sample_rate) (config_ s)
  /\ fft_size_ s' = fft_size
  /\ frequency_resolution_ s' = inject_Z sample_rate / inject_Z fft_size
  /\ resources_ready s' = true
  /\ filter_kernel_ s' = repeat cone (Z.to_nat fft_size)
  /\ passband_low_hz_ s' = - (passband_width d / 2)
  /\ passband_high_hz_ s' = passband_width d / 2
  /\ current_center_freq_ s' = center_frequency (config_ s)
  /\ ssb_carrier_offset_ s' = carrier_offset d
  /\ ssb_sharp_cutoff_ s' = sharp_cutoff d
  /\ samples_processed (current_stats_ s') = 0%Z
  /\ is_enabled (current_stats_ s') = enabled_ s
  /\ total_samples_processed_ s' = total_samples_processed_ s.
Proof.
  intros Hguard. cbv zeta. unfold initialize. rewrite Hguard. cbn [negb].
  cbv zeta.
  match goal with
  | |- context [designFilter M ?x] =>
      rewrite (designFilter_invalid M x) by reflexivity
  end.
  cbn [fst snd]. unfold resources_ready.
  repeat split; try reflexivity.
  cbn. apply vec_resize_nil.
Qed.

Lemma initialize_true_inv (M : LibM) (buffers_ok plans_ok : bool)
    (sample_rate fft_size : Z) (s : Filter) :
  snd (initialize M buffers_ok plans_ok sample_rate fft_size s) = true ->
  (sample_rate <=? 0)%Z || (fft_size <? 256)%Z
  || negb (Z.land fft_size (fft_size - 1) =? 0)%Z = false
  /\ buffers_ok = true /\ plans_ok = true.
Proof.
  unfold initialize.
  destruct (_ || _ || _); [discriminate|]. cbn [negb].
  destruct buffers_ok; [|discriminate]. cbn [negb].
  destruct plans_ok; [|discriminate]. auto.
Qed.

Lemma process_bypass_when_invalid (M : LibM) (T : Transform)
    (env : ProcessEnv) (s : Filter) (input : list cplx) :
  isValidForProcessing s = false -> process M T env s input = Some (s, input).
Proof. intros H. unfold process. now rewrite H. Qed.

(** X2: when [initialize] returns false because of its arguments, the
    object is as before the call (an initialized filter stays in service);
    when an allocation fails, the filter is left uninitialized, without
    transform resources and with an empty kernel, whatever it was before,
    and [process] passes every input through unchanged. *)
Theorem initialize_failure_leaves_filter_inert (M : LibM)
    (buffers_ok plans_ok : bool) (sample_rate fft_size : Z) (s : Filter) :
  snd (initialize M buffers_ok plans_ok sample_rate fft_size s) = false ->
  let s' := fst (initialize M buffers_ok plans_ok sample_rate fft_size s) in
  (((sample_rate <= 0)%Z \/ (fft_size < 256)%Z
    \/ Z.land fft_size (fft_size - 1) <> 0%Z)
   /\ s' = s)
  \/ ((buffers_ok = false \/ plans_ok = false)
      /\ isInitialized s' = false
      /\ resources_ready s' = false
      /\ filter_kernel_ s' = []
      /\ forall (T : Transform) (env : ProcessEnv) (input : list cplx),
           process M T env s' input = Some (s', input)).
Proof.
  cbv zeta. unfold initialize.
  destruct (Z.leb_spec sample_rate 0); cbn [orb]; [left; auto|].
  destruct (Z.ltb_spec fft_size 256); cbn [orb]; [left; auto|].
  destruct (Z.eqb_spec (Z.land fft_size (fft_size - 1)) 0); cbn [negb];
    [|left; auto].
  destruct buffers_ok; cbn [negb fst snd].
  - destruct plans_ok; cbn [negb fst snd]; [discriminate|].
    intros _. right.
    split; [auto | split; [reflexivity | split; [reflexivity | split]]];
      [reflexivity|].
    intros T env input. now apply process_bypass_when_invalid.
  - intros _. right.
    split; [auto | split; [reflexivity | split; [reflexivity | split]]];
      [reflexivity|].
    intros T env input. now apply process_bypass_when_invalid.
Qed.

Lemma initialize_failure_leaves_filter_inert_witness :
  let s := ready libm_rational 256000 256 in
  snd (initialize libm_rational true false 48000 512 s) = false
  /\ isInitialized s = true
  /\ isInitialized (fst (initialize libm_rational true false 48000 512 s)) = false
  /\ snd (initialize libm_rational true true 48000 500 s) = false
  /\ fst (initialize libm_rational true true 48000 500 s) = s.
Proof.
  cbv zeta.
  set (s := ready libm_rational 256000 256).
  assert (H1 : snd (initialize libm_rational true false 48000 512 s) = false)
    by reflexivity.
  assert (H2 : snd (initialize libm_rational true true 48000 500 s) = false)
    by reflexivity.
  split; [exact H1 | split; [reflexivity|]].
  destruct (initialize_failure_leaves_filter_inert _ _ _ _ _ _ H1)
    as [([Hc|[Hc|Hc]] & _)|(_ & Hi & _)];
    [lia | lia | exfalso; apply Hc; reflexivity |].
  split; [exact Hi | split; [exact H2|]].
  destruct (initialize_failure_leaves_filter_inert _ _ _ _ _ _ H2)
    as [(_ & E)|([Hc|Hc] & _)]; [exact E | discriminate Hc ..].
Defined.

Lemma positive_resolution (sample_rate fft_size : Z) :
  (0 < sample_rate)%Z -> (0 < fft_size)%Z ->
  0 < inject_Z sample_rate / inject_Z fft_size.
Proof.
  intros Hs Hn. apply Qlt_shift_div_l.
  - unfold Qlt. cbn. lia.
  - unfold Qlt. cbn. lia.
Qed.

(** X3: a successful [initialize] keeps the protocol and the enabled flag,
    takes the passband of the protocol's defaults, zeroes the per-call
    statistics but not the running total, and leaves an all-pass kernel of
    one unit gain per bin: until a parameter changes, the response of the
    enabled filter is 1 at every frequency up to Nyquist, whatever the
    protocol. *)
Theorem initialize_leaves_all_pass_kernel (M : LibM)
    (buffers_ok plans_ok : bool) (rate size : Z) (s : Filter) :
  snd (initialize M buffers_ok plans_ok rate size s) = true ->
  let s' := fst (initialize M buffers_ok plans_ok rate size s) in
  isInitialized s' = true
  /\ protocol (getConfiguration s') = protocol (getConfiguration s)
  /\ sample_rate (getConfiguration s') = inject_Z rate
  /\ is_enabled (getStats s') = enabled_ s
  /\ samples_processed (getStats s') = 0%Z
  /\ total_samples_processed_ s' = total_samples_processed_ s
  /\ passband_width_hz (getStats s')
     == passband_width (PROTOCOL_DEFAULTS (protocol (getConfiguration s)))
  /\ filter_kernel_ s' = repeat cone (Z.to_nat size)
  /\ (enabled_ s = true ->
      forall f, Qabs f <= inject_Z rate / 2 -> getResponse M s' f = 1).
Proof.
  intros Hok. cbv zeta.
  destruct (initialize_true_inv _ _ _ _ _ _ Hok) as (Hguard & -> & ->).
  destruct (initialize_success_state M rate size s Hguard)
    as (_ & Hi & He & Hc & _ & Hcfg & Hn & Hr & Hres & Hk & Hl & Hh & _ & _
        & _ & Hsp & Hie & Ht).
  set (s' := fst (initialize M true true rate size s)) in *.
  clearbody s'.
  rewrite !orb_false_iff, negb_false_iff in Hguard.
  destruct Hguard as [[Hs%Z.leb_gt Hn256%Z.ltb_ge] _].
  unfold isInitialized, getConfiguration, getStats.
  cbn [protocol sample_rate is_enabled samples_processed passband_width_hz
       stats_set_passband_width_hz stats_set_current_center_freq
       stats_set_ssb_carrier_offset_hz stats_set_stopband_attenuation_db
       stats_set_ssb_mode_active].
  rewrite Hcfg, Hl, Hh.
  repeat split; auto.
  - unfold Qminus. field.
  - intros Hen f Hf.
    assert (Hv : isValidForProcessing s' = true).
    { apply isValidForProcessing_true. rewrite Hi, He, Hn, Hr.
      repeat split; auto; [lia | apply positive_resolution; lia]. }
    destruct (getResponse_cases M s' f) as [_ H].
    destruct H as [_ H]; [exact Hv | rewrite Hk, repeat_length, Hn; reflexivity|].
    rewrite H by (rewrite Hcfg; exact Hf).
    pose proof (clamp_range
                  (float_to_int ((f + sample_rate (config_ s') / 2)
                                 / frequency_resolution_ s'))
                  0 (fft_size_ s' - 1) ltac:(lia)) as Hbin.
    fold (response_bin s' f) in Hbin.
    rewrite Hk, nth_repeat_lt by lia. reflexivity.
Qed.

Lemma initialize_leaves_all_pass_kernel_witness :
  let s := setEnabled true (setProtocol USB (ready libm_rational 256000 256)) in
  snd (initialize libm_rational true true 48000 512 s) = true
  /\ protocol
       (getConfiguration (fst (initialize libm_rational true true 48000 512 s)))
     = USB
  /\ getResponse libm_rational
       (fst (initialize libm_rational true true 48000 512 s)) (-20000) = 1.
Proof.
  cbv zeta.
  set (s := setEnabled true (setProtocol USB (ready libm_rational 256000 256))).
  assert (H : snd (initialize libm_rational true true 48000 512 s) = true)
    by reflexivity.
  destruct (initialize_leaves_all_pass_kernel _ _ _ _ _ _ H)
    as (_ & Hp & _ & _ & _ & _ & _ & _ & Hr).
  split; [exact H | split; [exact Hp|]].
  apply Hr; [reflexivity | vm_compute; discriminate].
Defined.

(** ** The invariant of single-caller use *)

Lemma well_formed_frame (s s' : Filter) :
  well_formed s ->
  processing_active_ s' = false ->
  filter_kernel_ s' = filter_kernel_ s ->
  initialized_ s' = initialized_ s ->
  fft_size_ s' = fft_size_ s ->
  frequency_resolution_ s' = frequency_resolution_ s ->
  resources_ready s' = resources_ready s ->
  well_formed s'.
Proof.
  unfold well_formed. intros (Hpa & Hre & Hinit) -> -> -> -> -> ->.
  auto.
Qed.

Lemma well_formed_uninitialized (s : Filter) :
  processing_active_ s = false -> filter_kernel_ s = [] ->
  initialized_ s = false -> well_formed s.
Proof.
  unfold well_formed. intros -> -> ->.
  split; [reflexivity | split; [constructor | discriminate]].
Qed.

Lemma designed_bin_real (M : LibM) (s : Filter) (i : Z) :
  im (designed_bin M s i) == 0.
Proof.
  unfold designed_bin, kernel_bin, cscale.
  destruct (is_ssb (protocol (config_ s))); cbn [im]; [ring | reflexivity].
Qed.

Lemma designFilter_real (M : LibM) (s : Filter) :
  Forall (fun z => im z == 0) (filter_kernel_ s) ->
  Forall (fun z => im z == 0) (filter_kernel_ (designFilter M s)).
Proof.
  intros Hre. destruct (isValidForProcessing s) eqn:Hv.
  - apply Forall_forall. intros z Hz.
    destruct (In_nth _ _ czero Hz) as (i & Hi & <-).
    rewrite (designFilter_length M s Hv) in Hi.
    rewrite (designFilter_nth M s i Hv Hi). apply designed_bin_real.
  - now rewrite designFilter_invalid.
Qed.

Lemma designFilter_keeps_flag (M : LibM) (s : Filter) :
  processing_active_ (designFilter M s) = processing_active_ s.
Proof.
  unfold designFilter, designSSBFilter, safelyUpdateKernel, applySSBShaping.
  destruct (isValidForProcessing s); cbn [negb]; [|reflexivity].
  destruct (is_ssb (protocol (config_ s))); cbn;
    split_conditionals; reflexivity.
Qed.

Lemma same_resources_ready (s s' : Filter) :
  same_resources s s' -> resources_ready s' = resources_ready s.
Proof.
  intros (_ & _ & _ & _ & _ & _ & (H1 & H2 & H3 & H4) & _).
  unfold resources_ready. now rewrite H1, H2, H3, H4.
Qed.

Lemma designFilter_well_formed (M : LibM) (s : Filter) :
  well_formed s -> well_formed (designFilter M s).
Proof.
  intros Hwf.
  pose proof (designFilter_same_resources M s) as Hsame.
  pose proof (same_resources_ready _ _ Hsame) as Hres.
  pose proof (designFilter_keeps_flag M s) as Hpa.
  destruct Hsame as (Hi & _ & Hn & Hr & _).
  destruct Hwf as (Hpa0 & Hre & Hinit).
  unfold well_formed. rewrite Hpa, Hi, Hn, Hr, Hres.
  split; [exact Hpa0 | split; [now apply designFilter_real|]].
  intros Hini. destruct (Hinit Hini) as (H1 & H2 & H3 & H4 & H5).
  repeat split; auto.
  destruct (isValidForProcessing s) eqn:Hv.
  - now apply designFilter_length.
  - now rewrite designFilter_invalid.
Qed.

Lemma updateFilterParameters_well_formed (M : LibM) (s : Filter) :
  well_formed s -> well_formed (updateFilterParameters M s).
Proof.
  intros Hwf. unfold updateFilterParameters.
  destruct (isValidForProcessing s); cbn [negb]; [|exact Hwf].
  destruct (parameters_changed_ s); cbn [negb]; [|exact Hwf].
  cbv zeta.
  match goal with
  | |- well_formed (set_parameters_changed false (designFilter M ?x)) =>
      assert (Hx : well_formed x); [|
        apply (well_formed_frame (designFilter M x));
        [now apply designFilter_well_formed
        | apply (proj1 (designFilter_well_formed M x Hx))
        | reflexivity ..]]
  end.
  destruct (is_ssb (protocol (config_ s))).
  - apply (well_formed_frame s); [exact Hwf | apply Hwf | reflexivity ..].
  - destruct (Qltb _ 1); [|exact Hwf].
    apply (well_formed_frame s); [exact Hwf | apply Hwf | reflexivity ..].
Qed.

(** The three ways a call of [process] that runs alone can end. *)
Lemma process_quiet_cases (M : LibM) (T : Transform) (d : Z) (s : Filter)
    (input : list cplx) :
  (process M T (quiet d) s input = Some (s, input)
   /\ (isValidForProcessing s = false \/ input = []))
  \/ (process M T (quiet d) s input
      = Some (set_processing_active false s, input)
      /\ isValidForProcessing s = true
      /\ (10 * fft_size_ s < Z.of_nat (length input))%Z)
  \/ (exists output,
        process M T (quiet d) s input
        = Some (set_processing_active false
                  (update_statistics (quiet d) input (prepared M s)), output)
        /\ isValidForProcessing s = true
        /\ input <> []
        /\ (Z.of_nat (length input) <= 10 * fft_size_ s)%Z
        /\ (resources_ready s = true -> length output = length input)).
Proof.
  destruct (isValidForProcessing s) eqn:Hv.
  - destruct input as [|z input'] eqn:Ei.
    + left. split; [|auto]. unfold process. rewrite Hv. reflexivity.
    + rewrite <- Ei. assert (Hne : input <> []) by (subst; discriminate).
      clear Ei.
      destruct (Z.le_gt_cases (Z.of_nat (length input)) (10 * fft_size_ s))
        as [Hle|Hgt].
      * right. right.
        destruct (process_quiet M T d s input Hv Hne Hle) as (out & Hp & Hl).
        exists out. auto.
      * right. left. split; [|split; [reflexivity | lia]].
        unfold process. rewrite Hv. cbn [negb orb].
        destruct (Nat.eqb_spec (length input) 0) as [E|_];
          [destruct input; [contradiction | discriminate E]|].
        destruct (Z.ltb_spec (fft_size_ s * 10) (Z.of_nat (length input)));
          [reflexivity | lia].
  - left. split; [|auto]. now apply process_bypass_when_invalid.
Qed.

Lemma prepared_well_formed (M : LibM) (d : Z) (s : Filter)
    (input : list cplx) :
  well_formed s ->
  well_formed (set_processing_active false
                 (update_statistics (quiet d) input (prepared M s))).
Proof.
  intros Hwf. unfold prepared. cbv zeta.
  change (parameters_changed_ (set_processing_active true s))
    with (parameters_changed_ s).
  destruct (parameters_changed_ s).
  - rewrite updateFilterParameters_processing_active.
    apply (well_formed_frame (updateFilterParameters M s));
      [now apply updateFilterParameters_well_formed | reflexivity ..].
  - apply (well_formed_frame s); [exact Hwf | reflexivity ..].
Qed.

Lemma process_well_formed (M : LibM) (T : Transform) (d : Z) (s : Filter)
    (input : list cplx) :
  well_formed s ->
  well_formed (match process M T (quiet d) s input with
               | Some (s', _) => s'
               | None => s
               end).
Proof.
  intros Hwf.
  destruct (process_quiet_cases M T d s input)
    as [(-> & _)|[(-> & _)|(out & -> & _)]].
  - exact Hwf.
  - apply (well_formed_frame s); [exact Hwf | reflexivity ..].
  - now apply prepared_well_formed.
Qed.

Lemma initialize_well_formed (M : LibM) (buffers_ok plans_ok : bool)
    (rate size : Z) (s : Filter) :
  well_formed s ->
  well_formed (fst (initialize M buffers_ok plans_ok rate size s)).
Proof.
  intros Hwf.
  destruct (snd (initialize M buffers_ok plans_ok rate size s)) eqn:Hok.
  - destruct (initialize_true_inv _ _ _ _ _ _ Hok) as (Hguard & -> & ->).
    destruct (initialize_success_state M rate size s Hguard)
      as (_ & Hi & _ & _ & Hpa & _ & Hn & Hr & Hres & Hk & _).
    set (s' := fst (initialize M true true rate size s)) in *. clearbody s'.
    rewrite !orb_false_iff, negb_false_iff in Hguard.
    destruct Hguard as [[Hs%Z.leb_gt Hn256%Z.ltb_ge] Hland%Z.eqb_eq].
    unfold well_formed. rewrite Hpa, Hk, Hn, Hr, Hres.
    split; [apply Hwf | split].
    + apply Forall_forall. intros z Hz. apply repeat_spec in Hz. now subst z.
    + intros _. repeat split; auto.
      * apply positive_resolution; lia.
      * apply repeat_length.
  - revert Hok. unfold initialize.
    destruct (_ || _ || _); cbn [negb fst snd]; [intros _; exact Hwf|].
    destruct buffers_ok; cbn [negb fst snd];
      [destruct plans_ok; cbn [negb fst snd]; [discriminate|]|];
      intros _; apply well_formed_uninitialized;
      try reflexivity; apply Hwf.
Qed.

Lemma run_call_well_formed (M : LibM) (T : Transform) (c : Call) (s : Filter) :
  well_formed s -> well_formed (run_call M T c s).
Proof.
  intros Hwf. destruct c; cbn [run_call].
  - now apply initialize_well_formed.
  - unfold configure. destruct (initialized_ s); cbn [negb]; [|exact Hwf].
    apply (well_formed_frame s); [exact Hwf | apply Hwf | reflexivity ..].
  - apply (well_formed_frame s); [exact Hwf | apply Hwf | reflexivity ..].
  - unfold setProtocol. destruct (initialized_ s) eqn:Hi; cbn [negb];
      [|exact Hwf].
    destruct (Protocol_eqb (protocol (config_ s)) p); [exact Hwf|].
    apply (well_formed_frame s); [exact Hwf | apply Hwf | reflexivity ..].
  - unfold setPassband.
    destruct (Qle_bool high_freq low_freq); cbn [orb]; [exact Hwf|].
    destruct (initialized_ s) eqn:Hi; cbn [negb]; [|exact Hwf].
    apply (well_formed_frame s); [exact Hwf | apply Hwf | reflexivity ..].
  - unfold setCenterFrequency. destruct (initialized_ s); cbn [negb];
      [|exact Hwf].
    apply (well_formed_frame s); [exact Hwf | apply Hwf | reflexivity ..].
  - unfold setSSBCarrierOffset. destruct (initialized_ s); cbn [negb];
      [|exact Hwf].
    apply (well_formed_frame s); [exact Hwf | apply Hwf | reflexivity ..].
  - unfold setSSBSharpCutoff. destruct (initialized_ s); cbn [negb];
      [|exact Hwf].
    apply (well_formed_frame s); [exact Hwf | apply Hwf | reflexivity ..].
  - now apply process_well_formed.
  - unfold processInPlace.
    destruct (negb (isValidForProcessing s) || (length samples =? 0)%nat);
      [exact Hwf | now apply process_well_formed].
  - unfold reset. destruct (initialized_ s); cbn [negb]; [|exact Hwf].
    apply (well_formed_frame s); [exact Hwf | apply Hwf | reflexivity ..].
  - apply well_formed_uninitialized; try reflexivity. apply Hwf.
Qed.

Lemma constructed_well_formed : well_formed constructed.
Proof. apply well_formed_uninitialized; reflexivity. Qed.

Lemma run_calls_well_formed (M : LibM) (T : Transform) (calls : list Call) :
  well_formed (run_calls M T calls).
Proof.
  unfold run_calls.
  generalize constructed_well_formed. generalize constructed.
  induction calls as [|c calls IH]; intros s Hwf; cbn [fold_left];
    [exact Hwf|].
  apply IH. now apply run_call_well_formed.
Qed.

(** X4: whatever sequence of public calls one caller makes on a new filter,
    between the calls no call is in flight, the kernel is real-valued, and
    an initialized filter has a power-of-two block size of at least 256, a
    positive frequency resolution, exactly one kernel gain per bin and all
    four transform resources. *)
Theorem single_caller_invariant (M : LibM) (T : Transform) (calls : list Call) :
  well_formed (run_calls M T calls).
Proof. apply run_calls_well_formed. Qed.

(** ** Consequences for a filter in single-caller use *)

(** X5: on a filter one caller has driven through any sequence of public
    calls, a call of [process] that runs alone returns exactly one output
    sample per input sample, bypassed or filtered, and [processInPlace]
    returns the same. *)
Theorem process_preserves_length (M : LibM) (T : Transform)
    (calls : list Call) (d : Z) (input : list cplx) :
  exists s' output,
    process M T (quiet d) (run_calls M T calls) input = Some (s', output)
    /\ processInPlace M T (quiet d) (run_calls M T calls) input
       = Some (s', output)
    /\ length output = length input.
Proof.
  pose proof (run_calls_well_formed M T calls) as (_ & _ & Hinit).
  set (s := run_calls M T calls) in *. clearbody s.
  assert (Hin : processInPlace M T (quiet d) s input
                = process M T (quiet d) s input).
  { unfold processInPlace, process.
    now destruct (negb (isValidForProcessing s) || (length input =? 0)%nat). }
  rewrite Hin.
  destruct (process_quiet_cases M T d s input)
    as [(Hp & _)|[(Hp & _)|(out & Hp & Hv & _ & _ & Hlen)]];
    rewrite Hp; eexists _, _; repeat split.
  apply Hlen.
  apply isValidForProcessing_true in Hv as (Hi & _).
  now destruct (Hinit Hi) as (_ & _ & _ & _ & Hres).
Qed.

Lemma cabs_nonneg_real (M : LibM) (z : cplx) : im z == 0 -> 0 <= cabs M z.
Proof.
  intros H. unfold cabs. rewrite (proj2 (Qeq_bool_iff _ _) H).
  apply Qabs_nonneg.
Qed.

(** X6: on such a filter [getResponse] never returns a negative value: the
    bin it reads exists and holds a real gain, whose magnitude needs no
    library call. *)
Theorem reachable_response_nonnegative (M : LibM) (T : Transform)
    (calls : list Call) (frequency : Q) :
  0 <= getResponse M (run_calls M T calls) frequency.
Proof.
  pose proof (run_calls_well_formed M T calls) as (_ & Hre & Hinit).
  set (s := run_calls M T calls) in *. clearbody s.
  - destruct (isValidForProcessing s) eqn:Hv.
    + pose proof (proj1 (isValidForProcessing_true s) Hv) as (Hi & _ & HN & _).
      destruct (Hinit Hi) as (_ & _ & _ & Hlen & _).
      destruct (getResponse_cases M s frequency) as [_ H].
      destruct (H Hv Hlen) as [Hout Hin].
      destruct (Qlt_le_dec (sample_rate (config_ s) / 2) (Qabs frequency))
        as [Hf|Hf].
      * rewrite (Hout Hf). lra.
      * rewrite (Hin Hf). apply cabs_nonneg_real.
        pose proof (clamp_range
                      (float_to_int ((frequency + sample_rate (config_ s) / 2)
                                     / frequency_resolution_ s))
                      0 (fft_size_ s - 1) ltac:(lia)) as Hbin.
        fold (response_bin s frequency) in Hbin.
        apply (proj1 (Forall_forall _ _) Hre). apply nth_In. lia.
    + rewrite (proj1 (getResponse_cases M s frequency) Hv). lra.
Qed.

(** ** [process] under interference *)

Lemma process_loop_output_length (T : Transform) (env : ProcessEnv) (N : Z)
    (input : list cplx) (fuel : nat) :
  forall (k pos : nat) (s s' : Filter) (output output' : list cplx),
    (pos <= length input)%nat ->
    process_loop T env N input fuel k pos s output = Finished s' output' ->
    (length output' + pos <= length output + length input)%nat.
Proof.
  induction fuel as [|fuel IH]; intros k pos s s' output output' Hpos;
    [discriminate|].
  cbn [process_loop].
  destruct (_ && _); [|intros [= _ <-]; lia].
  destruct (negb _ || _ || _ || _); [intros [= _ <-]; lia|].
  destruct (throws env k); [discriminate|].
  intros Hloop. apply IH in Hloop; [|lia].
  rewrite length_app, process_block_length in Hloop. lia.
Qed.

(** X7: when a call of [process] returns, whatever other threads did to
    the object between its blocks and whether or not an exception was
    raised, it has returned at most as many samples as it was given, and a
    call that got past its first test has lowered the processing flag on the
    way out.  (Whether a call returns while another thread holds one of the
    mutexes is not part of the statement: the locks are not modelled.) *)
Theorem process_never_lengthens_its_input (M : LibM) (T : Transform)
    (env : ProcessEnv) (s s' : Filter) (input output : list cplx) :
  process M T env s input = Some (s', output) ->
  (length output <= length input)%nat
  /\ (isValidForProcessing s = true -> input <> [] ->
      processing_active_ s' = false).
Proof.
  unfold process.
  destruct (isValidForProcessing s) eqn:Hv; cbn [negb orb];
    [|intros [= _ <-]; split; [lia | discriminate]].
  destruct (Nat.eqb_spec (length input) 0) as [E|_].
  { intros [= _ <-]. split; [lia|]. intros _ Hne.
    destruct input; [contradiction | discriminate E]. }
  destruct (_ <? _)%Z; [intros [= <- <-]; split; [lia | reflexivity]|].
  match goal with
  | |- context [process_loop T env ?N input ?fuel 0 0 ?s0 []] =>
      pose proof (fun s' o' => process_loop_output_length T env N input fuel
                    0 0 s0 s' [] o' ltac:(lia)) as Hlen;
      destruct (process_loop T env N input fuel 0 0 s0 [])
        as [s3 out|s3|]
  end; [| |discriminate]; intros [= <- <-]; split; try reflexivity; try lia.
  specialize (Hlen s3 out eq_refl). cbn [length] in Hlen. lia.
Qed.

Lemma process_never_lengthens_its_input_witness :
  exists s' output,
    process libm_rational (loopback 256) plan_lost_after_first_block
      (ready libm_rational 256000 256) (repeat cone 300) = Some (s', output)
    /\ (length output <= 300)%nat
    /\ processing_active_ s' = false.
Proof.
  let r := eval vm_compute in
    (process libm_rational (loopback 256) plan_lost_after_first_block
       (ready libm_rational 256000 256) (repeat cone 300)) in
  match r with
  | Some (?a, ?b) =>
      exists a, b;
      assert (Hp : process libm_rational (loopback 256)
                     plan_lost_after_first_block
                     (ready libm_rational 256000 256) (repeat cone 300)
                   = Some (a, b)) by (vm_compute; reflexivity);
      destruct (process_never_lengthens_its_input _ _ _ _ _ _ _ Hp)
        as [Hlen Hflag]
  end.
  split; [exact Hp | split].
  - rewrite repeat_length in Hlen. exact Hlen.
  - apply Hflag; [vm_compute; reflexivity | discriminate].
Defined.

Lemma process_loop_raises (T : Transform) (env : ProcessEnv) (N : Z)
    (input : list cplx) (s : Filter) :
  (forall k s0, interfere env k s0 = s0) ->
  isValidForProcessing s = true ->
  resources_ready s = true ->
  forall (j fuel k pos : nat) (output : list cplx),
    (forall i, (i < j)%nat -> throws env (k + i)%nat = false) ->
    throws env (k + j)%nat = true ->
    (pos + j * Z.to_nat N < length input)%nat ->
    (j < fuel)%nat ->
    process_loop T env N input fuel k pos s output = Raised s.
Proof.
  intros Hid Hv Hres. unfold resources_ready in Hres.
  rewrite !andb_true_iff in Hres. destruct Hres as [[[H1 H2] H3] H4].
  induction j as [|j IH]; intros fuel k pos output Hquiet Hthrow Hpos Hfuel;
    (destruct fuel as [|fuel]; [lia|]); cbn [process_loop];
    rewrite Hid, Hv, H1, H2, H3, H4; cbn [negb orb];
    (destruct (Nat.ltb_spec pos (length input)); [|lia]); cbn [andb].
  - rewrite Nat.add_0_r in Hthrow. now rewrite Hthrow.
  - rewrite <- (Nat.add_0_r k) at 1. rewrite (Hquiet 0%nat) by lia.
    apply IH.
    + intros i Hi. replace (S k + i)%nat with (k + S i)%nat by lia.
      apply Hquiet. lia.
    + replace (S k + j)%nat with (k + S j)%nat by lia. exact Hthrow.
    + cbn [Nat.mul] in Hpos. lia.
    + lia.
Qed.

Lemma updateFilterParameters_clears_flag (M : LibM) (s : Filter) :
  isValidForProcessing s = true ->
  parameters_changed_ (updateFilterParameters M s) = false.
Proof.
  intros Hv. unfold updateFilterParameters. rewrite Hv. cbn [negb].
  destruct (parameters_changed_ s) eqn:Hc; cbn [negb]; [reflexivity | exact Hc].
Qed.

Lemma prepared_clears_flag (M : LibM) (s : Filter) :
  isValidForProcessing s = true -> parameters_changed_ (prepared M s) = false.
Proof.
  intros Hv. unfold prepared. cbv zeta.
  change (parameters_changed_ (set_processing_active true s))
    with (parameters_changed_ s).
  destruct (parameters_changed_ s) eqn:Hc; [|exact Hc].
  now apply updateFilterParameters_clears_flag.
Qed.

(** X8: when an exception is raised in any block of a call that otherwise
    runs alone, [process] gives back the whole input; the filter stays
    initialized, the sample counters are as before the call, and a pending
    parameter change has still been applied. *)
Theorem process_exception_in_any_block (M : LibM) (T : Transform)
    (env : ProcessEnv) (s : Filter) (input : list cplx) (j : nat) :
  isValidForProcessing s = true ->
  resources_ready s = true ->
  (Z.of_nat (length input) <= 10 * fft_size_ s)%Z ->
  (forall k s0, interfere env k s0 = s0) ->
  (forall i, (i < j)%nat -> throws env i = false) ->
  throws env j = true ->
  (j * Z.to_nat (fft_size_ s) < length input)%nat ->
  exists s',
    process M T env s input = Some (s', input)
    /\ isInitialized s' = true
    /\ samples_processed (getStats s') = samples_processed (getStats s)
    /\ total_samples_processed_ s' = total_samples_processed_ s
    /\ parameters_changed_ s' = false.
Proof.
  intros Hv Hres Hlen Hid Hquiet Hthrow Hj.
  pose proof (prepared_same_resources M s) as Hsame.
  pose proof (same_resources_valid _ _ Hsame) as Hv'. rewrite Hv in Hv'.
  pose proof (same_resources_ready _ _ Hsame) as Hres'. rewrite Hres in Hres'.
  exists (set_processing_active false (prepared M s)).
  split; [|split; [|split; [|split]]].
  - unfold process. rewrite Hv. cbn [negb orb].
    destruct (Nat.eqb_spec (length input) 0) as [E|_]; [lia|].
    destruct (Z.ltb_spec (fft_size_ s * 10) (Z.of_nat (length input))); [lia|].
    rewrite (process_loop_raises T env (fft_size_ s) input (prepared M s)
               Hid Hv' Hres' j (S (length input)) 0 0 []);
      [reflexivity | exact Hquiet | exact Hthrow | lia |].
    destruct (Z.to_nat (fft_size_ s)) eqn:E; [|nia].
    apply isValidForProcessing_true in Hv. lia.
  - apply isValidForProcessing_true in Hv' as (Hi & _). exact Hi.
  - destruct Hsame as (_ & _ & _ & _ & _ & _ & _ & _ & Hsp). exact Hsp.
  - destruct Hsame as (_ & _ & _ & _ & _ & _ & _ & Ht & _). exact Ht.
  - now apply prepared_clears_flag.
Qed.

Lemma process_exception_in_any_block_witness :
  let s := setPassband (-5000) 5000 (ready libm_rational 256000 256) in
  isValidForProcessing s = true
  /\ parameters_changed_ s = true
  /\ exists s',
       process libm_rational (loopback 256) exception_in_second_block s
         (repeat cone 300) = Some (s', repeat cone 300)
       /\ isInitialized s' = true
       /\ samples_processed (getStats s') = samples_processed (getStats s)
       /\ total_samples_processed_ s' = total_samples_processed_ s
       /\ parameters_changed_ s' = false.
Proof.
  cbv zeta.
  set (s := setPassband (-5000) 5000 (ready libm_rational 256000 256)).
  assert (Hv : isValidForProcessing s = true) by (vm_compute; reflexivity).
  split; [exact Hv | split; [reflexivity|]].
  refine (process_exception_in_any_block libm_rational (loopback 256)
            exception_in_second_block s (repeat cone 300) 1 Hv _ _ _ _ _ _).
  - vm_compute. reflexivity.
  - vm_compute. discriminate.
  - reflexivity.
  - intros [|i] Hi; [reflexivity | lia].
  - reflexivity.
  - vm_compute. lia.
Defined.

(** X9: a call of [process] that runs alone never changes the
    configuration, the enabled and initialized flags, the block size or the
    frequency resolution; on a filter without pending changes it leaves the
    kernel and the passband edges as they are; and when it gets past the
    bypass tests no parameter change is pending afterwards. *)
Theorem process_leaves_configuration (M : LibM) (T : Transform) (d : Z)
    (s : Filter) (input : list cplx) :
  exists s' output,
    process M T (quiet d) s input = Some (s', output)
    /\ getConfiguration s' = getConfiguration s
    /\ isInitialized s' = isInitialized s
    /\ enabled_ s' = enabled_ s
    /\ fft_size_ s' = fft_size_ s
    /\ frequency_resolution_ s' = frequency_resolution_ s
    /\ (parameters_changed_ s = false ->
        filter_kernel_ s' = filter_kernel_ s
        /\ passband_low_hz_ s' = passband_low_hz_ s
        /\ passband_high_hz_ s' = passband_high_hz_ s)
    /\ (isValidForProcessing s = true -> input <> [] ->
        (Z.of_nat (length input) <= 10 * fft_size_ s)%Z ->
        parameters_changed_ s' = false).
Proof.
  destruct (process_quiet_cases M T d s input)
    as [(Hp & Hb)|[(Hp & Hv & Hb)|(out & Hp & Hv & Hne & Hlen & _)]];
    rewrite Hp; eexists _, _; (split; [reflexivity|]).
  - do 5 (split; [reflexivity|]). split; [auto|].
    intros Hv Hne Hlen. destruct Hb as [Hb|Hb]; [congruence | contradiction].
  - do 5 (split; [reflexivity|]). split; [auto|]. intros _ _ Hlen. lia.
  - destruct (prepared_same_resources M s)
      as (Hi & He & Hn & Hr & Hcfg & _).
    unfold getConfiguration, isInitialized.
    change (config_ (prepared M s) = config_ s
            /\ initialized_ (prepared M s) = initialized_ s
            /\ enabled_ (prepared M s) = enabled_ s
            /\ fft_size_ (prepared M s) = fft_size_ s
            /\ frequency_resolution_ (prepared M s) = frequency_resolution_ s
            /\ (parameters_changed_ s = false ->
                filter_kernel_ (prepared M s) = filter_kernel_ s
                /\ passband_low_hz_ (prepared M s) = passband_low_hz_ s
                /\ passband_high_hz_ (prepared M s) = passband_high_hz_ s)
            /\ (isValidForProcessing s = true -> input <> [] ->
                (Z.of_nat (length input) <= 10 * fft_size_ s)%Z ->
                parameters_changed_ (prepared M s) = false)).
    do 5 (split; [assumption|]). split.
    + intros Hc. unfold prepared. cbv zeta.
      change (parameters_changed_ (set_processing_active true s))
        with (parameters_changed_ s).
      rewrite Hc. auto.
    + intros _ _ _. now apply prepared_clears_flag.
Qed.

(** ** [reset] and [configure] *)

Lemma reset_idempotent (s : Filter) : reset (reset s) = reset s.
Proof.
  destruct s as [ini en pc pa cfg n ov df fp ip fi fo ker lo hi cen soff
                 scut eh ehi al st tot].
  destruct ini.
  - cbv -[map Z.of_nat]. rewrite map_map. reflexivity.
  - reflexivity.
Qed.

(** X10: [reset] does nothing to an uninitialized filter; on an initialized
    one it zeroes the per-call statistics and the running total, takes the
    center frequency and the SSB carrier offset back from the stored
    configuration, and keeps the kernel, the passband edges, the enabled
    flag, the configuration and the pending-change flag; a second [reset]
    changes nothing more. *)
Theorem reset_zeroes_counters_and_keeps_kernel (s : Filter) :
  (isInitialized s = false -> reset s = s)
  /\ (isInitialized s = true ->
      samples_processed (getStats (reset s)) = 0%Z
      /\ total_samples_processed_ (reset s) = 0%Z
      /\ processing_time_ms (getStats (reset s)) = 0
      /\ current_center_freq (getStats (reset s))
         = center_frequency (getConfiguration s)
      /\ getSSBCarrierOffset (reset s) = ssb_carrier_offset (getConfiguration s)
      /\ filter_kernel_ (reset s) = filter_kernel_ s
      /\ passband_low_hz_ (reset s) = passband_low_hz_ s
      /\ passband_high_hz_ (reset s) = passband_high_hz_ s
      /\ enabled_ (reset s) = enabled_ s
      /\ getConfiguration (reset s) = getConfiguration s
      /\ parameters_changed_ (reset s) = parameters_changed_ s)
  /\ reset (reset s) = reset s.
Proof.
  split; [|split].
  - unfold isInitialized, reset. now intros ->.
  - unfold isInitialized, reset. intros ->. cbn [negb].
    repeat split; reflexivity.
  - apply reset_idempotent.
Qed.



(** ** Parameter updates in the SSB modes *)

(** X12: when a redesign is triggered in USB or LSB, the passband edges are
    left as stored, symmetric or not, and the live carrier offset and
    sharpness are overwritten with those of the stored configuration before
    the kernel is designed. *)
Theorem ssb_update_keeps_edges (M : LibM) (s : Filter) :
  isValidForProcessing s = true ->
  parameters_changed_ s = true ->
  is_ssb (protocol (config_ s)) = true ->
  let u := updateFilterParameters M s in
  passband_low_hz_ u = passband_low_hz_ s
  /\ passband_high_hz_ u = passband_high_hz_ s
  /\ getSSBCarrierOffset u = ssb_carrier_offset (getConfiguration s)
  /\ ssb_sharp_cutoff_ u = ssb_sharp_cutoff (getConfiguration s)
  /\ parameters_changed_ u = false
  /\ filter_kernel_ u
     = filter_kernel_
         (designFilter M
            (set_ssb_sharp_cutoff (ssb_sharp_cutoff (config_ s))
               (set_ssb_carrier_offset (ssb_carrier_offset (config_ s)) s))).
Proof.
  intros Hv Hc Hp. cbv zeta. unfold updateFilterParameters.
  rewrite Hv, Hc, Hp. cbn [negb]. cbv zeta.
  set (x := set_ssb_sharp_cutoff _ _).
  destruct (designFilter_passband M x) as [Hl Hh].
  assert (Hoff : ssb_carrier_offset_ (designFilter M x) = ssb_carrier_offset_ x
                 /\ ssb_sharp_cutoff_ (designFilter M x) = ssb_sharp_cutoff_ x).
  { unfold designFilter, designSSBFilter, safelyUpdateKernel, applySSBShaping.
    destruct (isValidForProcessing x); cbn [negb]; [|tauto].
    destruct (is_ssb (protocol (config_ x))); cbn -[x];
      split_conditionals; cbn -[x]; tauto. }
  destruct Hoff as [Ho Hs].
  unfold getSSBCarrierOffset, getConfiguration.
  change (passband_low_hz_ (designFilter M x) = passband_low_hz_ s
          /\ passband_high_hz_ (designFilter M x) = passband_high_hz_ s
          /\ ssb_carrier_offset_ (designFilter M x)
             = ssb_carrier_offset (config_ s)
          /\ ssb_sharp_cutoff_ (designFilter M x) = ssb_sharp_cutoff (config_ s)
          /\ false = false
          /\ filter_kernel_ (designFilter M x) = filter_kernel_ (designFilter M x)).
  rewrite Hl, Hh, Ho, Hs. repeat split; reflexivity.
Qed.

Lemma ssb_update_keeps_edges_witness :
  let s := setPassband (-1000) 1000
             (setProtocol LSB (ready libm_rational 256000 256)) in
  isValidForProcessing s = true
  /\ passband_low_hz_ (updateFilterParameters libm_rational s) = -1000
  /\ passband_high_hz_ (updateFilterParameters libm_rational s) = 1000.
Proof.
  cbv zeta.
  set (s := setPassband (-1000) 1000
              (setProtocol LSB (ready libm_rational 256000 256))).
  assert (Hv : isValidForProcessing s = true) by (vm_compute; reflexivity).
  destruct (ssb_update_keeps_edges libm_rational s Hv eq_refl eq_refl)
    as (Hl & Hh & _).
  split; [exact Hv | split; [rewrite Hl | rewrite Hh]]; reflexivity.
Defined.

(** X13: after a switch to USB the cutoffs of the design are the live center
    frequency and 3 kHz above it; after a switch to LSB they are 3 kHz below
    the center frequency and the center frequency: the default carrier
    offset puts the 3 kHz passband on the wanted side of the carrier. *)
Theorem ssb_passband_sits_beside_carrier (s : Filter) :
  isInitialized s = true ->
  (protocol (config_ s) <> USB ->
   low_cutoff_of (setProtocol USB s) == current_center_freq_ s
   /\ high_cutoff_of (setProtocol USB s) == current_center_freq_ s + 3000)
  /\ (protocol (config_ s) <> LSB ->
      low_cutoff_of (setProtocol LSB s) == current_center_freq_ s - 3000
      /\ high_cutoff_of (setProtocol LSB s) == current_center_freq_ s).
Proof.
  unfold isInitialized. intros Hi. unfold setProtocol. rewrite Hi. cbn [negb].
  split; intros Hp.
  - destruct (Protocol_eqb_spec (protocol (config_ s)) USB); [contradiction|].
    unfold low_cutoff_of, high_cutoff_of. cbn. split; field.
  - destruct (Protocol_eqb_spec (protocol (config_ s)) LSB); [contradiction|].
    unfold low_cutoff_of, high_cutoff_of. cbn. split; field.
Qed.

Lemma ssb_passband_sits_beside_carrier_witness :
  let s := setCenterFrequency 10000 (ready libm_rational 256000 256) in
  isInitialized s = true
  /\ low_cutoff_of (setProtocol USB s) == 10000
  /\ high_cutoff_of (setProtocol USB s) == 13000.
Proof.
  cbv zeta.
  set (s := setCenterFrequency 10000 (ready libm_rational 256000 256)).
  assert (Hi : isInitialized s = true) by reflexivity.
  destruct (ssb_passband_sits_beside_carrier s Hi) as [H _].
  destruct H as [Hl Hh]; [discriminate|].
  split; [exact Hi | split; [rewrite Hl | rewrite Hh]]; reflexivity.
Defined.

(** ** The shape of the designed kernel *)

Lemma Qdiv_eq_compat (a b t : Q) : a == b -> a / t == b / t.
Proof. intros ->. reflexivity. Qed.

Lemma shaped_response_mirror (p : Protocol) (sharp : bool)
    (center low high df f f' : Q) :
  is_ssb p = false -> low <= high -> low == - high -> f' == - f ->
  shaped_response p sharp center low high df f'
  == shaped_response p sharp center low high df f.
Proof.
  intros Hp Hle Hlh Hf. unfold shaped_response. rewrite Hp. cbv zeta.
  destruct (Qle_bool_spec low f'), (Qle_bool_spec f' high),
    (Qle_bool_spec low f), (Qle_bool_spec f high); cbn [andb];
    try lra; try reflexivity;
    destruct (Qle_bool_spec (low - df * 2) f'), (Qltb_spec f' low),
      (Qltb_spec high f), (Qle_bool_spec f (high + df * 2)),
      (Qle_bool_spec (low - df * 2) f), (Qltb_spec f low),
      (Qltb_spec high f'), (Qle_bool_spec f' (high + df * 2)); cbn [andb];
    try lra; try reflexivity; apply Qdiv_eq_compat; lra.
Qed.

(** X14: for a protocol other than USB and LSB whose cutoffs are symmetric
    about 0 Hz (with the low one below the high one), the designed kernel
    is symmetric in frequency: the bin of [+f] and the bin of [-f] carry the
    same gain. *)
Theorem non_ssb_kernel_is_symmetric (M : LibM) (s : Filter) (i : Z) :
  isValidForProcessing s = true ->
  is_ssb (protocol (config_ s)) = false ->
  low_cutoff_of s <= high_cutoff_of s ->
  low_cutoff_of s == - high_cutoff_of s ->
  (0 < i)%Z -> (2 * i < fft_size_ s)%Z ->
  let kernel := filter_kernel_ (designFilter M s) in
  bin_frequency (fft_size_ s) (frequency_resolution_ s) (fft_size_ s - i)
  == - bin_frequency (fft_size_ s) (frequency_resolution_ s) i
  /\ re (nth (Z.to_nat (fft_size_ s - i)) kernel czero)
     == re (nth (Z.to_nat i) kernel czero)
  /\ im (nth (Z.to_nat (fft_size_ s - i)) kernel czero) = 0
  /\ im (nth (Z.to_nat i) kernel czero) = 0.
Proof.
  intros Hv Hp Hle Hsym Hi0 Hi. cbv zeta.
  rewrite !designFilter_nth by (assumption || lia).
  rewrite !Z2Nat.id by lia.
  unfold designed_bin, kernel_bin. rewrite Hp. cbv zeta. cbn [re im].
  assert (Hf : bin_frequency (fft_size_ s) (frequency_resolution_ s)
                 (fft_size_ s - i)
               == - bin_frequency (fft_size_ s) (frequency_resolution_ s) i).
  { unfold bin_frequency. rewrite Z.quot_div_nonneg by lia.
    pose proof (Z.div_mod (fft_size_ s) 2 ltac:(lia)) as Hdm.
    pose proof (Z.mod_pos_bound (fft_size_ s) 2 ltac:(lia)) as Hmb.
    destruct (Z.leb_spec (fft_size_ s - i) (fft_size_ s / 2)); [lia|].
    destruct (Z.leb_spec i (fft_size_ s / 2)); [|lia].
    replace (fft_size_ s - i - fft_size_ s)%Z with (- i)%Z by lia.
    rewrite inject_Z_opp. ring. }
  split; [exact Hf | split; [|split; reflexivity]].
  apply fmax_Qeq. now apply shaped_response_mirror.
Qed.

Lemma non_ssb_kernel_is_symmetric_witness :
  let s := setPassband (-30500) 30500 (ready libm_rational 256000 256) in
  isValidForProcessing s = true
  /\ re (nth 224 (filter_kernel_ (designFilter libm_rational s)) czero)
     == re (nth 32 (filter_kernel_ (designFilter libm_rational s)) czero).
Proof.
  cbv zeta.
  set (s := setPassband (-30500) 30500 (ready libm_rational 256000 256)).
  assert (Hv : isValidForProcessing s = true) by (vm_compute; reflexivity).
  split; [exact Hv|].
  refine (proj1 (proj2 (non_ssb_kernel_is_symmetric libm_rational s 32
                          Hv _ _ _ _ _))).
  - reflexivity.
  - vm_compute. discriminate.
  - vm_compute. reflexivity.
  - lia.
  - vm_compute. reflexivity.
Defined.

Lemma smoothstep_range (t : Q) :
  0 <= t -> t <= 1 -> 0 <= t * t * (3 - 2 * t) <= 1.
Proof.
  intros H0 H1. split.
  - apply Qmult_le_0_compat; [apply Qmult_le_0_compat|]; lra.
  - apply Qle_minus_iff.
    setoid_replace (1 + - (t * t * (3 - 2 * t)))
      with ((1 - t) * (1 - t) * (1 + 2 * t)) by ring.
    apply Qmult_le_0_compat; [apply Qmult_le_0_compat|]; lra.
Qed.

Lemma ramp_range (x t : Q) : 0 < t -> 0 <= x -> x <= t -> 0 <= x / t <= 1.
Proof.
  intros Ht H0 H1. split.
  - apply Qle_shift_div_l; lra.
  - apply Qle_shift_div_r; lra.
Qed.

Lemma scaled_range (r k : Q) :
  0 <= r <= 1 -> 0 <= k <= 1 -> 0 <= r * k <= k.
Proof.
  intros [Hr0 Hr1] [Hk0 Hk1]. split.
  - apply Qmult_le_0_compat; lra.
  - setoid_replace k with (1 * k) at 2 by ring.
    apply Qmult_le_compat_r; lra.
Qed.

(** Before the floor, the response of every protocol branch is between 0
    and 1; with sharp cutoff in USB and LSB it is at most 0.01 on the
    opposite sideband. *)
Lemma shaped_response_range (p : Protocol) (sharp : bool)
    (center low high df f : Q) :
  0 < df ->
  0 <= shaped_response p sharp center low high df f <= 1
  /\ (sharp = true ->
      (p = USB /\ f < center) \/ (p = LSB /\ center < f) ->
      shaped_response p sharp center low high df f <= 0.01).
Proof.
  intros Hdf. unfold shaped_response. cbv zeta.
  destruct (is_ssb p) eqn:Hp.
  - destruct sharp.
    + set (r := if Qle_bool low f && Qle_bool f high then 1 else _).
      assert (Hr : 0 <= r <= 1).
      { subst r.
        destruct (Qle_bool low f && Qle_bool f high); [lra|].
        destruct (Qle_bool_spec (low - df * 1) f), (Qltb_spec f low);
          cbn [andb]; try (apply smoothstep_range; apply ramp_range; lra);
          destruct (Qltb_spec high f), (Qle_bool_spec f (high + df * 1));
          cbn [andb]; try lra;
          apply smoothstep_range; apply ramp_range; lra. }
      pose proof (scaled_range r 0.01 Hr ltac:(lra)) as Hs.
      split.
      * destruct (Protocol_eqb p USB && Qltb f center); [lra|].
        destruct (Protocol_eqb p LSB && Qltb center f); lra.
      * intros _ [[-> Hf]|[-> Hf]]; cbn [Protocol_eqb andb].
        -- destruct (Qltb_spec f center); [lra | contradiction].
        -- destruct (Qltb_spec center f); [lra | contradiction].
    + split; [|discriminate].
      destruct (Qle_bool low f && Qle_bool f high); lra.
  - split.
    + destruct (Qle_bool low f && Qle_bool f high); [lra|].
      destruct (Qle_bool_spec (low - df * 2) f), (Qltb_spec f low);
        cbn [andb]; try (apply ramp_range; lra);
        destruct (Qltb_spec high f), (Qle_bool_spec f (high + df * 2));
        cbn [andb]; try lra; apply ramp_range; lra.
    + intros _ [[-> _]|[-> _]]; discriminate Hp.
Qed.

Lemma fmax_upper_bound (a b c : Q) : a <= c -> b <= c -> fmax a b <= c.
Proof. intros Ha Hb. unfold fmax. destruct (Qltb a b); assumption. Qed.

Lemma suppression_factor_at_most_one (p : Protocol) (center f : Q) :
  suppression_factor p center f <= 1.
Proof.
  unfold suppression_factor.
  destruct (Protocol_eqb p USB && Qltb f center);
    [|destruct (Protocol_eqb p LSB && Qltb center f)];
    try destruct (Qltb (Qabs (f - center)) 3000); vm_compute; discriminate.
Qed.

(** The magnitude of a designed bin: the floored response times the
    suppression factor. *)
Lemma designed_bin_magnitude (M : LibM) (s : Filter) (i : Z) :
  0 <= min_response M (config_ s) ->
  0 < frequency_resolution_ s ->
  cabs M (designed_bin M s i)
  == fmax (shaped_response (protocol (config_ s)) (ssb_sharp_cutoff_ s)
             (current_center_freq_ s) (low_cutoff_of s) (high_cutoff_of s)
             (frequency_resolution_ s)
             (bin_frequency (fft_size_ s) (frequency_resolution_ s) i))
          (min_response M (config_ s))
     * suppression_factor (protocol (config_ s)) (current_center_freq_ s)
         (bin_frequency (fft_size_ s) (frequency_resolution_ s) i).
Proof.
  intros Hm Hdf. unfold designed_bin, kernel_bin. cbv zeta.
  set (r := shaped_response _ _ _ _ _ _ _).
  set (m := min_response M (config_ s)) in *.
  set (k := suppression_factor _ _ _).
  pose proof (fmax_lower_bound r m) as Hlow.
  pose proof (suppression_factor_positive (protocol (config_ s))
                (current_center_freq_ s)
                (bin_frequency (fft_size_ s) (frequency_resolution_ s) i)) as Hk.
  fold k in Hk.
  destruct (is_ssb (protocol (config_ s))) eqn:Hp.
  - unfold cscale. cbn [re im]. rewrite cabs_real by ring.
    apply Qabs_pos. apply Qmult_le_0_compat; lra.
  - rewrite cabs_real by reflexivity.
    assert (Hk1 : k = 1) by (apply suppression_factor_non_ssb; exact Hp).
    rewrite Hk1, Qabs_pos by lra. ring.
Qed.

(** X15: when the stopband floor [10 ^ (- attenuation / 20)] is between 0
    and 1, every bin of the designed kernel has a magnitude between 0 and
    1, for every protocol, and so has every value [getResponse] returns
    after the design pass. *)
Theorem designed_gain_is_at_most_one (M : LibM) (s : Filter) :
  isValidForProcessing s = true ->
  0 <= min_response M (config_ s) <= 1 ->
  (forall i, (0 <= i < fft_size_ s)%Z ->
     0 <= cabs M (nth (Z.to_nat i) (filter_kernel_ (designFilter M s)) czero)
     <= 1)
  /\ (forall frequency,
        0 <= getResponse M (designFilter M s) frequency <= 1).
Proof.
  intros Hv [Hm0 Hm1].
  pose proof (proj1 (isValidForProcessing_true s) Hv) as (_ & _ & HN & Hdf).
  assert (Hbin : forall i, 0 <= cabs M (designed_bin M s i) <= 1).
  { intros i. rewrite designed_bin_magnitude by assumption.
    set (r := shaped_response _ _ _ _ _ _ _).
    set (k := suppression_factor _ _ _).
    pose proof (proj1 (shaped_response_range (protocol (config_ s))
                  (ssb_sharp_cutoff_ s) (current_center_freq_ s)
                  (low_cutoff_of s) (high_cutoff_of s) (frequency_resolution_ s)
                  (bin_frequency (fft_size_ s) (frequency_resolution_ s) i)
                  Hdf)) as Hr.
    fold r in Hr.
    pose proof (fmax_lower_bound r (min_response M (config_ s))) as Hlow.
    pose proof (fmax_upper_bound r (min_response M (config_ s)) 1
                  ltac:(lra) Hm1) as Hup.
    pose proof (suppression_factor_positive (protocol (config_ s))
                  (current_center_freq_ s)
                  (bin_frequency (fft_size_ s) (frequency_resolution_ s) i)) as Hk0.
    pose proof (suppression_factor_at_most_one (protocol (config_ s))
                  (current_center_freq_ s)
                  (bin_frequency (fft_size_ s) (frequency_resolution_ s) i)) as Hk1.
    fold k in Hk0, Hk1.
    pose proof (scaled_range _ k (conj (Qle_trans _ _ _ Hm0 Hlow) Hup)
                  ltac:(lra)).
    lra. }
  split.
  - intros i Hi. rewrite designFilter_nth by (assumption || lia).
    rewrite Z2Nat.id by lia. apply Hbin.
  - intros f.
    pose proof (designFilter_same_resources M s) as Hsame.
    pose proof (same_resources_valid _ _ Hsame) as Hv'. rewrite Hv in Hv'.
    destruct Hsame as (_ & _ & Hn & _).
    destruct (getResponse_cases M (designFilter M s) f) as [_ H].
    destruct (H Hv') as [Hout Hin];
      [rewrite Hn; now apply designFilter_length|].
    destruct (Qlt_le_dec (sample_rate (config_ (designFilter M s)) / 2) (Qabs f))
      as [Hf|Hf].
    + rewrite (Hout Hf). lra.
    + rewrite (Hin Hf).
      pose proof (clamp_range
                    (float_to_int ((f + sample_rate (config_ (designFilter M s)) / 2)
                                   / frequency_resolution_ (designFilter M s)))
                    0 (fft_size_ (designFilter M s) - 1) ltac:(lia)) as Hb.
      fold (response_bin (designFilter M s) f) in Hb. rewrite Hn in Hb.
      rewrite designFilter_nth by (assumption || lia). apply Hbin.
Qed.

Lemma designed_gain_is_at_most_one_witness :
  let s := updateFilterParameters libm_rational
             (configure usb_60dB (setProtocol USB (ready libm_rational 256000 256))) in
  isValidForProcessing s = true
  /\ 0 <= getResponse libm_rational (designFilter libm_rational s) 1000 <= 1.
Proof.
  cbv zeta.
  set (s := updateFilterParameters _ _).
  assert (Hv : isValidForProcessing s = true) by (vm_compute; reflexivity).
  split; [exact Hv|].
  refine (proj2 (designed_gain_is_at_most_one libm_rational s Hv _) 1000).
  vm_compute. split; discriminate.
Defined.

Lemma suppression_factor_opposite (p : Protocol) (center f : Q) :
  (p = USB /\ f < center) \/ (p = LSB /\ center < f) ->
  suppression_factor p center f
  = if Qltb (Qabs (f - center)) 3000 then 0.001 else 0.1.
Proof.
  unfold suppression_factor. intros [[-> H]|[-> H]]; cbn [Protocol_eqb andb].
  - destruct (Qltb_spec f center); [reflexivity | contradiction].
  - destruct (Qltb_spec center f); [reflexivity | contradiction].
Qed.

Lemma suppression_factor_wanted (p : Protocol) (center f : Q) :
  ~ (p = USB /\ f < center) -> ~ (p = LSB /\ center < f) ->
  suppression_factor p center f = 1.
Proof.
  unfold suppression_factor. intros Hu Hl.
  destruct p; cbn [Protocol_eqb andb]; try reflexivity.
  - destruct (Qltb_spec f center); [exfalso; auto | reflexivity].
  - destruct (Qltb_spec center f); [exfalso; auto | reflexivity].
Qed.

(** X16: in USB every bin below the center frequency, and in LSB every bin
    above it, is designed at least 20 dB down (gain at most 0.1) and, within
    3 kHz of the center, at least 60 dB down, provided the stopband floor is
    between 0 and 1; with sharp cutoff and a floor of at most 0.01 these
    bounds become 60 dB and 100 dB. *)
Theorem opposite_sideband_is_suppressed (M : LibM) (s : Filter) (i : Z) :
  isValidForProcessing s = true ->
  0 <= min_response M (config_ s) <= 1 ->
  (0 <= i < fft_size_ s)%Z ->
  let f := bin_frequency (fft_size_ s) (frequency_resolution_ s) i in
  let center := current_center_freq_ s in
  (protocol (config_ s) = USB /\ f < center)
  \/ (protocol (config_ s) = LSB /\ center < f) ->
  let gain :=
    cabs M (nth (Z.to_nat i) (filter_kernel_ (designFilter M s)) czero) in
  gain <= 0.1
  /\ (Qabs (f - center) < 3000 -> gain <= 0.001)
  /\ (ssb_sharp_cutoff_ s = true -> min_response M (config_ s) <= 0.01 ->
      gain <= 0.001 /\ (Qabs (f - center) < 3000 -> gain <= 0.00001)).
Proof.
  intros Hv [Hm0 Hm1] Hi. cbv zeta. intros Hside.
  pose proof (proj1 (isValidForProcessing_true s) Hv) as (_ & _ & HN & Hdf).
  rewrite designFilter_nth by (assumption || lia).
  rewrite Z2Nat.id, designed_bin_magnitude by (assumption || lia).
  rewrite (suppression_factor_opposite _ _ _ Hside).
  set (f := bin_frequency (fft_size_ s) (frequency_resolution_ s) i) in *.
  destruct (shaped_response_range (protocol (config_ s)) (ssb_sharp_cutoff_ s)
              (current_center_freq_ s) (low_cutoff_of s) (high_cutoff_of s)
              (frequency_resolution_ s) f Hdf) as [Hr Hsharp].
  set (r := shaped_response _ _ _ _ _ _ _) in *.
  set (m := min_response M (config_ s)) in *.
  pose proof (fmax_lower_bound r m) as Hlow.
  pose proof (fmax_upper_bound r m 1 ltac:(lra) Hm1) as Hup.
  assert (Hg : 0 <= fmax r m <= 1) by lra.
  pose proof (scaled_range _ 0.001 Hg ltac:(lra)) as H1.
  pose proof (scaled_range _ 0.1 Hg ltac:(lra)) as H2.
  split; [|split].
  - destruct (Qltb _ 3000); lra.
  - intros Hd. destruct (Qltb_spec (Qabs (f - current_center_freq_ s)) 3000);
      [lra | contradiction].
  - intros Hs Hm.
    pose proof (fmax_upper_bound r m 0.01 (Hsharp Hs Hside) Hm) as Hup'.
    assert (H3 : fmax r m * 0.001 <= 0.01 * 0.001)
      by (apply Qmult_le_compat_r; lra).
    assert (H4 : fmax r m * 0.1 <= 0.01 * 0.1)
      by (apply Qmult_le_compat_r; lra).
    split.
    + destruct (Qltb _ 3000); lra.
    + intros Hd.
      destruct (Qltb_spec (Qabs (f - current_center_freq_ s)) 3000);
        [lra | contradiction].
Qed.

Lemma opposite_sideband_is_suppressed_witness :
  let s := updateFilterParameters libm_rational
             (configure usb_60dB (setProtocol USB (ready libm_rational 256000 256))) in
  isValidForProcessing s = true
  /\ bin_frequency (fft_size_ s) (frequency_resolution_ s) 255 < 0
  /\ cabs libm_rational
       (nth 255 (filter_kernel_ (designFilter libm_rational s)) czero)
     <= 0.00001.
Proof.
  cbv zeta.
  set (s := updateFilterParameters _ _).
  assert (Hv : isValidForProcessing s = true) by (vm_compute; reflexivity).
  assert (Hf : bin_frequency (fft_size_ s) (frequency_resolution_ s) 255 < 0)
    by (vm_compute; reflexivity).
  split; [exact Hv | split; [exact Hf|]].
  assert (Hside : (protocol (config_ s) = USB
                   /\ bin_frequency (fft_size_ s) (frequency_resolution_ s) 255
                      < current_center_freq_ s)
                  \/ (protocol (config_ s) = LSB
                      /\ current_center_freq_ s
                         < bin_frequency (fft_size_ s) (frequency_resolution_ s)
                             255)).
  { left. split; [vm_compute; reflexivity | vm_compute; reflexivity]. }
  destruct (opposite_sideband_is_suppressed libm_rational s 255 Hv
              ltac:(vm_compute; split; discriminate)
              ltac:(vm_compute; split; [discriminate | reflexivity]) Hside)
    as (_ & _ & Hsharp).
  destruct Hsharp as [_ H]; [vm_compute; reflexivity | vm_compute; discriminate|].
  apply H. vm_compute. reflexivity.
Defined.

(** X17: a bin whose frequency lies between the two cutoffs, and in USB or
    LSB not on the opposite sideband, is designed with unit gain whenever the
    stopband floor is between 0 and 1. *)
Theorem passband_bins_have_unit_gain (M : LibM) (s : Filter) (i : Z) :
  isValidForProcessing s = true ->
  0 <= min_response M (config_ s) <= 1 ->
  (0 <= i < fft_size_ s)%Z ->
  let f := bin_frequency (fft_size_ s) (frequency_resolution_ s) i in
  low_cutoff_of s <= f <= high_cutoff_of s ->
  ~ (protocol (config_ s) = USB /\ f < current_center_freq_ s) ->
  ~ (protocol (config_ s) = LSB /\ current_center_freq_ s < f) ->
  cabs M (nth (Z.to_nat i) (filter_kernel_ (designFilter M s)) czero) == 1.
Proof.
  intros Hv [Hm0 Hm1] Hi. cbv zeta. intros [Hl Hh] Hu Hls.
  pose proof (proj1 (isValidForProcessing_true s) Hv) as (_ & _ & HN & Hdf).
  rewrite designFilter_nth by (assumption || lia).
  rewrite Z2Nat.id, designed_bin_magnitude by (assumption || lia).
  rewrite (suppression_factor_wanted _ _ _ Hu Hls).
  set (f := bin_frequency (fft_size_ s) (frequency_resolution_ s) i) in *.
  assert (Hr : shaped_response (protocol (config_ s)) (ssb_sharp_cutoff_ s)
                 (current_center_freq_ s) (low_cutoff_of s) (high_cutoff_of s)
                 (frequency_resolution_ s) f = 1).
  { unfold shaped_response. cbv zeta.
    destruct (Qle_bool_spec (low_cutoff_of s) f); [|contradiction].
    destruct (Qle_bool_spec f (high_cutoff_of s)); [|contradiction].
    cbn [andb].
    destruct (is_ssb (protocol (config_ s))); [|reflexivity].
    destruct (ssb_sharp_cutoff_ s); [|reflexivity].
    destruct (Protocol_eqb_spec (protocol (config_ s)) USB) as [E|_];
      cbn [andb].
    - destruct (Qltb_spec f (current_center_freq_ s)); [exfalso; auto|].
      rewrite E. reflexivity.
    - destruct (Protocol_eqb_spec (protocol (config_ s)) LSB) as [E|_];
        cbn [andb]; [|reflexivity].
      destruct (Qltb_spec (current_center_freq_ s) f);
        [exfalso; auto | reflexivity]. }
  rewrite Hr. unfold fmax.
  destruct (Qltb_spec 1 (min_response M (config_ s))); [lra | ring].
Qed.

Lemma passband_bins_have_unit_gain_witness :
  let s := updateFilterParameters libm_rational
             (configure usb_60dB (setProtocol USB (ready libm_rational 256000 256))) in
  isValidForProcessing s = true
  /\ bin_frequency (fft_size_ s) (frequency_resolution_ s) 2 == 2000
  /\ cabs libm_rational
       (nth 2 (filter_kernel_ (designFilter libm_rational s)) czero) == 1.
Proof.
  cbv zeta.
  set (s := updateFilterParameters _ _).
  assert (Hv : isValidForProcessing s = true) by (vm_compute; reflexivity).
  split; [exact Hv | split; [vm_compute; reflexivity|]].
  refine (passband_bins_have_unit_gain libm_rational s 2 Hv _ _ _ _ _).
  - vm_compute. split; discriminate.
  - vm_compute. split; [discriminate | reflexivity].
  - vm_compute. split; discriminate.
  - intros [_ H]. revert H. vm_compute. discriminate.
  - intros [H _]. revert H. vm_compute. discriminate.
Defined.

(** ** Silence *)












(** ** Blocks are filtered in isolation *)

Lemma vec_update_ext {A} (f g : A -> A) (v : list A) (i : nat) :
  (forall x, f x = g x) -> vec_update i f v = vec_update i g v.
Proof.
  intros H. revert i. induction v as [|x v IH]; intros [|i]; cbn;
    try reflexivity; [now rewrite H | now rewrite IH].
Qed.

Lemma for_each_index_ext {A} (body body' : nat -> A -> A) (n : nat)
    (v : list A) :
  (forall i x, (i < n)%nat -> body i x = body' i x) ->
  for_each_index n body v = for_each_index n body' v.
Proof.
  induction n as [|n IH]; intros H; [reflexivity|].
  rewrite !for_each_index_S, IH by (intros; apply H; lia).
  apply vec_update_ext. intros x. apply H. lia.
Qed.

(** A block depends on the input only through the samples it covers. *)
Lemma process_block_window (T : Transform) (s : Filter) (N : Z)
    (input input' : list cplx) (pos pos' block_size : nat) :
  (forall i, (i < block_size)%nat ->
     nth (pos + i) input czero = nth (pos' + i) input' czero) ->
  process_block T s N input pos block_size
  = process_block T s N input' pos' block_size.
Proof.
  intros H. unfold process_block.
  rewrite (for_each_index_ext
             (fun i _ => nth (pos + i) input czero)
             (fun i _ => nth (pos' + i) input' czero)) by (intros; now apply H).
  reflexivity.
Qed.

Lemma filtered_from_fuel (T : Transform) (s : Filter) (N : Z)
    (input : list cplx) :
  (0 < N)%Z ->
  forall (fuel fuel' pos : nat),
    (length input - pos < fuel)%nat -> (length input - pos < fuel')%nat ->
    filtered_from T s N input fuel pos = filtered_from T s N input fuel' pos.
Proof.
  intros HN. induction fuel as [|fuel IH]; intros [|fuel'] pos H H'; try lia.
  cbn [filtered_from].
  destruct (Nat.ltb_spec pos (length input)); [|reflexivity].
  cbv zeta. f_equal. apply IH; lia.
Qed.

Lemma filtered_from_done (T : Transform) (s : Filter) (N : Z)
    (input : list cplx) (fuel pos : nat) :
  (length input <= pos)%nat -> filtered_from T s N input fuel pos = [].
Proof.
  intros H. destruct fuel as [|fuel]; [reflexivity|]. cbn [filtered_from].
  destruct (Nat.ltb_spec pos (length input)); [lia | reflexivity].
Qed.

Lemma filtered_from_kernel (T : Transform) (s s' : Filter) (N : Z)
    (input : list cplx) (fuel pos : nat) :
  filter_kernel_ s' = filter_kernel_ s ->
  filtered_from T s' N input fuel pos = filtered_from T s N input fuel pos.
Proof.
  intros Hk. revert pos. induction fuel as [|fuel IH]; intros pos;
    [reflexivity|].
  cbn [filtered_from]. rewrite IH. unfold process_block. now rewrite Hk.
Qed.

(** The loop of a call that runs alone appends [filtered_from]. *)
Lemma process_loop_filtered (T : Transform) (d : Z) (N : Z)
    (input : list cplx) (s : Filter) :
  (0 < N)%Z ->
  isValidForProcessing s = true ->
  resources_ready s = true ->
  forall (fuel k pos : nat) (output : list cplx),
    (length input - pos < fuel)%nat ->
    process_loop T (quiet d) N input fuel k pos s output
    = Finished s (output ++ filtered_from T s N input fuel pos).
Proof.
  intros HN Hv Hres. unfold resources_ready in Hres.
  rewrite !andb_true_iff in Hres. destruct Hres as [[[H1 H2] H3] H4].
  induction fuel as [|fuel IH]; intros k pos output Hfuel; [lia|].
  cbn [process_loop filtered_from quiet interfere throws].
  rewrite Hv, H1, H2, H3, H4. cbn [negb orb].
  destruct (Nat.ltb_spec pos (length input)); cbn [andb].
  - cbv zeta. rewrite IH by lia. now rewrite <- app_assoc.
  - now rewrite app_nil_r.
Qed.

(** What [process] returns on a valid filter without pending changes. *)
Lemma process_output_filtered (M : LibM) (T : Transform) (d : Z) (s : Filter)
    (input : list cplx) :
  isValidForProcessing s = true ->
  parameters_changed_ s = false ->
  resources_ready s = true ->
  (Z.of_nat (length input) <= 10 * fft_size_ s)%Z ->
  exists s',
    process M T (quiet d) s input
    = Some (s', filtered_from T s (fft_size_ s) input (S (length input)) 0).
Proof.
  intros Hv Hc Hres Hlen. unfold process, prepared. rewrite Hv.
  cbn [negb orb]. cbv zeta.
  change (parameters_changed_ (set_processing_active true s))
    with (parameters_changed_ s).
  rewrite Hc.
  destruct (Nat.eqb_spec (length input) 0) as [E|_].
  { destruct input; [|discriminate E]. eexists. reflexivity. }
  destruct (Z.ltb_spec (fft_size_ s * 10) (Z.of_nat (length input))); [lia|].
  pose proof (proj1 (isValidForProcessing_true s) Hv) as (_ & _ & HN & _).
  rewrite (process_loop_filtered T d (fft_size_ s) input
             (set_processing_active true s) HN Hv Hres) by lia.
  cbn [app]. eexists. f_equal. f_equal.
  now apply filtered_from_kernel.
Qed.

Lemma filtered_from_suffix (T : Transform) (s : Filter) (N : Z)
    (a b : list cplx) :
  forall (fuel pos : nat),
    (length a <= pos)%nat ->
    filtered_from T s N (a ++ b) fuel pos
    = filtered_from T s N b fuel (pos - length a).
Proof.
  induction fuel as [|fuel IH]; intros pos Hpos; [reflexivity|].
  cbn [filtered_from]. rewrite length_app.
  destruct (Nat.ltb_spec pos (length a + length b)),
    (Nat.ltb_spec (pos - length a) (length b)); try lia; [|reflexivity].
  cbv zeta.
  replace (length a + length b - pos)%nat
    with (length b - (pos - length a))%nat by lia.
  rewrite IH by lia. f_equal.
  - apply process_block_window. intros i _.
    rewrite app_nth2 by lia. f_equal. lia.
  - f_equal. lia.
Qed.

Lemma filtered_from_concat (T : Transform) (s : Filter) (N : Z)
    (a b : list cplx) :
  (0 < N)%Z ->
  forall (j fuel pos : nat),
    (pos + j * Z.to_nat N = length a)%nat ->
    (length a + length b - pos < fuel)%nat ->
    filtered_from T s N (a ++ b) fuel pos
    = filtered_from T s N a fuel pos ++ filtered_from T s N b fuel 0.
Proof.
  intros HN. induction j as [|j IH]; intros fuel pos Hj Hfuel.
  - cbn [Nat.mul] in Hj. rewrite filtered_from_suffix by lia.
    replace (pos - length a)%nat with 0%nat by lia.
    now rewrite (filtered_from_done T s N a) by lia.
  - destruct fuel as [|fuel]; [lia|]. cbn [Nat.mul] in Hj.
    remember (filtered_from T s N b (S fuel) 0) as tail_b eqn:Etail.
    cbn [filtered_from]. rewrite length_app.
    destruct (Nat.ltb_spec pos (length a + length b)); [|lia].
    destruct (Nat.ltb_spec pos (length a)); [|lia].
    cbv zeta.
    replace (Nat.min (Z.to_nat N) (length a + length b - pos))
      with (Z.to_nat N) by lia.
    replace (Nat.min (Z.to_nat N) (length a - pos)) with (Z.to_nat N) by lia.
    rewrite (IH fuel (pos + Z.to_nat N)%nat) by lia.
    rewrite <- app_assoc. f_equal.
    + apply process_block_window. intros i Hi. apply app_nth1. lia.
    + f_equal. subst tail_b.
      destruct (Nat.eq_dec (length b) 0) as [Hb|Hb].
      * now rewrite (filtered_from_done T s N b fuel),
          (filtered_from_done T s N b (S fuel)) by lia.
      * apply filtered_from_fuel; [exact HN | lia | lia].
Qed.

(** X19: blocks are filtered in isolation.  On a valid filter without
    pending changes, if [a] consists of whole blocks, [process] of [a]
    followed by [b] returns what it returns for [a] followed by what it
    returns for [b]: nothing is carried from one block into the next. *)
Theorem process_filters_blocks_in_isolation (M : LibM) (T : Transform)
    (d : Z) (s : Filter) (a b : list cplx) (j : nat) :
  isValidForProcessing s = true ->
  parameters_changed_ s = false ->
  resources_ready s = true ->
  length a = (j * Z.to_nat (fft_size_ s))%nat ->
  (Z.of_nat (length (a ++ b)) <= 10 * fft_size_ s)%Z ->
  exists s1 s2 s3 out_a out_b,
    process M T (quiet d) s a = Some (s1, out_a)
    /\ process M T (quiet d) s b = Some (s2, out_b)
    /\ process M T (quiet d) s (a ++ b) = Some (s3, out_a ++ out_b).
Proof.
  intros Hv Hc Hres Hj Hlen. rewrite length_app in Hlen.
  pose proof (proj1 (isValidForProcessing_true s) Hv) as (_ & _ & HN & _).
  destruct (process_output_filtered M T d s a Hv Hc Hres ltac:(lia))
    as (s1 & Ha).
  destruct (process_output_filtered M T d s b Hv Hc Hres ltac:(lia))
    as (s2 & Hb).
  destruct (process_output_filtered M T d s (a ++ b) Hv Hc Hres
              ltac:(rewrite length_app; lia)) as (s3 & Hab).
  exists s1, s2, s3. eexists _, _.
  split; [exact Ha | split; [exact Hb|]]. rewrite Hab. f_equal. f_equal.
  rewrite (filtered_from_concat T s (fft_size_ s) a b HN j)
    by (rewrite ?length_app; lia).
  f_equal.
  - destruct (Nat.eq_dec (length a) 0) as [E|E].
    + now rewrite (filtered_from_done T s _ a (S (length (a ++ b)))),
        (filtered_from_done T s _ a (S (length a))) by lia.
    + apply filtered_from_fuel; [exact HN | rewrite length_app; lia | lia].
  - destruct (Nat.eq_dec (length b) 0) as [E|E].
    + now rewrite (filtered_from_done T s _ b (S (length (a ++ b)))),
        (filtered_from_done T s _ b (S (length b))) by lia.
    + apply filtered_from_fuel; [exact HN | rewrite length_app; lia | lia].
Qed.

Lemma process_filters_blocks_in_isolation_witness :
  let s := ready libm_rational 256000 256 in
  let a := repeat cone 256 in
  let b := [mkC 1 2; mkC 3 4] in
  isValidForProcessing s = true
  /\ exists s1 s2 s3 out_a out_b,
       process libm_rational (loopback 256) (quiet 0) s a = Some (s1, out_a)
       /\ process libm_rational (loopback 256) (quiet 0) s b = Some (s2, out_b)
       /\ process libm_rational (loopback 256) (quiet 0) s (a ++ b)
          = Some (s3, out_a ++ out_b).
Proof.
  cbv zeta.
  set (s := ready libm_rational 256000 256).
  assert (Hv : isValidForProcessing s = true) by (vm_compute; reflexivity).
  split; [exact Hv|].
  refine (process_filters_blocks_in_isolation libm_rational (loopback 256) 0 s
            (repeat cone 256) [mkC 1 2; mkC 3 4] 1 Hv _ _ _ _).
  - reflexivity.
  - vm_compute. reflexivity.
  - vm_compute. reflexivity.
  - vm_compute. discriminate.
Defined.
